(** * EarthX backend: batch verification and mint orchestration

    A shallow embedding of the verification service
    ([VerificationService]), the persistence calls of [BatchService], the
    [verifyBatch] handler of [BatchController] and the mint orchestrator
    ([BlockchainService]), followed by the properties proved about them.

    Conventions of the embedding.
    - A JavaScript [number] is an exact rational ([Q]).  Every number on the
      paths below is a gram count, a row count, a millisecond count or a
      product of one of those with a short decimal literal, so no rounding
      is modelled; numeric equalities on computed values are stated with
      [==].  Module [Binary64] repeats the arithmetic in IEEE 754 doubles
      and evaluates it on the concrete figures used below.
    - The database is a record of tables.  Every [db.query] call runs one
      SQL statement atomically against it, or throws: whether the n-th
      call of a run throws is read from the environment ([db_fault]).
    - The chain is an environment too: the outcome of the n-th
      [executeMintTransaction] attempt is read from [chain].
    - Asynchronous methods are functions in a state-and-exception monad
      over [World]; [try]/[catch] is [try_catch]. *)

From Stdlib Require Import ZArith QArith Qabs Qround String List Bool Lia Lqa.
From Stdlib Require Floats.
From stdpp Require Import base option list gmap strings sorting pretty.

Local Open Scope string_scope.
Local Open Scope list_scope.
Local Open Scope Z_scope.

(** ** JavaScript values *)

Module JS.

Definition number := Q.

(** [a < b], [a <= b], [a > b] on numbers. *)
Definition le (a b : number) : bool := Qle_bool a b.
Definition lt (a b : number) : bool := negb (Qle_bool b a).
Definition gt (a b : number) : bool := lt b a.

(** [Math.abs]. *)
Definition abs (a : number) : number := Qabs a.

(** [a === b] on numbers. *)
Definition eq (a b : number) : bool := Qeq_bool a b.

(** [s || null] for an optional string: the empty string is falsy. *)
Definition string_or_null (s : option string) : option string :=
  match s with
  | Some x => if String.eqb x "" then None else Some x
  | None => None
  end.

(** [n || null] for an optional integer: zero is falsy. *)
Definition int_or_null (n : option Z) : option Z :=
  match n with
  | Some x => if (x =? 0)%Z then None else Some x
  | None => None
  end.

(** [n || 0] for an optional integer. *)
Definition int_or_zero (n : option Z) : Z :=
  match n with
  | Some x => x
  | None => 0
  end.

(** A length or a count as a number. *)
Definition of_nat (n : nat) : number := inject_Z (Z.of_nat n).

(** [ToNumber] of a JSON number or [null]: [null] converts to 0. *)
Definition to_number (v : option number) : number := default 0%Q v.

(** [new Date(v).getTime()] of a JSON timestamp or [null]: 0 for [null]. *)
Definition get_time (v : option Z) : Z := default 0 v.

(** SameValueZero on JSON numbers and [null]. *)
Definition same_value (a b : option number) : bool :=
  match a, b with
  | None, None => true
  | Some x, Some y => Qeq_bool x y
  | _, _ => false
  end.

(** [new Set(values)]: the distinct values, in order of first
    occurrence; [size] is the length. *)
Definition set_add (s : list (option number)) (v : option number) :=
  if existsb (same_value v) s then s else s ++ [v].
Definition new_Set (values : list (option number)) : list (option number) :=
  foldl set_add [] values.

(** [Math.max(...l)] and [Math.min(...l)] of a non-empty list of
    integers (the source only takes them of at least two). *)
Definition max_of (l : list Z) : Z :=
  match l with
  | [] => 0
  | x :: r => foldr Z.max x r
  end.
Definition min_of (l : list Z) : Z :=
  match l with
  | [] => 0
  | x :: r => foldr Z.min x r
  end.

(** [q % 1 === 0]. *)
Definition is_whole (q : number) : bool :=
  Qeq_bool q (inject_Z (Qfloor q)).

(** [hay.includes(needle)]. *)
Fixpoint includes (needle hay : string) : bool :=
  String.prefix needle hay
  || match hay with
     | EmptyString => false
     | String _ rest => includes needle rest
     end.

End JS.

(** ** Tables (schema of the [users], [transactions], [transaction_batch],
       [batches] and [audit_log] relations)

    A row keeps the columns that the statements below read or write;
    timestamps are milliseconds since the epoch. *)

Inductive UserRole := citizen | collector | recycler.

Inductive VerificationStatus := pending | verified | rejected.

Inductive MintStatus := PENDING_MINT | MINTED | FAILED_ON_CHAIN | RETRYING.

#[global] Instance UserRole_eq_dec : EqDecision UserRole.
Proof. solve_decision. Defined.
#[global] Instance VerificationStatus_eq_dec : EqDecision VerificationStatus.
Proof. solve_decision. Defined.
#[global] Instance MintStatus_eq_dec : EqDecision MintStatus.
Proof. solve_decision. Defined.

(** The three outcomes of the weight comparison. *)
Inductive WeightStatus := APPROVED | FLAGGED | REJECTED.

#[global] Instance WeightStatus_eq_dec : EqDecision WeightStatus.
Proof. solve_decision. Defined.

(** The message of a comparison result.  The three classification messages
    embed the percentage (printed by the source with [toFixed(2)]); it is
    kept as the number itself. *)
Inductive Message :=
  | MsgNoTransactions   (* 'Batch has no transactions or batch not found.' *)
  | MsgPassed (pct : Q)
  | MsgRejected (pct : Q)
  | MsgFlagged (pct : Q)
  | MsgSystemError.     (* 'System error during verification. Please try again.' *)

Module User.
Record row := {
  id : Z;
  wallet_address : option string;
  role : UserRole
}.
End User.

Module Tx.
Record row := {
  id : Z;
  citizen_id : Z;
  weight_grams : Q;
  status : string;
  created_at : Z   (* milliseconds since the epoch *)
}.
End Tx.

Module Batch.
Record row := {
  id : Z;
  collector_id : Z;
  recycler_id : option Z;
  total_weight_grams : Q;
  verification_status : VerificationStatus;
  ipfs_proof_hash : option string;
  proof_type : option string;
  verification_notes : option string;
  verified_at : option Z;
  rejection_reason : option Message;
  blockchain_batch_id : option string;
  mint_status : option MintStatus;
  tx_hash : option string;
  block_number : option Z;
  retry_count : Z;
  last_attempt : option Z;
  mint_error : option string;
  created_at : Z;
  updated_at : Z
}.
End Batch.

Module Audit.
(** The JSON written to [old_values] / [new_values]. *)
Inductive values :=
  | VerificationBefore (original_weight : Q)
      (* weight_difference_percentage: null *)
  | VerificationAfter (verified_weight weight_difference_percentage : Q)
      (status : WeightStatus) (message : Message)
  | Activity (verified_weight_total original_weight
              weight_difference_percentage : Q)
      (ipfs_proof_hash : string) (verification_notes : option string).

Record row := {
  user_id : Z;
  action : string;
  table_name : string;
  record_id : Z;
  old_values : option values;
  new_values : option values;
  created_at : Z
}.
End Audit.

Record Database := {
  users : gmap Z User.row;
  transactions : gmap Z Tx.row;
  transaction_batch : list (Z * Z);   (* (transaction_id, batch_id) *)
  batches : gmap Z Batch.row;
  audit_log : list Audit.row
}.

Definition set_batches (d : Database) (b : gmap Z Batch.row) : Database :=
  {| users := users d; transactions := transactions d;
     transaction_batch := transaction_batch d;
     batches := b; audit_log := audit_log d |}.

Definition set_audit_log (d : Database) (l : list Audit.row) : Database :=
  {| users := users d; transactions := transactions d;
     transaction_batch := transaction_batch d;
     batches := batches d; audit_log := l |}.

(** ** Chain-side types ([blockchain.types]) *)

Record BlockchainConfig := {
  gasLimit : Z;
  maxRetries : nat;
  retryDelay : Z;
  confirmations : Z
}.

Module BLOCKCHAIN_CONSTANTS.
Definition GAS_LIMIT : Z := 300000.
Definition MAX_RETRIES : nat := 3.
Definition RETRY_DELAY : Z := 5000.
Definition CONFIRMATIONS : Z := 2.
End BLOCKCHAIN_CONSTANTS.

(** The configuration built by the constructor of [BlockchainService]. *)
Definition default_config : BlockchainConfig :=
  {| gasLimit := BLOCKCHAIN_CONSTANTS.GAS_LIMIT;
     maxRetries := BLOCKCHAIN_CONSTANTS.MAX_RETRIES;
     retryDelay := BLOCKCHAIN_CONSTANTS.RETRY_DELAY;
     confirmations := BLOCKCHAIN_CONSTANTS.CONFIRMATIONS |}.

(** [BlockchainError] and its subclasses: the constructor arguments that
    the orchestrator reads. *)
Record BlockchainError := {
  be_name : string;
  be_message : string;
  be_code : string;
  be_retryable : bool
}.

Definition mkBlockchainError (message code : string) (retryable : bool) :=
  {| be_name := "BlockchainError"; be_message := message;
     be_code := code; be_retryable := retryable |}.
Definition NonceError (message : string) :=
  {| be_name := "NonceError"; be_message := message;
     be_code := "NONCE_ERROR"; be_retryable := true |}.
Definition GasError (message : string) :=
  {| be_name := "GasError"; be_message := message;
     be_code := "GAS_ERROR"; be_retryable := true |}.
Definition ContractError (message : string) :=
  {| be_name := "ContractError"; be_message := message;
     be_code := "CONTRACT_ERROR"; be_retryable := false |}.

Record MintRequest := {
  mr_batchId : Z;
  collectorAddress : string;
  recyclerAddress : string;
  weightAmount : Q;
  ipfsHash : option string
}.

Record MintResult := {
  success : bool;
  transactionHash : option string;
  blockNumber : option Z;
  gasUsed : option string;
  error : option string;
  retryCount : option nat
}.

(** [Partial<BatchMintStatus>], the argument of [updateBatchMintStatus]. *)
Record PartialMintStatus := {
  ms_mintStatus : option MintStatus;
  ms_txHash : option string;
  ms_blockNumber : option Z;
  ms_retryCount : option Z;
  ms_lastAttempt : option Z;
  ms_error : option string
}.

(** ** The environment and the monad of asynchronous methods *)

(** What the chain does with one [executeMintTransaction] attempt: the
    transaction is confirmed, [tx.wait] yields no receipt, or one of the
    awaited provider calls rejects with an error carrying [code] and
    [message]. *)
Inductive ChainOutcome :=
  | Confirmed (hash : string) (block : Z) (gas_used : string)
  | NoReceipt
  | Rejects (code message : string).

Inductive Event :=
  | EvMintAttempt (request : MintRequest)
  | EvSleep (ms : Z).

Record World := {
  db : Database;
  db_calls : nat;               (* db.query calls made so far *)
  db_fault : nat -> bool;       (* does the n-th db.query call throw? *)
  chain_calls : nat;            (* mint attempts made so far *)
  chain : nat -> ChainOutcome;  (* outcome of the n-th mint attempt *)
  clock : Z;                    (* current time, milliseconds *)
  random : string;              (* next Math.random().toString(36) digits *)
  trace : list Event            (* chain attempts and sleeps, oldest first *)
}.

(** What can be thrown: a failed [db.query], a rejection by the chain
    provider, or a [BlockchainError]. *)
Inductive Exn :=
  | DbError
  | Provider (code message : string)
  | Blockchain (e : BlockchainError).

(** [error.code] and [error.message].  The text of a storage error is
    not modelled: it is one fixed string. *)
Definition exn_code (e : Exn) : string :=
  match e with
  | DbError => ""
  | Provider code _ => code
  | Blockchain b => be_code b
  end.
Definition exn_message (e : Exn) : string :=
  match e with
  | DbError => "database error"
  | Provider _ message => message
  | Blockchain b => be_message b
  end.

Inductive Result (A : Type) :=
  | Ok (a : A)
  | Throw (e : Exn).
Arguments Ok {A} a.
Arguments Throw {A} e.

Definition M (A : Type) : Type := World -> Result A * World.

#[global] Instance M_ret : MRet M := fun A a w => (Ok a, w).
#[global] Instance M_bind : MBind M := fun A B f m w =>
  match m w with
  | (Ok a, w') => f a w'
  | (Throw e, w') => (Throw e, w')
  end.

Definition throw {A} (e : Exn) : M A := fun w => (Throw e, w).

(** [try { body } catch (error) { handler error }]. *)
Definition try_catch {A} (body : M A) (handler : Exn -> M A) : M A :=
  fun w =>
    match body w with
    | (Ok a, w') => (Ok a, w')
    | (Throw e, w') => handler e w'
    end.

(** The world after one [db.query] call that left the tables as [d]. *)
Definition after_query (w : World) (d : Database) : World :=
  {| db := d; db_calls := S (db_calls w); db_fault := db_fault w;
     chain_calls := chain_calls w; chain := chain w;
     clock := clock w; random := random w; trace := trace w |}.

(** [await db.query(...)]: one statement, atomic; throws when the
    environment says this call fails, leaving the tables untouched. *)
Definition db_query {A} (statement : Database -> A * Database) : M A :=
  fun w =>
    if db_fault w (db_calls w) then (Throw DbError, after_query w (db w))
    else let '(a, d') := statement (db w) in (Ok a, after_query w d').

(** [new Date()] / [Date.now()] / [CURRENT_TIMESTAMP]. *)
Definition now : M Z := fun w => (Ok (clock w), w).

(** [await this.sleep(ms)]. *)
Definition sleep (ms : Z) : M unit :=
  fun w =>
    (Ok tt,
     {| db := db w; db_calls := db_calls w; db_fault := db_fault w;
        chain_calls := chain_calls w; chain := chain w;
        clock := clock w + ms; random := random w;
        trace := trace w ++ [EvSleep ms] |}).

(** The chain's answer to the next mint attempt. *)
Definition chain_attempt (request : MintRequest) : M ChainOutcome :=
  fun w =>
    (Ok (chain w (chain_calls w)),
     {| db := db w; db_calls := db_calls w; db_fault := db_fault w;
        chain_calls := S (chain_calls w); chain := chain w;
        clock := clock w; random := random w;
        trace := trace w ++ [EvMintAttempt request] |}).

(** ** Controller types and constants ([controllers/types]) *)

Module COLLECTION_LIMITS.
Definition MIN_WEIGHT_GRAMS : Q := 10%Q.
Definition MAX_WEIGHT_GRAMS : Q := 50000%Q.
Definition TOLERANCE_PERCENTAGE : Q := 5%Q.
End COLLECTION_LIMITS.

Record WeightComparisonResult := {
  isWithinTolerance : bool;
  weightDifferencePercentage : Q;
  originalWeight : Q;
  verifiedWeight : Q;
  wc_status : WeightStatus;
  wc_message : Message
}.

(** One element of [BatchTransactionSummary.transactions], as built by
    [JSON_BUILD_OBJECT]: [Some t] carries the columns of a transaction,
    [None] is the object whose fields are all [null] (what the LEFT JOINs
    yield where no transaction matches). *)
Definition JsonTx := option Tx.row.

Definition json_weight_grams (t : JsonTx) : option Q := Tx.weight_grams <$> t.
Definition json_citizen_id (t : JsonTx) : option Z := Tx.citizen_id <$> t.
Definition json_created_at (t : JsonTx) : option Z := Tx.created_at <$> t.

Record BatchTransactionSummary := {
  batchId : Z;
  transactionCount : nat;
  totalOriginalWeight : Q;
  summary_transactions : list JsonTx
}.

(** ** SQL of the verification service *)

Module Sql.

(** [batches b LEFT JOIN transaction_batch tb ON b.id = tb.batch_id
     LEFT JOIN transactions t ON tb.transaction_id = t.id], the [t] side
    of the rows of batch [b]: one row per link, and a single all-NULL
    row when the batch has no link. *)
Definition joined_transactions (d : Database) (b : Z) : list (option Tx.row) :=
  match filter (fun tb => tb.2 = b) (transaction_batch d) with
  | [] => [None]
  | links => (fun tb => transactions d !! tb.1) <$> links
  end.

(** [COUNT(t.id)]: NULLs are not counted. *)
Definition count_ids (rows : list (option Tx.row)) : nat :=
  length (omap id rows).

(** [COALESCE(SUM(t.weight_grams), 0)]: NULLs are skipped. *)
Definition sum_weights (rows : list (option Tx.row)) : Q :=
  foldr (fun t acc => (Tx.weight_grams t + acc)%Q) (0%Q) (omap id rows).

(** [ORDER BY t.created_at DESC]: newest first, NULLs before all. *)
Definition created_desc (x y : option Tx.row) : Prop :=
  match x, y with
  | None, _ => True
  | Some _, None => False
  | Some a, Some b => Tx.created_at b <= Tx.created_at a
  end.

#[global] Instance created_desc_dec x y : Decision (created_desc x y).
Proof. destruct x, y; simpl; apply _. Defined.

Record summary_row := {
  batch_id : Z;
  transaction_count : nat;
  total_original_weight : Q;
  transactions_json : list JsonTx
}.

(** The SELECT of [getBatchTransactionSummary]: one group per batch with
    id [b]. *)
Definition select_batch_summary (b : Z) (d : Database) : list summary_row :=
  match batches d !! b with
  | None => []
  | Some _ =>
      let rows := joined_transactions d b in
      [ {| batch_id := b;
           transaction_count := count_ids rows;
           total_original_weight := sum_weights rows;
           transactions_json := merge_sort created_desc rows |} ]
  end.

(** [INSERT INTO audit_log (...) VALUES (...)]. *)
Definition insert_audit (r : Audit.row) (d : Database) : Database :=
  set_audit_log d (audit_log d ++ [r]).

End Sql.

(** A statement that only reads. *)
Definition reading {A} (q : Database -> A) : Database -> A * Database :=
  fun d => (q d, d).

(** A statement that only writes. *)
Definition writing (u : Database -> Database) : Database -> unit * Database :=
  fun d => (tt, u d).

(** ** VerificationService *)

Module VerificationService.

(** Get detailed summary of all transactions in a batch. *)
Definition getBatchTransactionSummary (batch_id : Z)
  : M (option BatchTransactionSummary) :=
  try_catch
    (rows ← db_query (reading (Sql.select_batch_summary batch_id));
     match rows with
     | [] => mret None
     | row :: _ =>
         mret (Some {| batchId := Sql.batch_id row;
                       transactionCount := Sql.transaction_count row;
                       totalOriginalWeight := Sql.total_original_weight row;
                       summary_transactions := Sql.transactions_json row |})
     end)
    (fun _ => mret None).

(** Log verification attempt for audit trail.  A failing insert is
    swallowed. *)
Definition logVerificationAttempt
    (batch_id recycler_id : Z) (original_weight verified_weight
     weight_difference_percentage : Q) (status : WeightStatus)
    (message : Message) : M unit :=
  try_catch
    (ts ← now;
     db_query (writing (Sql.insert_audit
       {| Audit.user_id := recycler_id;
          Audit.action := "BATCH_VERIFICATION";
          Audit.table_name := "batches";
          Audit.record_id := batch_id;
          Audit.old_values := Some (Audit.VerificationBefore original_weight);
          Audit.new_values :=
            Some (Audit.VerificationAfter verified_weight
                    weight_difference_percentage status message);
          Audit.created_at := ts |})))
    (fun _ => mret tt).

(** The result returned for an empty or missing batch. *)
Definition no_transactions_result (verified_weight_total : Q) :=
  {| isWithinTolerance := false;
     weightDifferencePercentage := 100%Q;
     originalWeight := 0%Q;
     verifiedWeight := verified_weight_total;
     wc_status := REJECTED;
     wc_message := MsgNoTransactions |}.

(** The result returned by the outer [catch]. *)
Definition system_error_result (verified_weight_total : Q) :=
  {| isWithinTolerance := false;
     weightDifferencePercentage := 100%Q;
     originalWeight := 0%Q;
     verifiedWeight := verified_weight_total;
     wc_status := REJECTED;
     wc_message := MsgSystemError |}.

(** The CORE "Double-Weight Verification" logic. *)
Definition verifyBatchWeight
    (batch_id : Z) (verified_weight_total : Q) (recycler_id : Z)
  : M WeightComparisonResult :=
  try_catch
    ((* Step 1: Get all transactions in this batch *)
     batchSummary ← getBatchTransactionSummary batch_id;
     match batchSummary with
     | None => mret (no_transactions_result verified_weight_total)
     | Some batchSummary =>
       if Nat.eqb (transactionCount batchSummary) 0
       then mret (no_transactions_result verified_weight_total)
       else
         (* Step 2: Calculate weight difference *)
         let originalWeight := totalOriginalWeight batchSummary in
         let verifiedWeight := verified_weight_total in
         let weightDifference := JS.abs (originalWeight - verifiedWeight)%Q in
         let weightDifferencePercentage :=
           if JS.gt originalWeight 0%Q
           then ((weightDifference / originalWeight) * 100)%Q
           else 100%Q in
         (* Step 3: Apply the 5% tolerance rule *)
         let isWithinTolerance :=
           JS.le weightDifferencePercentage
                 COLLECTION_LIMITS.TOLERANCE_PERCENTAGE in
         let '(status, message) :=
           if isWithinTolerance
           then (APPROVED, MsgPassed weightDifferencePercentage)
           else if JS.gt weightDifferencePercentage 20%Q
                then (REJECTED, MsgRejected weightDifferencePercentage)
                else (FLAGGED, MsgFlagged weightDifferencePercentage) in
         (* Step 4: Log the verification attempt for audit *)
         logVerificationAttempt batch_id recycler_id originalWeight
           verifiedWeight weightDifferencePercentage status message;;
         mret {| isWithinTolerance := isWithinTolerance;
                 weightDifferencePercentage := weightDifferencePercentage;
                 originalWeight := originalWeight;
                 verifiedWeight := verifiedWeight;
                 wc_status := status;
                 wc_message := message |}
     end)
    (fun _ => mret (system_error_result verified_weight_total)).

(** Calculate EIU rewards based on verified weight. *)
Record EIURewards := {
  citizenRewards : Q;
  collectorBonus : Q;
  recyclerReward : Q;
  totalEIU : Q
}.

Definition calculateEIURewards (verifiedWeight transactionCount : Q)
  : EIURewards :=
  (* Base rate: 1 gram = 0.1 EIU *)
  let baseEIU := (verifiedWeight * 0.1)%Q in
  let citizenRewards := (baseEIU * 0.85)%Q in
  let collectorBonus := (baseEIU * 0.10)%Q in
  let recyclerReward := (baseEIU * 0.05)%Q in
  (* Volume bonus for large batches *)
  let volumeBonus :=
    if JS.gt transactionCount 50%Q then (baseEIU * 0.05)%Q
    else if JS.gt transactionCount 20%Q then (baseEIU * 0.02)%Q
    else 0%Q in
  {| citizenRewards := (citizenRewards + volumeBonus * 0.6)%Q;
     collectorBonus := (collectorBonus + volumeBonus * 0.3)%Q;
     recyclerReward := (recyclerReward + volumeBonus * 0.1)%Q;
     totalEIU := (baseEIU + volumeBonus)%Q |}.

(** Advanced fraud detection - check for suspicious patterns. *)
Record SuspicionReport := {
  isSuspicious : bool;
  reasons : list string;
  riskScore : Z
}.

(** [citizenCounts]: the Map filled by the [forEach] of check 3. *)
Definition count_citizen (m : gmap (option Z) nat) (t : JsonTx)
  : gmap (option Z) nat :=
  let k := json_citizen_id t in
  <[ k := (default 0%nat (m !! k) + 1)%nat ]> m.
Definition citizenCounts (txs : list JsonTx) : gmap (option Z) nat :=
  foldl count_citizen ∅ txs.

Definition detectSuspiciousPatterns (batch_id : Z) : M SuspicionReport :=
  try_catch
    (summary ← getBatchTransactionSummary batch_id;
     match summary with
     | None =>
         mret {| isSuspicious := true; reasons := ["Batch not found"];
                 riskScore := 100 |}
     | Some summary =>
       let txs := summary_transactions summary in
       let reasons : list string := [] in
       let riskScore := 0 in
       (* Check 1: Unusually high number of small transactions *)
       let smallTransactions :=
         List.filter
           (fun t => JS.lt (JS.to_number (json_weight_grams t)) 100%Q) txs in
       let '(reasons, riskScore) :=
         if JS.gt (JS.of_nat (length smallTransactions))
                  (JS.of_nat (transactionCount summary) * 0.8)%Q
         then (reasons ++ ["High concentration of small transactions (< 100g)"],
               riskScore + 30)
         else (reasons, riskScore) in
       (* Check 2: All transactions have exactly the same weight *)
       let uniqueWeights := JS.new_Set (json_weight_grams <$> txs) in
       let '(reasons, riskScore) :=
         if Nat.eqb (length uniqueWeights) 1
            && Nat.ltb 5 (transactionCount summary)
         then (reasons ++ ["All transactions have identical weight values"],
               riskScore + 40)
         else (reasons, riskScore) in
       (* Check 3: Transactions from same citizen multiple times *)
       let duplicateCitizens :=
         List.filter (fun entry => Nat.ltb 1 entry.2)
                     (map_to_list (citizenCounts txs)) in
       let '(reasons, riskScore) :=
         if Nat.ltb 0 (length duplicateCitizens)
         then (reasons ++ [pretty (length duplicateCitizens) +:+
                 " citizens have multiple transactions in same batch"],
               riskScore + 20)
         else (reasons, riskScore) in
       (* Check 4: Total weight seems unrealistic for transaction count.
          With no transaction the quotient is 0/0: NaN in the source, 0
          here, and neither exceeds 10000. *)
       let avgWeight :=
         (totalOriginalWeight summary
          / JS.of_nat (transactionCount summary))%Q in
       let '(reasons, riskScore) :=
         if JS.gt avgWeight 10000%Q
         then (reasons ++ ["Unusually high average weight per transaction"],
               riskScore + 25)
         else (reasons, riskScore) in
       (* Check 5: Time-based patterns *)
       let '(reasons, riskScore) :=
         if Nat.ltb 1 (length txs)
         then
           let timestamps :=
             (fun t => JS.get_time (json_created_at t)) <$> txs in
           let timeSpan := JS.max_of timestamps - JS.min_of timestamps in
           if timeSpan <? 60000
           then (reasons ++
                   ["All transactions recorded within very short time period"],
                 riskScore + 15)
           else (reasons, riskScore)
         else (reasons, riskScore) in
       mret {| isSuspicious := 50 <? riskScore;
               reasons := reasons;
               riskScore := riskScore |}
     end)
    (fun _ =>
       mret {| isSuspicious := true;
               reasons := ["Error during fraud detection"];
               riskScore := 100 |}).

End VerificationService.

(** ** The same arithmetic in binary64 *)

(** Steps 2 and 3 of [verifyBatchWeight], [calculateEIURewards] and the
    comparison of check 1 with the operations of IEEE 754 binary64, the
    precision of a JavaScript number. *)
Module Binary64.

Import Stdlib.Floats.Floats.

#[local] Set Warnings "-inexact-float".

Definition weightDifferencePercentage (originalWeight verifiedWeight : float)
  : float :=
  if (0 <? originalWeight)%float
  then (abs (originalWeight - verifiedWeight) / originalWeight * 100)%float
  else 100%float.

Definition status (originalWeight verifiedWeight : float) : WeightStatus :=
  let p := weightDifferencePercentage originalWeight verifiedWeight in
  if (p <=? 5)%float then APPROVED
  else if (20 <? p)%float then REJECTED else FLAGGED.

Definition calculateEIURewards (verifiedWeight transactionCount : float)
  : float * float * float * float :=
  let baseEIU := (verifiedWeight * 0.1)%float in
  let citizenRewards := (baseEIU * 0.85)%float in
  let collectorBonus := (baseEIU * 0.10)%float in
  let recyclerReward := (baseEIU * 0.05)%float in
  let volumeBonus :=
    if (50 <? transactionCount)%float then (baseEIU * 0.05)%float
    else if (20 <? transactionCount)%float then (baseEIU * 0.02)%float
    else 0%float in
  ((citizenRewards + volumeBonus * 0.6)%float,
   (collectorBonus + volumeBonus * 0.3)%float,
   (recyclerReward + volumeBonus * 0.1)%float,
   (baseEIU + volumeBonus)%float).

(** [smallTransactions.length > summary.transactionCount * 0.8]. *)
Definition small_share (small count : float) : bool :=
  (count * 0.8 <? small)%float.

(** A whole number of grams. *)
Definition grams (n : nat) : float :=
  of_uint63 (Uint63.of_Z (Z.of_nat n)).

End Binary64.

(** ** BatchService *)

Module BatchSql.

(** A value stored in a [DECIMAL(10, 2)] column: rounded to two decimals
    (half away from zero); a rounded magnitude of 10^8 or more is a
    numeric overflow and the statement fails. *)
Definition round2 (q : Q) : Q :=
  let scaled := Qfloor (Qabs q * 100 + (1 # 2))%Q in
  if Qle_bool 0 q then Qmake scaled 100 else Qmake (- scaled) 100.
Definition decimal_10_2 (q : Q) : option Q :=
  let r := round2 q in
  if Qle_bool 100000000 (Qabs r) then None else Some r.

(** [SELECT b.*, ... FROM batches b JOIN users c ON b.collector_id = c.id
     LEFT JOIN users r ON b.recycler_id = r.id WHERE b.id = $1]. *)
Definition select_batch_by_id (b : Z) (d : Database) : list Batch.row :=
  match batches d !! b with
  | Some row =>
      match users d !! Batch.collector_id row with
      | Some _ => [row]
      | None => []
      end
  | None => []
  end.

(** The UPDATE of [updateBatchVerification], [RETURNING *]; [None] when
    the statement fails. *)
Definition update_batch_verification
    (b : Z) (recycler_id : Z) (verified_weight_total : Q)
    (ipfs_proof_hash proof_type : string)
    (verification_notes : option string)
    (verification_status : VerificationStatus)
    (rejection_reason : option Message)
    (blockchain_batch_id : option string) (ts : Z) (d : Database)
  : option (list Batch.row * Database) :=
  match decimal_10_2 verified_weight_total with
  | None => None
  | Some weight =>
      match batches d !! b with
      | None => Some ([], d)
      | Some old =>
          let new :=
            {| Batch.id := Batch.id old;
               Batch.collector_id := Batch.collector_id old;
               Batch.recycler_id := Some recycler_id;
               Batch.total_weight_grams := weight;
               Batch.verification_status := verification_status;
               Batch.ipfs_proof_hash := Some ipfs_proof_hash;
               Batch.proof_type := Some proof_type;
               Batch.verification_notes := verification_notes;
               Batch.verified_at := Some ts;
               Batch.rejection_reason := rejection_reason;
               Batch.blockchain_batch_id := blockchain_batch_id;
               Batch.mint_status := Batch.mint_status old;
               Batch.tx_hash := Batch.tx_hash old;
               Batch.block_number := Batch.block_number old;
               Batch.retry_count := Batch.retry_count old;
               Batch.last_attempt := Batch.last_attempt old;
               Batch.mint_error := Batch.mint_error old;
               Batch.created_at := Batch.created_at old;
               Batch.updated_at := ts |} in
          Some ([new], set_batches d (<[ b := new ]> (batches d)))
      end
  end.

End BatchSql.

(** [await db.query(...)] for a statement that the database may refuse. *)
Definition db_exec {A} (statement : Database -> option (A * Database)) : M A :=
  fun w =>
    if db_fault w (db_calls w) then (Throw DbError, after_query w (db w))
    else match statement (db w) with
         | Some (a, d') => (Ok a, after_query w d')
         | None => (Throw DbError, after_query w (db w))
         end.

Module BatchService.

Record UpdateBatchVerificationParams := {
  p_recycler_id : Z;
  p_verified_weight_total : Q;
  p_ipfs_proof_hash : string;
  p_proof_type : string;
  p_verification_notes : option string;
  p_verification_status : VerificationStatus;
  p_rejection_reason : option Message;
  p_weight_difference_percentage : option Q;
  p_blockchain_batch_id : option string
}.

(** Get batch by ID. *)
Definition getBatchById (batch_id : Z) : M (option Batch.row) :=
  try_catch
    (rows ← db_query (reading (BatchSql.select_batch_by_id batch_id));
     mret (head rows))
    (fun _ => mret None).

(** Update batch verification details.  The statement has no column for
    [weight_difference_percentage]; a failure is rethrown. *)
Definition updateBatchVerification
    (batch_id : Z) (params : UpdateBatchVerificationParams)
  : M (option Batch.row) :=
  try_catch
    (ts ← now;
     rows ← db_exec (BatchSql.update_batch_verification batch_id
               (p_recycler_id params)
               (p_verified_weight_total params)
               (p_ipfs_proof_hash params)
               (p_proof_type params)
               (JS.string_or_null (p_verification_notes params))
               (p_verification_status params)
               (p_rejection_reason params)
               (JS.string_or_null (p_blockchain_batch_id params))
               ts);
     mret (head rows))
    (fun e => throw e).

(** Log batch activity for audit trail.  A failing insert is swallowed. *)
Definition logBatchActivity
    (batch_id recycler_id : Z) (action : WeightStatus)
    (details : Audit.values) : M unit :=
  try_catch
    (ts ← now;
     db_query (writing (Sql.insert_audit
       {| Audit.user_id := recycler_id;
          Audit.action :=
            "BATCH_" +:+ match action with
                         | APPROVED => "APPROVED"
                         | FLAGGED => "FLAGGED"
                         | REJECTED => "REJECTED"
                         end;
          Audit.table_name := "batches";
          Audit.record_id := batch_id;
          Audit.old_values := None;
          Audit.new_values := Some details;
          Audit.created_at := ts |})))
    (fun _ => mret tt).

End BatchService.

(** ** BatchController.verifyBatch *)

Module BatchController.

Record VerifyBatchRequest := {
  batch_id : Z;
  verified_weight_total : Q;
  ipfs_proof_hash : string;
  proof_type : option string;
  verification_notes : option string
}.

Record AuthenticatedRequest := {
  user : option User.row;
  body : VerifyBatchRequest
}.

(** The fields that fail validation, in the order the source pushes
    them. *)
Definition validateVerifyBatchRequest (data : VerifyBatchRequest)
  : list string :=
  (if batch_id data <=? 0 then ["batch_id"] else [])
  ++ (if JS.eq (verified_weight_total data) 0%Q
      then ["verified_weight_total"]
      else if JS.le (verified_weight_total data) 0%Q
      then ["verified_weight_total"]
      else if negb (JS.is_whole (verified_weight_total data))
      then ["verified_weight_total"]
      else [])
  ++ (if String.eqb (ipfs_proof_hash data) ""
      then ["ipfs_proof_hash"]
      else if (String.length (ipfs_proof_hash data) <? 46)%nat
              || (64 <? String.length (ipfs_proof_hash data))%nat
      then ["ipfs_proof_hash"]
      else [])
  ++ (match JS.string_or_null (proof_type data) with
      | Some t =>
          if bool_decide (t ∈ ["photo"; "video"; "document"])
          then [] else ["proof_type"]
      | None => []
      end)
  ++ (match JS.string_or_null (verification_notes data) with
      | Some n =>
          if (1000 <? String.length n)%nat
          then ["verification_notes"] else []
      | None => []
      end).

(** Generate a unique blockchain batch ID. *)
Definition generateBlockchainBatchId : M string :=
  fun w => (Ok ("BATCH_" +:+ pretty (clock w) +:+ "_" +:+ random w), w).

Inductive Response :=
  | Status403
  | Status400Validation (fields : list string)
  | Status404
  | Status400NotPending (current : VerificationStatus)
  | Status200 (batch : option Batch.row)
      (verification_result : WeightComparisonResult)
      (mint_initiated : bool)
  | Status500.

(** Verify a batch with weight comparison and IPFS proof.  The detached
    [triggerMintAsync] task is not run here: [mint_initiated] records
    that it was launched. *)
Definition verifyBatch (req : AuthenticatedRequest) : M Response :=
  try_catch
    (match user req with
     | None => mret Status403
     | Some u =>
       if negb (bool_decide (User.role u = recycler)) then mret Status403
       else
         let data := body req in
         match validateVerifyBatchRequest data with
         | _ :: _ as errors => mret (Status400Validation errors)
         | [] =>
           batch ← BatchService.getBatchById (batch_id data);
           match batch with
           | None => mret Status404
           | Some batch =>
             if negb (bool_decide
                        (Batch.verification_status batch = pending))
             then mret (Status400NotPending
                          (Batch.verification_status batch))
             else
               (* Perform the weight comparison verification *)
               verificationResult ←
                 VerificationService.verifyBatchWeight
                   (batch_id data) (verified_weight_total data)
                   (User.id u);
               (* Update batch with verification results *)
               blockchain_batch_id ←
                 match wc_status verificationResult with
                 | APPROVED => id ← generateBlockchainBatchId; mret (Some id)
                 | _ => mret None
                 end;
               updatedBatch ←
                 BatchService.updateBatchVerification (batch_id data)
                   {| BatchService.p_recycler_id := User.id u;
                      BatchService.p_verified_weight_total :=
                        verified_weight_total data;
                      BatchService.p_ipfs_proof_hash := ipfs_proof_hash data;
                      BatchService.p_proof_type :=
                        default "photo"
                          (JS.string_or_null (proof_type data));
                      BatchService.p_verification_notes :=
                        verification_notes data;
                      BatchService.p_verification_status :=
                        match wc_status verificationResult with
                        | APPROVED => verified
                        | FLAGGED => pending
                        | REJECTED => rejected
                        end;
                      BatchService.p_rejection_reason :=
                        match wc_status verificationResult with
                        | REJECTED => Some (wc_message verificationResult)
                        | _ => None
                        end;
                      BatchService.p_weight_difference_percentage :=
                        Some (weightDifferencePercentage verificationResult);
                      BatchService.p_blockchain_batch_id :=
                        blockchain_batch_id |};
               (* Log the verification action *)
               BatchService.logBatchActivity (batch_id data) (User.id u)
                 (wc_status verificationResult)
                 (Audit.Activity (verified_weight_total data)
                    (originalWeight verificationResult)
                    (weightDifferencePercentage verificationResult)
                    (ipfs_proof_hash data) (verification_notes data));;
               (* Trigger mint for approved batches *)
               mret (Status200 updatedBatch verificationResult
                       (bool_decide
                          (wc_status verificationResult = APPROVED)))
           end
         end
     end)
    (fun _ => mret Status500).

End BatchController.

(** ** BlockchainService *)

Module BlockchainSql.

(** The SELECT of [getBatchForMinting]. *)
Definition select_batch_for_minting (b : Z) (d : Database) : list Batch.row :=
  match batches d !! b with
  | Some row =>
      match users d !! Batch.collector_id row with
      | Some _ =>
          if bool_decide (Batch.verification_status row = verified)
             && match Batch.mint_status row with
                | None => true
                | Some FAILED_ON_CHAIN => true
                | Some _ => false
                end
          then [row] else []
      | None => []
      end
  | None => []
  end.

(** [SELECT id, wallet_address, role FROM users
     WHERE id IN ($1, $2) AND wallet_address IS NOT NULL]. *)
Definition select_wallets (collectorId : Z) (recyclerId : option Z)
    (d : Database) : list User.row :=
  let ids :=
    collectorId ::
    match recyclerId with
    | Some r => if bool_decide (r = collectorId) then [] else [r]
    | None => []
    end in
  List.filter (fun u => bool_decide (is_Some (User.wallet_address u)))
              (omap (fun i => users d !! i) ids).

(** The UPDATE of [updateBatchMintStatus]. *)
Definition update_batch_mint_status
    (b : Z) (mint_status : option MintStatus) (tx_hash : option string)
    (block_number : option Z) (retry_count : Z) (last_attempt : option Z)
    (mint_error : option string) (ts : Z) (d : Database) : Database :=
  match batches d !! b with
  | None => d
  | Some old =>
      set_batches d
        (<[ b :=
            {| Batch.id := Batch.id old;
               Batch.collector_id := Batch.collector_id old;
               Batch.recycler_id := Batch.recycler_id old;
               Batch.total_weight_grams := Batch.total_weight_grams old;
               Batch.verification_status := Batch.verification_status old;
               Batch.ipfs_proof_hash := Batch.ipfs_proof_hash old;
               Batch.proof_type := Batch.proof_type old;
               Batch.verification_notes := Batch.verification_notes old;
               Batch.verified_at := Batch.verified_at old;
               Batch.rejection_reason := Batch.rejection_reason old;
               Batch.blockchain_batch_id := Batch.blockchain_batch_id old;
               Batch.mint_status := mint_status;
               Batch.tx_hash := tx_hash;
               Batch.block_number := block_number;
               Batch.retry_count := retry_count;
               Batch.last_attempt := last_attempt;
               Batch.mint_error := mint_error;
               Batch.created_at := Batch.created_at old;
               Batch.updated_at := ts |} ]> (batches d))
  end.

(** [ORDER BY created_at ASC] on batches, listed with their ids. *)
Definition created_asc (x y : Z * Batch.row) : Prop :=
  Batch.created_at x.2 <= Batch.created_at y.2.

#[global] Instance created_asc_dec x y : Decision (created_asc x y).
Proof. unfold created_asc. apply _. Defined.

(** [mint_status = 'FAILED_ON_CHAIN' AND retry_count < $1
     AND (last_attempt IS NULL OR last_attempt < NOW() - INTERVAL '1 hour')],
    at time [ts]. *)
Definition retriable (max_retries ts : Z) (row : Batch.row) : bool :=
  bool_decide (Batch.mint_status row = Some FAILED_ON_CHAIN)
  && (Batch.retry_count row <? max_retries)
  && match Batch.last_attempt row with
     | None => true
     | Some t => t <? ts - 3600000
     end.

(** The SELECT of [retryFailedBatches]: the ids of the first ten such
    batches, oldest first (rows created at the same instant come in the
    order of the table scan). *)
Definition select_failed_batches (max_retries ts : Z) (d : Database)
  : list Z :=
  take 10
    (fst <$> merge_sort created_asc
               (List.filter (fun kb => retriable max_retries ts kb.2)
                            (map_to_list (batches d)))).

End BlockchainSql.

(** What the provider answers to [getTransactionReceipt]: [null], a
    receipt, or a rejection. *)
Inductive ReceiptAnswer :=
  | NoReceiptYet
  | Receipt (status : Z) (block : Z) (gas_used : string)
  | ReceiptFails (message : string).

Record TransactionStatus := {
  confirmed : bool;
  ts_blockNumber : option Z;
  ts_gasUsed : option string;
  ts_error : option string
}.

Module BlockchainService.

Section WithConfig.

Variable config : BlockchainConfig.

(** Execute the actual mint transaction: the awaited provider calls are
    one [chain_attempt]; the [catch] re-throws every failure as a
    [BlockchainError]. *)
Definition executeMintTransaction (request : MintRequest) : M MintResult :=
  try_catch
    (outcome ← chain_attempt request;
     match outcome with
     | Confirmed hash block gas =>
         mret {| success := true; transactionHash := Some hash;
                 blockNumber := Some block; gasUsed := Some gas;
                 error := None; retryCount := None |}
     | NoReceipt =>
         throw (Blockchain (mkBlockchainError
                  "Transaction receipt not received" "NO_RECEIPT" true))
     | Rejects code message => throw (Provider code message)
     end)
    (fun error =>
       (* Handle specific error types *)
       if String.eqb (exn_code error) "UNPREDICTABLE_GAS_LIMIT"
       then throw (Blockchain (GasError
                "Gas estimation failed. Transaction may revert."))
       else if String.eqb (exn_code error) "NONCE_EXPIRED"
               || String.eqb (exn_code error) "NONCE_TOO_LOW"
       then throw (Blockchain (NonceError
                ("Nonce error: " +:+ exn_message error)))
       else if JS.includes "revert" (exn_message error)
       then throw (Blockchain (ContractError
                ("Contract revert: " +:+ exn_message error)))
       else if JS.includes "insufficient funds" (exn_message error)
       then throw (Blockchain (mkBlockchainError
                "Insufficient funds for gas" "INSUFFICIENT_FUNDS" false))
       else throw (Blockchain (mkBlockchainError
                ("Transaction failed: " +:+ exn_message error)
                "TRANSACTION_ERROR" true))).

(** Get batch details for minting. *)
Definition getBatchForMinting (batchId : Z) : M (option Batch.row) :=
  try_catch
    (rows ← db_query
              (reading (BlockchainSql.select_batch_for_minting batchId));
     mret (head rows))
    (fun _ => mret None).

Record UserAddresses := {
  ua_success : bool;
  ua_collectorAddress : option string;
  ua_recyclerAddress : option string;
  ua_error : option string
}.

(** Get user wallet addresses. *)
Definition getUserAddresses (collectorId : Z) (recyclerId : option Z)
  : M UserAddresses :=
  try_catch
    (rows ← db_query
              (reading (BlockchainSql.select_wallets collectorId recyclerId));
     if (length rows <? 2)%nat
     then mret {| ua_success := false; ua_collectorAddress := None;
                  ua_recyclerAddress := None;
                  ua_error :=
                    Some "Missing wallet addresses for collector or recycler" |}
     else
       let collector :=
         List.find (fun u => bool_decide (User.role u = collector)) rows in
       let recycler :=
         List.find (fun u => bool_decide (User.role u = recycler)) rows in
       match JS.string_or_null (collector ≫= User.wallet_address),
             JS.string_or_null (recycler ≫= User.wallet_address) with
       | Some c, Some r =>
           mret {| ua_success := true; ua_collectorAddress := Some c;
                   ua_recyclerAddress := Some r; ua_error := None |}
       | _, _ =>
           mret {| ua_success := false; ua_collectorAddress := None;
                   ua_recyclerAddress := None;
                   ua_error := Some "Invalid wallet addresses" |}
       end)
    (fun _ =>
       mret {| ua_success := false; ua_collectorAddress := None;
               ua_recyclerAddress := None;
               ua_error :=
                 Some "Database error while fetching wallet addresses" |}).

(** Update batch mint status in database.  A failure is rethrown. *)
Definition updateBatchMintStatus (batchId : Z) (status : PartialMintStatus)
  : M unit :=
  try_catch
    (ts ← now;
     db_query (writing (BlockchainSql.update_batch_mint_status batchId
       (ms_mintStatus status)
       (JS.string_or_null (ms_txHash status))
       (JS.int_or_null (ms_blockNumber status))
       (JS.int_or_zero (ms_retryCount status))
       (ms_lastAttempt status)
       (JS.string_or_null (ms_error status))
       ts)))
    (fun e => throw e).

(** How the retry loop of [triggerMint] ends: by the [return] of a
    successful attempt, or by leaving the [while] (condition false, or
    [break]). *)
Inductive LoopExit :=
  | Returned (result : MintResult)
  | Left (retryCount : nat) (lastError : option Exn).

(** [error instanceof BlockchainError && !error.retryable]. *)
Definition non_retryable (e : Exn) : bool :=
  match e with
  | Blockchain b => negb (be_retryable b)
  | _ => false
  end.

(** Step 4 of [triggerMint]: [while (retryCount < maxRetries) {...}].
    [fuel] bounds the number of iterations; [None] is "out of fuel". *)
Fixpoint retry_loop (fuel : nat) (batchId : Z) (request : MintRequest)
    (retryCount : nat) (lastError : option Exn) : M (option LoopExit) :=
  match fuel with
  | O => mret None
  | S fuel =>
    if (retryCount <? maxRetries config)%nat
    then
      try_catch
        (result ← executeMintTransaction request;
         (* Success! Update database and return *)
         updateBatchMintStatus batchId
           {| ms_mintStatus := Some MINTED;
              ms_txHash := transactionHash result;
              ms_blockNumber := blockNumber result;
              ms_retryCount := Some (Z.of_nat retryCount);
              ms_lastAttempt := None;
              ms_error := None |};;
         mret (Some (Returned
           {| success := true;
              transactionHash := transactionHash result;
              blockNumber := blockNumber result;
              gasUsed := gasUsed result;
              error := None;
              retryCount := Some retryCount |})))
        (fun error =>
           let lastError := Some error in
           let retryCount := S retryCount in
           (* Check if error is retryable *)
           if non_retryable error
           then mret (Some (Left retryCount lastError))
           else
             (* Update status to RETRYING *)
             ts ← now;
             updateBatchMintStatus batchId
               {| ms_mintStatus := Some RETRYING;
                  ms_txHash := None;
                  ms_blockNumber := None;
                  ms_retryCount := Some (Z.of_nat retryCount);
                  ms_lastAttempt := Some ts;
                  ms_error := Some (exn_message error) |};;
             (* Wait before retry (exponential backoff) *)
             (if (retryCount <? maxRetries config)%nat
              then sleep (retryDelay config
                          * 2 ^ (Z.of_nat retryCount - 1))
              else mret tt);;
             retry_loop fuel batchId request retryCount lastError)
    else mret (Some (Left retryCount lastError))
  end.

Definition failure (message : string) : MintResult :=
  {| success := false; transactionHash := None; blockNumber := None;
     gasUsed := None; error := Some message; retryCount := None |}.

(** CORE METHOD: Trigger mint for an approved batch.  [None] only if the
    loop ran out of fuel, which [maxRetries + 1] iterations never do. *)
Definition triggerMint (batchId : Z) : M (option MintResult) :=
  (* Step 1: Look up batch in database *)
  batch ← getBatchForMinting batchId;
  match batch with
  | None =>
      mret (Some (failure "Batch not found or not in APPROVED status"))
  | Some batch =>
    (* Step 2: Get user addresses *)
    addresses ← getUserAddresses (Batch.collector_id batch)
                                 (Batch.recycler_id batch);
    if negb (ua_success addresses)
    then mret (Some {| success := false; transactionHash := None;
                       blockNumber := None; gasUsed := None;
                       error := ua_error addresses; retryCount := None |})
    else
      (* Step 3: Update status to PENDING_MINT *)
      ts ← now;
      updateBatchMintStatus batchId
        {| ms_mintStatus := Some PENDING_MINT;
           ms_txHash := None;
           ms_blockNumber := None;
           ms_retryCount := Some 0;
           ms_lastAttempt := Some ts;
           ms_error := None |};;
      (* Step 4: Retry mechanism.  The addresses are present whenever
         [success] is set (the [!] assertions of the source). *)
      exit ← retry_loop (S (maxRetries config)) batchId
               {| mr_batchId := batchId;
                  collectorAddress :=
                    default "" (ua_collectorAddress addresses);
                  recyclerAddress :=
                    default "" (ua_recyclerAddress addresses);
                  weightAmount := Batch.total_weight_grams batch;
                  ipfsHash := Batch.ipfs_proof_hash batch |}
               0%nat None;
      match exit with
      | None => mret None
      | Some (Returned result) => mret (Some result)
      | Some (Left retryCount lastError) =>
        (* All retries failed *)
        ts ← now;
        updateBatchMintStatus batchId
          {| ms_mintStatus := Some FAILED_ON_CHAIN;
             ms_txHash := None;
             ms_blockNumber := None;
             ms_retryCount := Some (Z.of_nat retryCount);
             ms_lastAttempt := Some ts;
             ms_error :=
               Some (default "Unknown error"
                       (JS.string_or_null (exn_message <$> lastError))) |};;
        mret (Some
          {| success := false; transactionHash := None;
             blockNumber := None; gasUsed := None;
             error :=
               Some ("Failed after " +:+ pretty retryCount +:+ " retries: "
                     +:+ default "undefined" (exn_message <$> lastError));
             retryCount := Some retryCount |})
      end
  end.

(** Retry failed batches (cron job helper). *)
Record RetryReport := {
  retried : nat;
  successful : nat;
  failed : nat
}.

(** The [for ... of failedBatches] loop.  A [triggerMint] that ran out of
    fuel would count as failed; it never does. *)
Fixpoint retry_each (ids : list Z) (successful failed : nat)
  : M (nat * nat) :=
  match ids with
  | [] => mret (successful, failed)
  | batch_id :: rest =>
      minted ← (try_catch
                  (mintResult ← triggerMint batch_id;
                   mret (match mintResult with
                         | Some r => success r
                         | None => false
                         end))
                  (fun _ => mret false) : M bool);
      if minted : bool then retry_each rest (S successful) failed
      else retry_each rest successful (S failed)
  end.

Definition retryFailedBatches : M RetryReport :=
  try_catch
    ((* Get batches that failed on chain *)
     ts ← now;
     failedBatches ←
       db_query (reading (BlockchainSql.select_failed_batches
                            (Z.of_nat (maxRetries config)) ts));
     counts ← retry_each failedBatches 0%nat 0%nat;
     mret {| retried := length failedBatches;
             successful := counts.1;
             failed := counts.2 |})
    (fun _ => mret {| retried := 0; successful := 0; failed := 0 |}).

(** Get transaction status.  Reading a receipt changes nothing here: the
    provider's answer is a function of the hash. *)
Definition getTransactionStatus
    (getTransactionReceipt : string -> ReceiptAnswer) (txHash : string)
  : M TransactionStatus :=
  match getTransactionReceipt txHash with
  | NoReceiptYet =>
      mret {| confirmed := false; ts_blockNumber := None;
              ts_gasUsed := None; ts_error := None |}
  | Receipt status block gas_used =>
      mret {| confirmed := (status =? 1); ts_blockNumber := Some block;
              ts_gasUsed := Some gas_used; ts_error := None |}
  | ReceiptFails message =>
      mret {| confirmed := false; ts_blockNumber := None;
              ts_gasUsed := None; ts_error := Some message |}
  end.

End WithConfig.

End BlockchainService.

(** ** BatchController: the endpoints that reach the chain

    The controller holds the [BlockchainService] that its constructor
    builds, with the default configuration. *)

Module BatchMintController.

(** [UserRole]: the string that [req.user.role] holds. *)
Definition role_value (r : UserRole) : string :=
  match r with
  | citizen => "citizen"
  | collector => "collector"
  | recycler => "recycler"
  end.

(** Trigger mint asynchronously (don't block the response): the task
    waits a second, runs [triggerMint] and only logs what happened. *)
Definition triggerMintAsync (batchId : Z) : M unit :=
  try_catch
    (sleep 1000;;
     result ← BlockchainService.triggerMint default_config batchId;
     mret tt)
    (fun _ => mret tt).

Inductive RetryMintResponse :=
  | Retry403                     (* not a recycler *)
  | Retry404
  | Retry403NotVerifier          (* not the recycler of this batch *)
  | Retry400NotFailed
  | Retry200 (batch_id : Z) (mint_result : option MintResult)
  | Retry500.

(** Retry failed mint for a batch.  POST /api/batch/:batchId/retry-mint. *)
Definition retryBatchMint (user : option User.row) (batchId : Z)
  : M RetryMintResponse :=
  try_catch
    (match user with
     | None => mret Retry403
     | Some u =>
       if negb (bool_decide (User.role u = recycler)) then mret Retry403
       else
         batch ← BatchService.getBatchById batchId;
         match batch with
         | None => mret Retry404
         | Some batch =>
           (* Check if user is the recycler for this batch *)
           if negb (bool_decide (Batch.recycler_id batch = Some (User.id u)))
           then mret Retry403NotVerifier
           (* Check if batch can be retried *)
           else if negb (bool_decide
                           (Batch.mint_status batch = Some FAILED_ON_CHAIN))
           then mret Retry400NotFailed
           else
             (* Trigger mint retry *)
             mintResult ← BlockchainService.triggerMint default_config batchId;
             mret (Retry200 (Batch.id batch) mintResult)
         end
     end)
    (fun _ => mret Retry500).

Record MintStatusData := {
  msd_batch_id : Z;
  msd_mint_status : option MintStatus;
  msd_tx_hash : option string;
  msd_block_number : option Z;
  msd_retry_count : Z;
  msd_last_attempt : option Z;
  msd_mint_error : option string;
  msd_blockchain_status : option TransactionStatus
}.

Inductive MintStatusResponse :=
  | MintStatus403                (* role not allowed *)
  | MintStatus404
  | MintStatus403NotYours
  | MintStatus200 (data : MintStatusData)
  | MintStatus500.

(** Get batch mint status.  GET /api/batch/:batchId/mint-status. *)
Definition getBatchMintStatus
    (getTransactionReceipt : string -> ReceiptAnswer)
    (user : option User.row) (batchId : Z) : M MintStatusResponse :=
  try_catch
    (match user with
     | None => mret MintStatus403
     | Some u =>
       if negb (bool_decide
                  (role_value (User.role u) ∈ ["COLLECTOR"; "RECYCLER"]))
       then mret MintStatus403
       else
         batch ← BatchService.getBatchById batchId;
         match batch with
         | None => mret MintStatus404
         | Some batch =>
           (* Check if user has access to this batch *)
           if negb (bool_decide (Batch.collector_id batch = User.id u))
              && negb (bool_decide
                         (Batch.recycler_id batch = Some (User.id u)))
           then mret MintStatus403NotYours
           else
             transactionStatus ←
               match JS.string_or_null (Batch.tx_hash batch) with
               | Some tx_hash =>
                   status ← BlockchainService.getTransactionStatus
                              getTransactionReceipt tx_hash;
                   mret (Some status)
               | None => mret None
               end;
             mret (MintStatus200
               {| msd_batch_id := Batch.id batch;
                  msd_mint_status := Batch.mint_status batch;
                  msd_tx_hash := Batch.tx_hash batch;
                  msd_block_number := Batch.block_number batch;
                  msd_retry_count := Batch.retry_count batch;
                  msd_last_attempt := Batch.last_attempt batch;
                  msd_mint_error := Batch.mint_error batch;
                  msd_blockchain_status := transactionStatus |})
         end
     end)
    (fun _ => mret MintStatus500).

End BatchMintController.

(** ** Sample data *)

Module Sample.

Definition tx (i citizen : Z) (w : Q) (at_ms : Z) : Tx.row :=
  {| Tx.id := i; Tx.citizen_id := citizen; Tx.weight_grams := w;
     Tx.status := "PENDING_BATCH"; Tx.created_at := at_ms |}.

Definition usr (i : Z) (r : UserRole) (wallet : option string) : User.row :=
  {| User.id := i; User.wallet_address := wallet; User.role := r |}.

Definition batch (i : Z) (total : Q) (v : VerificationStatus)
    (m : option MintStatus) : Batch.row :=
  {| Batch.id := i; Batch.collector_id := 1; Batch.recycler_id := Some 2;
     Batch.total_weight_grams := total; Batch.verification_status := v;
     Batch.ipfs_proof_hash := Some "QmProof"; Batch.proof_type := None;
     Batch.verification_notes := None; Batch.verified_at := None;
     Batch.rejection_reason := None; Batch.blockchain_batch_id := None;
     Batch.mint_status := m; Batch.tx_hash := None;
     Batch.block_number := None; Batch.retry_count := 0;
     Batch.last_attempt := None; Batch.mint_error := None;
     Batch.created_at := 0; Batch.updated_at := 0 |}.

Definition people : gmap Z User.row :=
  <[ 1 := usr 1 collector (Some "0xC011") ]>
    (<[ 2 := usr 2 recycler (Some "0x4EC1") ]> ∅).

(** A database holding batch 7 with the given member transactions and
    batch row. *)
Definition database (txs : list Tx.row) (b : Batch.row) : Database :=
  {| users := people;
     transactions := list_to_map ((fun t => (Tx.id t, t)) <$> txs);
     transaction_batch := (fun t => (Tx.id t, 7)) <$> txs;
     batches := <[ 7 := b ]> ∅;
     audit_log := [] |}.

Definition world (d : Database) (faults : nat -> bool)
    (outcomes : nat -> ChainOutcome) : World :=
  {| db := d; db_calls := 0; db_fault := faults; chain_calls := 0;
     chain := outcomes; clock := 1000000; random := "k3x9qz";
     trace := [] |}.

Definition no_fault : nat -> bool := fun _ => false.
Definition no_chain : nat -> ChainOutcome := fun _ => NoReceipt.

(** Batch 7, pending, with one transaction of 1000 g. *)
Definition one_kilo : World :=
  world (database [tx 1 11 1000%Q 0] (batch 7 1000%Q pending None))
        no_fault no_chain.

(** The same world with a storage that fails on the second [db.query]
    call only. *)
Definition one_kilo_audit_down : World :=
  world (database [tx 1 11 1000%Q 0] (batch 7 1000%Q pending None))
        (fun n => Nat.eqb n 1) no_chain.

(** Batch 7 with five transactions of five citizens, hours apart, four of
    them under 100 g: exactly 80% are small. *)
Definition four_small_of_five : World :=
  world (database [tx 1 11 50%Q 0; tx 2 12 60%Q 3600000;
                   tx 3 13 70%Q 7200000; tx 4 14 80%Q 10800000;
                   tx 5 15 200%Q 14400000]
                  (batch 7 460%Q pending None))
        no_fault no_chain.

(** Batch 7 with six transactions of 50 g from one citizen within five
    milliseconds. *)
Definition burst : World :=
  world (database [tx 1 11 50%Q 0; tx 2 11 50%Q 1; tx 3 11 50%Q 2;
                   tx 4 11 50%Q 3; tx 5 11 50%Q 4; tx 6 11 50%Q 5]
                  (batch 7 300%Q pending None))
        no_fault no_chain.

(** A recycler's request to verify batch 7 at [v] grams. *)
Definition request (v : Q) : BatchController.AuthenticatedRequest :=
  {| BatchController.user := Some (usr 2 recycler (Some "0x4EC1"));
     BatchController.body :=
       {| BatchController.batch_id := 7;
          BatchController.verified_weight_total := v;
          BatchController.ipfs_proof_hash :=
            "QmYwAPJzv5CZsnA625s3Xf2nemtYgPpHdWEz79ojWnPbdG";
          BatchController.proof_type := None;
          BatchController.verification_notes := None |} |}.

(** Batch 7 already minted, its row holding the hash and the block. *)
Definition minted_row : Batch.row :=
  {| Batch.id := 7; Batch.collector_id := 1; Batch.recycler_id := Some 2;
     Batch.total_weight_grams := 1000%Q;
     Batch.verification_status := verified;
     Batch.ipfs_proof_hash := Some "QmProof"; Batch.proof_type := None;
     Batch.verification_notes := None; Batch.verified_at := Some 500;
     Batch.rejection_reason := None; Batch.blockchain_batch_id := None;
     Batch.mint_status := Some MINTED; Batch.tx_hash := Some "0xfeed";
     Batch.block_number := Some 4242; Batch.retry_count := 0;
     Batch.last_attempt := Some 900; Batch.mint_error := None;
     Batch.created_at := 0; Batch.updated_at := 900 |}.
Definition minted : World :=
  world (database [tx 1 11 1000%Q 0] minted_row) no_fault no_chain.


(** Batch 7 verified and never minted; every attempt times out. *)
Definition always_times_out : World :=
  world (database [tx 1 11 1000%Q 0] (batch 7 1000%Q verified None))
        no_fault (fun _ => Rejects "TIMEOUT" "request timed out").

(** Batch 7, pending, without transactions. *)
Definition empty_batch : World :=
  world (database [] (batch 7 0%Q pending None)) no_fault no_chain.

End Sample.

(** ** Vocabulary of the statements *)

(** The member transactions of batch [b]: the transactions its links reach,
    in link order. *)
Definition member_transactions (d : Database) (b : Z) : list Tx.row :=
  omap id (Sql.joined_transactions d b).

(** The sum of their weights, computed from the transaction set. *)
Definition member_weight (d : Database) (b : Z) : Q :=
  Sql.sum_weights (Sql.joined_transactions d b).

(** What [getBatchTransactionSummary] yields when its query succeeds. *)
Definition summary_of (d : Database) (b : Z) : option BatchTransactionSummary :=
  match batches d !! b with
  | None => None
  | Some _ =>
      let rows := Sql.joined_transactions d b in
      Some {| batchId := b;
              transactionCount := Sql.count_ids rows;
              totalOriginalWeight := Sql.sum_weights rows;
              summary_transactions := merge_sort Sql.created_desc rows |}
  end.

(** The audit row that [logVerificationAttempt] inserts: the weight before
    ([old_values]) and the figures after ([new_values]). *)
Definition verification_audit_row (batch_id recycler_id ts : Z)
    (original verified percentage : Q) (status : WeightStatus)
    (message : Message) : Audit.row :=
  {| Audit.user_id := recycler_id;
     Audit.action := "BATCH_VERIFICATION";
     Audit.table_name := "batches";
     Audit.record_id := batch_id;
     Audit.old_values := Some (Audit.VerificationBefore original);
     Audit.new_values :=
       Some (Audit.VerificationAfter verified percentage status message);
     Audit.created_at := ts |}.

(** The row recording a comparison result. *)
Definition audit_row_of (batch_id recycler_id ts : Z)
    (r : WeightComparisonResult) : Audit.row :=
  verification_audit_row batch_id recycler_id ts (originalWeight r)
    (verifiedWeight r) (weightDifferencePercentage r) (wc_status r)
    (wc_message r).

(** The percentage of Step 2 and the decision of Step 3, as the claims
    word them. *)
Definition percent_difference (original verified : Q) : Q :=
  (Qabs (original - verified) / original * 100)%Q.

(** The degenerate path of [verifyBatchWeight]: the summary cannot be
    loaded, the batch does not exist, or it has no member transaction. *)
Definition degenerate (w : World) (b : Z) : Prop :=
  db_fault w (db_calls w) = true
  \/ batches (db w) !! b = None
  \/ member_transactions (db w) b = [].

(** Some [db.query] call made between [w] and [w'] failed. *)
Definition storage_failed (w w' : World) : Prop :=
  exists n, (db_calls w <= n < db_calls w')%nat /\ db_fault w n = true.

(** "On any internal failure [verifyBatchWeight] returns REJECTED with
    difference 100", as worded. *)
Definition every_failure_rejects : Prop :=
  forall b v r w res w',
    VerificationService.verifyBatchWeight b v r w = (res, w') ->
    storage_failed w w' ->
    exists x, res = Ok x /\ wc_status x = REJECTED
              /\ weightDifferencePercentage x = 100%Q.

(** "Every invocation of [verifyBatchWeight] appends exactly one audit-log
    row", as worded. *)
Definition every_call_audited : Prop :=
  forall b v r w res w',
    VerificationService.verifyBatchWeight b v r w = (res, w') ->
    exists row, audit_log (db w') = audit_log (db w) ++ [row].


(** *** The fraud heuristics, as the claims word them *)

(** A heuristic that fires adds its points. *)
Definition increment (fires : bool) (points : Z) : Z :=
  if fires then points else 0.

(** [score] is the sum of the increments of the heuristics that hold:
    +30, +40, +20, +25, +15 for [P1] ... [P5]. *)
Definition additive_score (P1 P2 P3 P4 P5 : Prop) (score : Z) : Prop :=
  exists c1 c2 c3 c4 c5 : bool,
    (c1 = true <-> P1) /\ (c2 = true <-> P2) /\ (c3 = true <-> P3)
    /\ (c4 = true <-> P4) /\ (c5 = true <-> P5)
    /\ score = increment c1 30 + increment c2 40 + increment c3 20
               + increment c4 25 + increment c5 15.

(** The number of transactions that weigh under 100 g. *)
Definition small_count (txs : list Tx.row) : nat :=
  length (List.filter (fun t => JS.lt (Tx.weight_grams t) 100%Q) txs).

(** More than 80% of the transactions weigh under 100 g. *)
Definition more_than_80_percent_small (txs : list Tx.row) : Prop :=
  (4 * length txs < 5 * small_count txs)%nat.

(** At least 80% of the transactions weigh under 100 g. *)
Definition at_least_80_percent_small (txs : list Tx.row) : Prop :=
  (4 * length txs <= 5 * small_count txs)%nat.

(** All transactions share one weight. *)
Definition identical_weights (txs : list Tx.row) : Prop :=
  forall x y, x ∈ txs -> y ∈ txs -> (Tx.weight_grams x == Tx.weight_grams y)%Q.

(** Some citizen appears more than once. *)
Definition repeated_citizen (txs : list Tx.row) : Prop :=
  ~ NoDup (Tx.citizen_id <$> txs).

(** The average weight per transaction exceeds 10000 g. *)
Definition total_weight (txs : list Tx.row) : Q :=
  foldr (fun t acc => (Tx.weight_grams t + acc)%Q) 0%Q txs.

Definition heavy_average (txs : list Tx.row) : Prop :=
  (10000 < total_weight txs / JS.of_nat (length txs))%Q.

(** All creation timestamps lie within less than 60 seconds. *)
Definition within_60_seconds (txs : list Tx.row) : Prop :=
  forall x y, x ∈ txs -> y ∈ txs -> Tx.created_at x - Tx.created_at y < 60000.

(** Every link of batch [b] reaches a transaction (the foreign key of
    [transaction_batch.transaction_id]). *)
Definition links_resolved (d : Database) (b : Z) : Prop :=
  forall tb, tb ∈ transaction_batch d -> tb.2 = b ->
             is_Some (transactions d !! tb.1).

(** How often key [k] occurs in [keys]. *)
Definition occurrences (k : option Z) (keys : list (option Z)) : nat :=
  count_occ (decide_rel eq) keys k.

(** The risk score of claim C9, as worded: +30 from 80% up, +15 whenever
    the timestamps span under 60 seconds. *)
Definition risk_score_as_worded : Prop :=
  forall b w,
    db_fault w (db_calls w) = false ->
    is_Some (batches (db w) !! b) ->
    links_resolved (db w) b ->
    member_transactions (db w) b <> [] ->
    let txs := member_transactions (db w) b in
    exists rep w',
      VerificationService.detectSuspiciousPatterns b w = (Ok rep, w')
      /\ additive_score
           (at_least_80_percent_small txs)
           (identical_weights txs /\ (5 < length txs)%nat)
           (repeated_citizen txs)
           (heavy_average txs)
           (within_60_seconds txs)
           (VerificationService.riskScore rep).

(** *** Mint orchestration *)

(** The mint columns of a row. *)
Definition mint_columns (r : Batch.row) :=
  (Batch.mint_status r, Batch.tx_hash r, Batch.block_number r,
   Batch.retry_count r, Batch.last_attempt r, Batch.mint_error r).

(** The columns that [updateBatchMintStatus] does not assign. *)
Definition other_columns (r : Batch.row) :=
  (Batch.id r, Batch.collector_id r, Batch.recycler_id r,
   Batch.total_weight_grams r, Batch.verification_status r,
   Batch.ipfs_proof_hash r, Batch.proof_type r, Batch.verification_notes r,
   Batch.verified_at r, Batch.rejection_reason r,
   Batch.blockchain_batch_id r, Batch.created_at r).

(** A world in which the chain answers every attempt with [o]. *)
Definition probe (o : ChainOutcome) : World :=
  {| db := {| users := ∅; transactions := ∅; transaction_batch := [];
              batches := ∅; audit_log := [] |};
     db_calls := 0; db_fault := fun _ => false; chain_calls := 0;
     chain := fun _ => o; clock := 0; random := ""; trace := [] |}.

Definition probe_request : MintRequest :=
  {| mr_batchId := 0; collectorAddress := ""; recyclerAddress := "";
     weightAmount := 0%Q; ipfsHash := None |}.

(** What [executeMintTransaction] returns or throws when the chain answers
    the attempt with [o]. *)
Definition attempt_result (o : ChainOutcome) : Result MintResult :=
  (BlockchainService.executeMintTransaction probe_request (probe o)).1.

(** The attempt fails with [e], a [BlockchainError]. *)
Definition attempt_fails (o : ChainOutcome) (e : BlockchainError) : Prop :=
  attempt_result o = Throw (Blockchain e).

(** The world right after a chain attempt. *)
Definition attempted (request : MintRequest) (w : World) : World :=
  (chain_attempt request w).2.

Definition is_attempt (e : Event) : bool :=
  match e with
  | EvMintAttempt _ => true
  | EvSleep _ => false
  end.

(** The number of chain submissions recorded in a trace. *)
Definition attempts (t : list Event) : nat := length (List.filter is_attempt t).

(** Batch [b] is eligible for minting, with row [row]: verified, and
    mint status null or FAILED_ON_CHAIN. *)
Definition eligible (d : Database) (b : Z) (row : Batch.row) : Prop :=
  batches d !! b = Some row
  /\ Batch.verification_status row = verified
  /\ (Batch.mint_status row = None
      \/ Batch.mint_status row = Some FAILED_ON_CHAIN).

(** The collector and the recycler of [row] are distinct users with the
    matching roles and non-empty wallet addresses. *)
Definition wallets_on_file (d : Database) (row : Batch.row)
    (collector_wallet recycler_wallet : string) : Prop :=
  exists rid uc ur,
    Batch.recycler_id row = Some rid
    /\ rid <> Batch.collector_id row
    /\ users d !! Batch.collector_id row = Some uc
    /\ users d !! rid = Some ur
    /\ User.role uc = collector
    /\ User.role ur = recycler
    /\ User.wallet_address uc = Some collector_wallet
    /\ User.wallet_address ur = Some recycler_wallet
    /\ collector_wallet <> ""
    /\ recycler_wallet <> "".

(** The world after the RETRYING write and the backoff sleep that follow a
    retryable failure met with [rc] earlier failures. *)
Definition after_retrying (config : BlockchainConfig) (b : Z) (rc : nat)
    (err : Exn) (w1 : World) : World :=
  let w2 :=
    after_query w1
      (BlockchainSql.update_batch_mint_status b (Some RETRYING) None None
         (Z.of_nat (S rc)) (Some (clock w1))
         (JS.string_or_null (Some (exn_message err))) (clock w1) (db w1)) in
  if (S rc <? maxRetries config)%nat
  then (sleep (retryDelay config * 2 ^ (Z.of_nat (S rc) - 1)) w2).2
  else w2.

(** *** Validating a verification request *)

Section RequestValidationVocabulary.

Import BatchController.

(** [q] is a whole number. *)
Definition whole (q : Q) : Prop := exists n : Z, (q == inject_Z n)%Q.

(** The requests that pass validation: a positive batch id, a positive
    whole weight, a hash of 46 to 64 characters, a proof type that is
    absent, empty or known, and notes of at most 1000 characters. *)
Definition acceptable (data : BatchController.VerifyBatchRequest) : Prop :=
  0 < BatchController.batch_id data
  /\ (0 < BatchController.verified_weight_total data)%Q
  /\ whole (BatchController.verified_weight_total data)
  /\ (46 <= String.length (BatchController.ipfs_proof_hash data) <= 64)%nat
  /\ (forall t, BatchController.proof_type data = Some t ->
        t ∈ [""; "photo"; "video"; "document"])
  /\ (forall n, BatchController.verification_notes data = Some n ->
        (String.length n <= 1000)%nat).

(** The fields of a request, in the order in which they are checked. *)
Definition request_fields : list string :=
  ["batch_id"; "verified_weight_total"; "ipfs_proof_hash"; "proof_type";
   "verification_notes"].

End RequestValidationVocabulary.

(** *** The verification endpoint, end to end *)

Section VerifyBatchHandlerVocabulary.

Import VerificationService.
Import BatchController.

(** The audit row that [logBatchActivity] inserts. *)
Definition activity_row (batch_id recycler_id ts : Z) (status : WeightStatus)
    (details : Audit.values) : Audit.row :=
  {| Audit.user_id := recycler_id;
     Audit.action :=
       match status with
       | APPROVED => "BATCH_APPROVED"
       | FLAGGED => "BATCH_FLAGGED"
       | REJECTED => "BATCH_REJECTED"
       end;
     Audit.table_name := "batches";
     Audit.record_id := batch_id;
     Audit.old_values := None;
     Audit.new_values := Some details;
     Audit.created_at := ts |}.

(** The verification status that [verifyBatch] stores for a comparison
    result. *)
Definition stored_status (s : WeightStatus) : VerificationStatus :=
  match s with
  | APPROVED => verified
  | FLAGGED => pending
  | REJECTED => rejected
  end.

(** The columns that the UPDATE of [updateBatchVerification] assigns
    ([updated_at] apart). *)
Definition verification_columns (r : Batch.row) :=
  (Batch.recycler_id r, Batch.total_weight_grams r,
   Batch.verification_status r, Batch.ipfs_proof_hash r, Batch.proof_type r,
   Batch.verification_notes r, Batch.verified_at r, Batch.rejection_reason r,
   Batch.blockchain_batch_id r).

(** The columns that it leaves alone. *)
Definition kept_by_verification (r : Batch.row) :=
  (Batch.id r, Batch.collector_id r, mint_columns r, Batch.created_at r).

(** The request comes from a recycler. *)
Definition authorised (req : AuthenticatedRequest) : bool :=
  match user req with
  | Some u => bool_decide (User.role u = recycler)
  | None => false
  end.

End VerifyBatchHandlerVocabulary.

(** *** The batch summary, the fraud heuristics and the rewards *)

Section SummaryAndFraudVocabulary.

Import VerificationService.

(** No transaction is linked to batch [b]. *)
Definition no_links (d : Database) (b : Z) : Prop :=
  forall tb, tb ∈ transaction_batch d -> tb.2 <> b.

(** What every report of [detectSuspiciousPatterns] satisfies. *)
Definition fraud_report_sound (rep : SuspicionReport) : Prop :=
  0 <= riskScore rep <= 130
  /\ (isSuspicious rep = true <-> 50 < riskScore rep)
  /\ (riskScore rep = 0 <-> reasons rep = [])
  /\ (length (reasons rep) <= 5)%nat
  /\ (isSuspicious rep = true ->
      (2 <= length (reasons rep))%nat \/ reasons rep = ["Batch not found"]).

End SummaryAndFraudVocabulary.

(** *** One chain attempt and the wallet lookup *)

Section ChainAttemptsVocabulary.

Import BlockchainService.



(** User [u] is one of the two users that the lookup names. *)
Definition named (d : Database) (c : Z) (r : option Z) (u : User.row)
  : Prop :=
  users d !! c = Some u \/ exists i, r = Some i /\ users d !! i = Some u.

End ChainAttemptsVocabulary.

(** *** Whole runs of the mint orchestrator *)

Section MintRunsVocabulary.

Import BlockchainService.

(** Only the mint columns and [updated_at] of batch [b] differ between
    [d] and [d']. *)
Definition same_but_mint (b : Z) (d d' : Database) : Prop :=
  users d' = users d
  /\ transactions d' = transactions d
  /\ transaction_batch d' = transaction_batch d
  /\ audit_log d' = audit_log d
  /\ (forall b', b' <> b -> batches d' !! b' = batches d !! b')
  /\ other_columns <$> batches d' !! b = other_columns <$> batches d !! b.

(** The waits recorded in a trace, in milliseconds, oldest first. *)
Definition waits (t : list Event) : list Z :=
  omap (fun e => match e with
                 | EvSleep ms => Some ms
                 | EvMintAttempt _ => None
                 end) t.

(** The requests submitted to the chain, oldest first. *)
Definition submissions (t : list Event) : list MintRequest :=
  omap (fun e => match e with
                 | EvMintAttempt request => Some request
                 | EvSleep _ => None
                 end) t.

(** The first [n] delays of the exponential backoff, starting with the
    wait after failure number [from + 1]. *)
Definition backoff (config : BlockchainConfig) (from n : nat) : list Z :=
  (fun i => retryDelay config * 2 ^ Z.of_nat i) <$> seq from n.


(** The error that the loop remembers after [k] failed attempts. *)
Definition remembered (w : World) (k : nat) (last : option Exn)
  : option Exn :=
  match k with
  | O => last
  | S k' =>
      match attempt_result (chain w (chain_calls w + k')%nat) with
      | Throw err => Some err
      | Ok _ => None
      end
  end.

(** The row of batch [b] is in flight: a mint is under way. *)
Definition in_flight (b : Z) (d : Database) : Prop :=
  exists row, batches d !! b = Some row
              /\ (Batch.mint_status row = Some PENDING_MINT
                  \/ Batch.mint_status row = Some RETRYING).

(** The request that [triggerMint] submits for a batch row. *)
Definition mint_request (b : Z) (row : Batch.row)
    (collector_wallet recycler_wallet : string) : MintRequest :=
  {| mr_batchId := b;
     collectorAddress := collector_wallet;
     recyclerAddress := recycler_wallet;
     weightAmount := Batch.total_weight_grams row;
     ipfsHash := Batch.ipfs_proof_hash row |}.

(** The world in which the retry loop starts: two lookups and the
    PENDING_MINT write made. *)
Definition loop_entry (b : Z) (w : World) : World :=
  after_query (after_query (after_query w (db w)) (db w))
    (BlockchainSql.update_batch_mint_status b (Some PENDING_MINT) None None
       0 (Some (clock w)) None (clock w) (db w)).

(** The text stored and returned when the loop gave up with [last]. *)
Definition last_message (last : option Exn) : string :=
  default "Unknown error" (JS.string_or_null (exn_message <$> last)).

(** The world after the FAILED_ON_CHAIN write. *)
Definition given_up (b : Z) (n : nat) (last : option Exn) (w4 : World)
  : World :=
  after_query w4
    (BlockchainSql.update_batch_mint_status b (Some FAILED_ON_CHAIN) None
       None (Z.of_nat n) (Some (clock w4)) (Some (last_message last))
       (clock w4) (db w4)).

(** The result returned after giving up. *)
Definition gave_up (n : nat) (last : option Exn) : MintResult :=
  {| success := false; transactionHash := None; blockNumber := None;
     gasUsed := None;
     error := Some ("Failed after " +:+ pretty n +:+ " retries: "
                    +:+ default "undefined" (exn_message <$> last));
     retryCount := Some n |}.

(** The storage refuses the MINTED write that follows the first
    confirmation, and nothing else. *)
Definition loses_first_minted_write (w : World) : Prop :=
  db_fault w (db_calls w + 3)%nat = true
  /\ forall n, n <> (db_calls w + 3)%nat -> db_fault w n = false.

(** What a run of [triggerMint] leaves behind, by its outcome. *)
Definition settled (b : Z) (w : World) (res : Result (option MintResult))
    (w' : World) : Prop :=
  match res with
  | Ok (Some r) =>
      if success r
      then
        exists row k,
          batches (db w') !! b = Some row
          /\ retryCount r = Some k
          /\ mint_columns row =
             (Some MINTED, JS.string_or_null (transactionHash r),
              JS.int_or_null (blockNumber r), Z.of_nat k, None, None)
      else
        (db w' = db w /\ trace w' = trace w /\ retryCount r = None)
        \/ (exists row n,
              batches (db w') !! b = Some row
              /\ retryCount r = Some n
              /\ Batch.mint_status row = Some FAILED_ON_CHAIN
              /\ Batch.retry_count row = Z.of_nat n
              /\ Batch.tx_hash row = None
              /\ Batch.block_number row = None
              /\ is_Some (Batch.mint_error row))
  | Ok None => False
  | Throw e =>
      e = DbError
      /\ ((db w' = db w /\ trace w' = trace w) \/ in_flight b (db w'))
  end.

End MintRunsVocabulary.

Module Scenario.

(** Batch 7 verified and never minted, both wallets on file. *)
Definition ready : Database :=
  Sample.database [Sample.tx 1 11 1000%Q 0]
    (Sample.batch 7 1000%Q verified None).

(** Its row. *)
Definition ready_row : Batch.row := Sample.batch 7 1000%Q verified None.

(** The chain times out once and then confirms. *)
Definition confirms_second : World :=
  Sample.world ready Sample.no_fault
    (fun n => match n with
              | O => Rejects "TIMEOUT" "request timed out"
              | _ => Confirmed "0xabc" 4242 "21000"
              end).

(** The chain confirms every submission; the storage fails on its fourth
    call, the MINTED write. *)
Definition lost_write : World :=
  Sample.world ready (fun n => Nat.eqb n 3)
    (fun _ => Confirmed "0xabc" 4242 "21000").

(** The storage fails from its fourth call on. *)
Definition storage_goes_down : World :=
  Sample.world ready (fun n => Nat.leb 3 n)
    (fun _ => Rejects "TIMEOUT" "request timed out").

(** The error that [executeMintTransaction] throws for such a timeout. *)
Definition timeout : BlockchainError :=
  mkBlockchainError "Transaction failed: request timed out"
    "TRANSACTION_ERROR" true.

End Scenario.

(** *** The cron helper and the endpoints that reach the chain *)

Section CronAndEndpointsVocabulary.

Import BlockchainService.
Import BatchMintController.
Import BatchController.

(** The answers that [retryBatchMint] gives before it reaches
    [triggerMint]. *)
Definition answers_without_minting (r : RetryMintResponse) : bool :=
  match r with
  | Retry403 | Retry404 | Retry403NotVerifier | Retry400NotFailed => true
  | Retry200 _ _ | Retry500 => false
  end.

End CronAndEndpointsVocabulary.

Module EndpointScenario.

(** A confirmation from the chain. *)
Definition confirmed : ChainOutcome := Confirmed "0xabc" 4242 "21000".

(** Batch 7 verified, its last mint given up. *)
Definition failed_row : Batch.row :=
  Sample.batch 7 1000%Q verified (Some FAILED_ON_CHAIN).

(** The chain times out once and then confirms. *)
Definition second_chance : World :=
  Sample.world (Sample.database [Sample.tx 1 11 1000%Q 0] failed_row)
    Sample.no_fault
    (fun n => match n with
              | O => Rejects "TIMEOUT" "request timed out"
              | _ => confirmed
              end).

(** Batch 7 pending with one transaction of 1000 g and the mint status
    given; the chain confirms every submission. *)
Definition pending_with (m : option MintStatus) : World :=
  Sample.world
    (Sample.database [Sample.tx 1 11 1000%Q 0]
       (Sample.batch 7 1000%Q pending m))
    Sample.no_fault (fun _ => confirmed).

(** The two users on file. *)
Definition the_recycler : User.row := Sample.usr 2 recycler (Some "0x4EC1").
Definition the_collector : User.row := Sample.usr 1 collector (Some "0xC011").

End EndpointScenario.

(** ** Numbers *)

Lemma JS_le_iff a b : JS.le a b = true <-> (a <= b)%Q.
Proof. apply Qle_bool_iff. Qed.

Lemma JS_lt_iff a b : JS.lt a b = true <-> (a < b)%Q.
Proof.
  unfold JS.lt. rewrite negb_true_iff, <- not_true_iff_false, Qle_bool_iff.
  split; [apply Qnot_le_lt | apply Qlt_not_le].
Qed.

Lemma JS_gt_iff a b : JS.gt a b = true <-> (b < a)%Q.
Proof. apply JS_lt_iff. Qed.

Lemma JS_le_false a b : JS.le a b = false <-> (b < a)%Q.
Proof.
  rewrite <- not_true_iff_false, JS_le_iff.
  split; [apply Qnot_le_lt | apply Qlt_not_le].
Qed.


(** ** Running the verification service *)

Section VerificationRuns.

Import VerificationService.

Lemma getBatchTransactionSummary_run b w :
  getBatchTransactionSummary b w =
  (Ok (if db_fault w (db_calls w) then None else summary_of (db w) b),
   after_query w (db w)).
Proof.
  unfold getBatchTransactionSummary, try_catch, mbind, M_bind, db_query,
    reading.
  destruct (db_fault w (db_calls w)); [reflexivity|].
  unfold summary_of, Sql.select_batch_summary.
  destruct (batches (db w) !! b); reflexivity.
Qed.

Lemma logVerificationAttempt_run b r o v p st msg w :
  logVerificationAttempt b r o v p st msg w =
  (Ok tt,
   after_query w
     (if db_fault w (db_calls w) then db w
      else Sql.insert_audit
             (verification_audit_row b r (clock w) o v p st msg) (db w))).
Proof.
  unfold logVerificationAttempt, try_catch, mbind, M_bind, now, db_query,
    writing.
  destruct (db_fault w (db_calls w)); reflexivity.
Qed.

Lemma degenerate_dec w b : {degenerate w b} + {~ degenerate w b}.
Proof.
  unfold degenerate.
  destruct (db_fault w (db_calls w)); [left; auto|].
  destruct (batches (db w) !! b); [|left; auto].
  destruct (member_transactions (db w) b); [left; auto|].
  right. intros [?|[?|?]]; discriminate.
Qed.

Lemma verifyBatchWeight_degenerate b v r w :
  degenerate w b ->
  verifyBatchWeight b v r w =
  (Ok (no_transactions_result v), after_query w (db w)).
Proof.
  intros Hd. unfold verifyBatchWeight, try_catch, mbind, M_bind.
  rewrite getBatchTransactionSummary_run.
  destruct (db_fault w (db_calls w)) eqn:Hf; [reflexivity|].
  unfold summary_of.
  destruct (batches (db w) !! b) eqn:Hb; [|reflexivity].
  destruct Hd as [Hd|[Hd|Hd]]; try congruence.
  cbn [transactionCount]. unfold Sql.count_ids.
  unfold member_transactions in Hd. rewrite Hd. reflexivity.
Qed.

(** The normal path: the result is determined by the recomputed weight
    and the verified weight, and one audit insert is attempted. *)
Lemma verifyBatchWeight_normal b v r w :
  ~ degenerate w b ->
  exists res,
    verifyBatchWeight b v r w =
    (Ok res,
     after_query (after_query w (db w))
       (if db_fault w (S (db_calls w)) then db w
        else Sql.insert_audit (audit_row_of b r (clock w) res) (db w)))
    /\ originalWeight res = member_weight (db w) b
    /\ verifiedWeight res = v
    /\ weightDifferencePercentage res =
         (if JS.gt (member_weight (db w) b) 0%Q
          then (JS.abs (member_weight (db w) b - v)
                / member_weight (db w) b * 100)%Q
          else 100%Q)
    /\ isWithinTolerance res = JS.le (weightDifferencePercentage res) 5%Q
    /\ wc_status res =
         (if JS.le (weightDifferencePercentage res) 5%Q then APPROVED
          else if JS.gt (weightDifferencePercentage res) 20%Q
               then REJECTED else FLAGGED)
    /\ wc_message res =
         (if JS.le (weightDifferencePercentage res) 5%Q
          then MsgPassed (weightDifferencePercentage res)
          else if JS.gt (weightDifferencePercentage res) 20%Q
               then MsgRejected (weightDifferencePercentage res)
               else MsgFlagged (weightDifferencePercentage res)).
Proof.
  intros Hd. unfold verifyBatchWeight, try_catch, mbind, M_bind.
  rewrite getBatchTransactionSummary_run.
  destruct (db_fault w (db_calls w)) eqn:Hf;
    [exfalso; apply Hd; left; exact Hf|].
  unfold summary_of.
  destruct (batches (db w) !! b) eqn:Hb;
    [|exfalso; apply Hd; right; left; exact Hb].
  cbn [transactionCount totalOriginalWeight].
  destruct (Nat.eqb (Sql.count_ids (Sql.joined_transactions (db w) b)) 0)
    eqn:Hc.
  { exfalso. apply Hd. right; right. apply Nat.eqb_eq in Hc.
    unfold Sql.count_ids in Hc. apply length_zero_iff_nil in Hc.
    exact Hc. }
  fold (member_weight (db w) b).
  unfold COLLECTION_LIMITS.TOLERANCE_PERCENTAGE.
  set (p := if JS.gt (member_weight (db w) b) 0%Q
            then (JS.abs (member_weight (db w) b - v)
                  / member_weight (db w) b * 100)%Q
            else 100%Q).
  destruct (JS.le p 5%Q) eqn:Hle;
    [|destruct (JS.gt p 20%Q) eqn:Hgt];
    rewrite logVerificationAttempt_run;
    unfold mret, M_ret;
    cbn [after_query db db_calls db_fault clock];
    match goal with |- context [Ok ?x] => exists x end;
    (split; [reflexivity|]);
    cbn [originalWeight verifiedWeight weightDifferencePercentage
           isWithinTolerance wc_status wc_message];
    rewrite ?Hle, ?Hgt; auto 10.
Qed.

End VerificationRuns.

(** ** Weight verification: the properties *)

Section VerificationProperties.

Import VerificationService.




(** C6.  Whenever the batch does not exist or has no member transaction,
    [verifyBatchWeight] returns REJECTED with a difference of 100 and an
    original weight of 0, whatever the verified weight supplied (and
    whatever the storage does). *)
Theorem verifyBatchWeight_empty_or_missing b v r w :
  batches (db w) !! b = None \/ member_transactions (db w) b = [] ->
  exists res w',
    verifyBatchWeight b v r w = (Ok res, w')
    /\ wc_status res = REJECTED
    /\ weightDifferencePercentage res = 100%Q
    /\ originalWeight res = 0%Q
    /\ verifiedWeight res = v
    /\ isWithinTolerance res = false.
Proof.
  intros H. exists (no_transactions_result v). eexists.
  split; [apply verifyBatchWeight_degenerate; right; exact H|].
  repeat split.
Qed.


Lemma verifyBatchWeight_empty_or_missing_witness :
  exists res w',
    verifyBatchWeight 7 4200%Q 2 Sample.empty_batch = (Ok res, w')
    /\ wc_status res = REJECTED
    /\ weightDifferencePercentage res = 100%Q
    /\ originalWeight res = 0%Q
    /\ verifiedWeight res = 4200%Q
    /\ isWithinTolerance res = false.
Proof.
  apply verifyBatchWeight_empty_or_missing. right. reflexivity.
Defined.

(** C5, as worded, fails: with a batch of 1000 g verified at 1000 g and a
    storage that fails on the audit insert only, the call meets an
    internal failure and still returns APPROVED. *)
Lemma failed_audit_insert_keeps_approval : ~ every_failure_rejects.
Proof.
  intros H.
  destruct (H 7 1000%Q 2 Sample.one_kilo_audit_down _ _ eq_refl)
    as (x & Hx & Hst & _).
  - exists 1%nat. vm_compute. auto.
  - vm_compute in Hx. injection Hx as <-. discriminate Hst.
Qed.

(** C5, amended.  [verifyBatchWeight] never throws: it always returns a
    result.  When the query loading the batch's transactions fails the
    result is REJECTED with difference 100 and original weight 0.  When
    that query succeeds the result is the one computed from the tables
    alone: a failing audit insert is swallowed and does not change it. *)
Theorem verifyBatchWeight_never_throws b v r w :
  exists res w',
    verifyBatchWeight b v r w = (Ok res, w')
    /\ (db_fault w (db_calls w) = true ->
        wc_status res = REJECTED
        /\ weightDifferencePercentage res = 100%Q
        /\ originalWeight res = 0%Q
        /\ isWithinTolerance res = false)
    /\ (db_fault w (db_calls w) = false ->
        forall w2,
          db w2 = db w -> db_fault w2 (db_calls w2) = false ->
          (verifyBatchWeight b v r w2).1 = Ok res).
Proof.
  destruct (degenerate_dec w b) as [Hd|Hd].
  - exists (no_transactions_result v). eexists.
    split; [apply verifyBatchWeight_degenerate; exact Hd|].
    split; [intros _; repeat split|].
    intros Hf w2 Hdb Hf2.
    rewrite verifyBatchWeight_degenerate; [reflexivity|].
    destruct Hd as [Hd|[Hd|Hd]]; [congruence| |].
    + right; left. rewrite Hdb. exact Hd.
    + right; right. rewrite Hdb. exact Hd.
  - destruct (verifyBatchWeight_normal b v r w Hd)
      as (res & Hrun & Ho & Hv & Hp & Hin & Hst & Hmsg).
    exists res. eexists. split; [exact Hrun|].
    split.
    + intros Hf. exfalso. apply Hd. left. exact Hf.
    + intros Hf w2 Hdb Hf2.
      assert (Hd2 : ~ degenerate w2 b).
      { intros [H|[H|H]]; [congruence| |]; apply Hd.
        - right; left. rewrite <- Hdb. exact H.
        - right; right. rewrite <- Hdb. exact H. }
      destruct (verifyBatchWeight_normal b v r w2 Hd2)
        as (res2 & Hrun2 & Ho2 & Hv2 & Hp2 & Hin2 & Hst2 & Hmsg2).
      rewrite Hrun2. cbn [fst]. f_equal.
      rewrite Hdb in Ho2, Hp2.
      assert (Hpp : weightDifferencePercentage res2
                    = weightDifferencePercentage res) by congruence.
      rewrite Hpp in Hin2, Hst2, Hmsg2.
      destruct res, res2; cbn in *; congruence.
Qed.

Lemma verifyBatchWeight_never_throws_witness :
  exists res w',
    verifyBatchWeight 7 980%Q 2 Sample.one_kilo_audit_down = (Ok res, w')
    /\ (verifyBatchWeight 7 980%Q 2 Sample.one_kilo).1 = Ok res.
Proof.
  destruct (verifyBatchWeight_never_throws 7 980%Q 2
              Sample.one_kilo_audit_down) as (res & w' & Hrun & _ & Hsame).
  exists res, w'. split; [exact Hrun|].
  apply Hsame; reflexivity.
Defined.

(** C8, as worded, fails: verifying a batch without transactions leaves
    the audit log as it was. *)
Lemma empty_batch_call_not_audited : ~ every_call_audited.
Proof.
  intros H.
  destruct (H 7 4200%Q 2 Sample.empty_batch _ _ eq_refl) as (row & Hrow).
  vm_compute in Hrow. discriminate Hrow.
Qed.

(** C8, amended.  A call of [verifyBatchWeight] appends at most one audit
    row and touches no other table.  On the normal classification path
    (the batch exists, has a member transaction and its summary was
    loaded) it attempts one insert: when the insert succeeds the log grows
    by exactly one row, which records the recomputed original weight
    before and the verified weight, percentage, status and message after;
    when the insert fails the failure is swallowed and the log is
    unchanged.  On the degenerate path (missing batch, no transaction, or
    summary not loaded) nothing is written. *)
Theorem verifyBatchWeight_audit_trail b v r w :
  exists res w',
    verifyBatchWeight b v r w = (Ok res, w')
    /\ users (db w') = users (db w)
    /\ transactions (db w') = transactions (db w)
    /\ transaction_batch (db w') = transaction_batch (db w)
    /\ batches (db w') = batches (db w)
    /\ (degenerate w b -> audit_log (db w') = audit_log (db w))
    /\ (~ degenerate w b -> db_fault w (S (db_calls w)) = true ->
        audit_log (db w') = audit_log (db w))
    /\ (~ degenerate w b -> db_fault w (S (db_calls w)) = false ->
        audit_log (db w') =
          audit_log (db w)
          ++ [verification_audit_row b r (clock w)
                (member_weight (db w) b) v
                (weightDifferencePercentage res) (wc_status res)
                (wc_message res)]).
Proof.
  destruct (degenerate_dec w b) as [Hd|Hd].
  - exists (no_transactions_result v). eexists.
    split; [apply verifyBatchWeight_degenerate; exact Hd|].
    cbn [after_query db]. repeat split; try tauto.
  - destruct (verifyBatchWeight_normal b v r w Hd)
      as (res & Hrun & Ho & Hv & _).
    exists res. eexists. split; [exact Hrun|].
    cbn [after_query db].
    destruct (db_fault w (S (db_calls w)));
      cbn [Sql.insert_audit set_audit_log users transactions
             transaction_batch batches audit_log];
      repeat split; try tauto; try congruence.
    intros _ _. unfold audit_row_of. rewrite Ho, Hv. reflexivity.
Qed.

Lemma verifyBatchWeight_audit_trail_witness :
  exists res w',
    verifyBatchWeight 7 980%Q 2 Sample.one_kilo = (Ok res, w')
    /\ audit_log (db w') =
         [verification_audit_row 7 2 1000000 (1000 + 0)%Q 980%Q
            (weightDifferencePercentage res) (wc_status res)
            (wc_message res)].
Proof.
  destruct (verifyBatchWeight_audit_trail 7 980%Q 2 Sample.one_kilo)
    as (res & w' & Hrun & _ & _ & _ & _ & _ & _ & Hlog).
  exists res, w'. split; [exact Hrun|].
  apply Hlog; [|reflexivity].
  intros [H|[H|H]]; vm_compute in H; discriminate H.
Defined.



(** The figures of the tolerance policy on a batch of 1000 g: 15% is
    flagged, 30% is rejected. *)
Example verifyBatchWeight_flags_15_percent :
  exists res w',
    verifyBatchWeight 7 1150%Q 2 Sample.one_kilo = (Ok res, w')
    /\ wc_status res = FLAGGED.
Proof. eexists. eexists. split; reflexivity. Qed.

Example verifyBatchWeight_rejects_30_percent :
  exists res w',
    verifyBatchWeight 7 1300%Q 2 Sample.one_kilo = (Ok res, w')
    /\ wc_status res = REJECTED.
Proof. eexists. eexists. split; reflexivity. Qed.

End VerificationProperties.

(** ** Fraud pattern detector: the properties *)

Section FraudProperties.

Import VerificationService.

(** *** [new Set] *)

Lemma set_add_length s v : (length s <= length (JS.set_add s v))%nat.
Proof.
  unfold JS.set_add. destruct (existsb (JS.same_value v) s); [lia|].
  rewrite length_app. lia.
Qed.

Lemma foldl_set_add_length vs : forall s,
  (length s <= length (foldl JS.set_add s vs))%nat.
Proof.
  induction vs as [|v vs IH]; intros s; cbn [foldl]; [lia|].
  etransitivity; [apply set_add_length | apply IH].
Qed.

(** A set started with [a] keeps size 1 exactly when every later value is
    the same value as [a]. *)
Lemma foldl_set_add_singleton a vs :
  length (foldl JS.set_add [a] vs) = 1%nat <->
  forall x, x ∈ vs -> JS.same_value x a = true.
Proof.
  induction vs as [|v vs IH]; cbn [foldl].
  - split; [intros _ x Hx; inversion Hx | reflexivity].
  - unfold JS.set_add at 2. cbn [existsb]. rewrite orb_false_r.
    destruct (JS.same_value v a) eqn:Hv.
    + rewrite IH. split.
      * intros H x Hx. apply elem_of_cons in Hx as [->|Hx]; auto.
      * intros H x Hx. apply H. right. exact Hx.
    + split.
      * intros H. pose proof (foldl_set_add_length vs ([a] ++ [v])) as Hlen.
        cbn in Hlen. cbn in H. lia.
      * intros H. rewrite (H v) in Hv; [discriminate | left].
Qed.

Lemma same_value_weights (x y : Q) :
  JS.same_value (Some x) (Some y) = true <-> (x == y)%Q.
Proof. apply Qeq_bool_iff. Qed.

(** [uniqueWeights.size === 1]: there is a transaction and all weights are
    equal. *)
Lemma unique_weights_one (txs : list Tx.row) :
  length (JS.new_Set (json_weight_grams <$> (Some <$> txs))) = 1%nat <->
  txs <> [] /\ identical_weights txs.
Proof.
  destruct txs as [|t txs].
  - cbn. split; [discriminate | intros [H _]; congruence].
  - unfold JS.new_Set. cbn [fmap list_fmap foldl].
    change (JS.set_add [] (json_weight_grams (Some t)))
      with [Some (Tx.weight_grams t)].
    rewrite foldl_set_add_singleton. split.
    + intros H. split; [discriminate|].
      assert (Hall : forall x, x ∈ t :: txs ->
                (Tx.weight_grams x == Tx.weight_grams t)%Q).
      { intros x Hx. apply elem_of_cons in Hx as [->|Hx]; [reflexivity|].
        apply same_value_weights. apply H.
        apply list_elem_of_fmap. exists (Some x). split; [reflexivity|].
        apply list_elem_of_fmap. exists x. auto. }
      intros x y Hx Hy. rewrite (Hall x Hx), (Hall y Hy). reflexivity.
    + intros [_ H] v Hv.
      apply list_elem_of_fmap in Hv as (j & -> & Hj).
      apply list_elem_of_fmap in Hj as (x & -> & Hx).
      apply same_value_weights. apply H; [right; exact Hx | left].
Qed.

(** *** [citizenCounts] *)

(** After the [forEach], the map holds for each key its previous count plus
    its number of occurrences. *)
Lemma foldl_count_citizen_lookup (l : list JsonTx) :
  forall (m : gmap (option Z) nat) (k : option Z),
    foldl count_citizen m l !! k =
    match occurrences k (json_citizen_id <$> l) with
    | O => m !! k
    | S _ as c => Some (default 0%nat (m !! k) + c)%nat
    end.
Proof.
  unfold occurrences.
  induction l as [|t l IH]; intros m k; cbn [foldl fmap list_fmap count_occ];
    [reflexivity|].
  rewrite IH. unfold count_citizen.
  destruct (decide_rel eq (json_citizen_id t) k) as [->|Hne].
  - rewrite lookup_insert_eq. cbn [default].
    destruct (count_occ _ _ k); apply (f_equal Some); cbn [default];
      [reflexivity | unfold id; generalize (default 0%nat (m !! k)); intros; lia].
  - rewrite lookup_insert_ne by exact Hne. reflexivity.
Qed.

Lemma citizenCounts_lookup (l : list JsonTx) (k : option Z) (c : nat) :
  citizenCounts l !! k = Some c <->
  occurrences k (json_citizen_id <$> l) = c /\ (0 < c)%nat.
Proof.
  unfold citizenCounts. rewrite foldl_count_citizen_lookup, lookup_empty.
  cbn [default]. destruct (occurrences k _) as [|n].
  - split; [discriminate | lia].
  - split; [intros [= <-]; lia | intros [<- _]; reflexivity].
Qed.

(** [duplicateCitizens.length > 0]: some citizen id occurs twice. *)
Lemma duplicate_citizens (l : list JsonTx) :
  (0 < length (List.filter (fun e : option Z * nat => Nat.ltb 1 e.2)
                 (map_to_list (citizenCounts l))))%nat
  <-> ~ NoDup (json_citizen_id <$> l).
Proof.
  split.
  - intros Hlen Hnd.
    destruct (List.filter _ _) as [|[k c] rest] eqn:Hfil; [cbn in Hlen; lia|].
    assert (Hin : In (k, c) (List.filter
                    (fun e : option Z * nat => Nat.ltb 1 e.2)
                    (map_to_list (citizenCounts l))))
      by (rewrite Hfil; left; reflexivity).
    apply filter_In in Hin as [Hin Hc]. cbn [snd] in Hc.
    apply Nat.ltb_lt in Hc.
    apply list_elem_of_In, elem_of_map_to_list, citizenCounts_lookup in Hin
      as [Hocc _].
    apply NoDup_ListNoDup in Hnd.
    pose proof (proj1 (NoDup_count_occ (decide_rel eq) _) Hnd k) as Hle.
    unfold occurrences in Hocc. lia.
  - intros Hdup.
    destruct (List.filter _ _) as [|e rest] eqn:Hfil; [|cbn; lia].
    exfalso. apply Hdup. apply NoDup_ListNoDup.
    apply (NoDup_count_occ (decide_rel eq)). intros k.
    destruct (count_occ (decide_rel eq) (json_citizen_id <$> l) k)
      as [|n] eqn:Hocc; [lia|].
    assert (Hlk : citizenCounts l !! k = Some (S n))
      by (apply citizenCounts_lookup; unfold occurrences; split; [exact Hocc | lia]).
    apply elem_of_map_to_list, list_elem_of_In in Hlk.
    destruct n as [|n]; [lia|]. exfalso.
    assert (Hin : In (k, S (S n)) (List.filter
                    (fun e : option Z * nat => Nat.ltb 1 e.2)
                    (map_to_list (citizenCounts l)))).
    { apply filter_In. split; [exact Hlk | reflexivity]. }
    rewrite Hfil in Hin. exact Hin.
Qed.

(** *** [Math.max] and [Math.min] *)

Lemma max_of_spec (l : list Z) :
  l <> [] -> JS.max_of l ∈ l /\ forall x, x ∈ l -> x <= JS.max_of l.
Proof.
  destruct l as [|a l]; [congruence|]. intros _. cbn [JS.max_of].
  induction l as [|b l IH]; cbn [foldr].
  - split; [left|]. intros x Hx. apply list_elem_of_singleton in Hx. lia.
  - destruct IH as [Hin Hub]. split.
    + destruct (Z.max_spec b (foldr Z.max a l)) as [[_ ->]|[_ ->]].
      * apply elem_of_cons in Hin as [->|Hin]; [left | right; right; exact Hin].
      * right; left.
    + intros x Hx. apply elem_of_cons in Hx as [->|Hx].
      * specialize (Hub a ltac:(left)). lia.
      * apply elem_of_cons in Hx as [->|Hx]; [lia|].
        specialize (Hub x ltac:(right; exact Hx)). lia.
Qed.

Lemma min_of_spec (l : list Z) :
  l <> [] -> JS.min_of l ∈ l /\ forall x, x ∈ l -> JS.min_of l <= x.
Proof.
  destruct l as [|a l]; [congruence|]. intros _. cbn [JS.min_of].
  induction l as [|b l IH]; cbn [foldr].
  - split; [left|]. intros x Hx. apply list_elem_of_singleton in Hx. lia.
  - destruct IH as [Hin Hlb]. split.
    + destruct (Z.min_spec b (foldr Z.min a l)) as [[_ ->]|[_ ->]].
      * right; left.
      * apply elem_of_cons in Hin as [->|Hin]; [left | right; right; exact Hin].
    + intros x Hx. apply elem_of_cons in Hx as [->|Hx].
      * specialize (Hlb a ltac:(left)). lia.
      * apply elem_of_cons in Hx as [->|Hx]; [lia|].
        specialize (Hlb x ltac:(right; exact Hx)). lia.
Qed.

(** [Math.max(...l) - Math.min(...l) < bound]: any two elements are less
    than [bound] apart. *)
Lemma time_span_below (l : list Z) (bound : Z) :
  l <> [] ->
  (JS.max_of l - JS.min_of l < bound <->
   forall x y, x ∈ l -> y ∈ l -> x - y < bound).
Proof.
  intros Hne.
  destruct (max_of_spec l Hne) as [Hmax Hub].
  destruct (min_of_spec l Hne) as [Hmin Hlb].
  split.
  - intros H x y Hx Hy. specialize (Hub x Hx). specialize (Hlb y Hy). lia.
  - intros H. apply H; assumption.
Qed.

(** *** The heuristics *)

Lemma all_Some_omap {A} (l : list (option A)) :
  Forall is_Some l -> l = Some <$> omap id l.
Proof.
  induction 1 as [|x l [a ->] _ IH]; [reflexivity|].
  cbn. f_equal. exact IH.
Qed.

(** With every link resolving, the joined rows of a non-empty batch are its
    member transactions. *)
Lemma joined_transactions_resolved d b :
  links_resolved d b -> member_transactions d b <> [] ->
  Sql.joined_transactions d b = Some <$> member_transactions d b.
Proof.
  unfold member_transactions, Sql.joined_transactions, links_resolved.
  intros Hres Hne.
  destruct (filter (fun tb : Z * Z => tb.2 = b) (transaction_batch d))
    as [|tb links] eqn:Hfil; [exfalso; apply Hne; reflexivity|].
  apply all_Some_omap. rewrite <- Hfil. apply Forall_fmap, Forall_forall.
  intros x Hx. apply list_elem_of_filter in Hx as [Hb Hx].
  cbn. apply Hres; assumption.
Qed.

Lemma small_count_Permutation (l l' : list Tx.row) :
  l ≡ₚ l' -> small_count l = small_count l'.
Proof.
  unfold small_count.
  induction 1 as [|x l l' _ IH|x y l|l l' l'' _ IH1 _ IH2]; cbn [List.filter].
  - reflexivity.
  - destruct (JS.lt _ _); cbn [length]; congruence.
  - destruct (JS.lt (Tx.weight_grams x) _), (JS.lt (Tx.weight_grams y) _);
      reflexivity.
  - congruence.
Qed.

Lemma small_filter_json (txs : list Tx.row) :
  length (List.filter
            (fun t => JS.lt (JS.to_number (json_weight_grams t)) 100%Q)
            (Some <$> txs))
  = small_count txs.
Proof.
  unfold small_count.
  induction txs as [|t txs IH]; [reflexivity|].
  cbn [fmap list_fmap List.filter].
  change (JS.to_number (json_weight_grams (Some t))) with (Tx.weight_grams t).
  destruct (JS.lt (Tx.weight_grams t) 100%Q); cbn [length]; congruence.
Qed.

(** [s > n * 0.8] on counts, cross-multiplied. *)
Lemma small_share_iff (s n : nat) :
  JS.gt (JS.of_nat s) (JS.of_nat n * 0.8)%Q = true <-> (4 * n < 5 * s)%nat.
Proof.
  rewrite JS_gt_iff. unfold JS.of_nat, Qlt, Qmult, inject_Z. cbn [Qnum Qden].
  lia.
Qed.

Lemma sum_weights_Some (txs : list Tx.row) :
  Sql.sum_weights (Some <$> txs) = total_weight txs.
Proof.
  unfold Sql.sum_weights, total_weight.
  replace (omap id (Some <$> txs)) with txs; [reflexivity|].
  induction txs as [|t txs IH]; [reflexivity|]. cbn. f_equal. exact IH.
Qed.

Lemma count_ids_Some (txs : list Tx.row) :
  Sql.count_ids (Some <$> txs) = length txs.
Proof.
  unfold Sql.count_ids.
  induction txs as [|t txs IH]; [reflexivity|]. cbn. f_equal. exact IH.
Qed.

Lemma identical_weights_Permutation (l l' : list Tx.row) :
  l ≡ₚ l' -> identical_weights l <-> identical_weights l'.
Proof.
  intros Hperm. unfold identical_weights.
  split; intros H x y Hx Hy; apply H;
    first [rewrite Hperm | rewrite <- Hperm]; assumption.
Qed.

Lemma within_60_seconds_Permutation (l l' : list Tx.row) :
  l ≡ₚ l' -> within_60_seconds l <-> within_60_seconds l'.
Proof.
  intros Hperm. unfold within_60_seconds.
  split; intros H x y Hx Hy; apply H;
    first [rewrite Hperm | rewrite <- Hperm]; assumption.
Qed.

(** The JSON array of the summary lists the member transactions in some
    order. *)
Lemma sorted_rows_of_members (rows : list Tx.row) :
  exists rows',
    merge_sort Sql.created_desc (Some <$> rows) = Some <$> rows'
    /\ rows' ≡ₚ rows.
Proof.
  pose proof (merge_sort_Permutation Sql.created_desc (Some <$> rows)) as Hp.
  exists (omap id (merge_sort Sql.created_desc (Some <$> rows))). split.
  - apply all_Some_omap. rewrite Hp. apply Forall_fmap, Forall_forall.
    intros x _. cbn. eauto.
  - rewrite Hp. clear Hp. induction rows as [|t rows IH]; [reflexivity|].
    cbn. constructor. exact IH.
Qed.

Lemma json_citizens_NoDup (rows : list Tx.row) :
  NoDup (json_citizen_id <$> (Some <$> rows)) <-> NoDup (Tx.citizen_id <$> rows).
Proof.
  rewrite <- list_fmap_compose.
  change (json_citizen_id ∘ Some) with (Some ∘ Tx.citizen_id).
  rewrite list_fmap_compose.
  split; [apply NoDup_fmap_1 | apply NoDup_fmap_2; apply _].
Qed.

(** The score of an existing, non-empty batch. *)
Lemma detectSuspiciousPatterns_score b w :
  db_fault w (db_calls w) = false ->
  is_Some (batches (db w) !! b) ->
  links_resolved (db w) b ->
  member_transactions (db w) b <> [] ->
  let txs := member_transactions (db w) b in
  exists rep w',
    detectSuspiciousPatterns b w = (Ok rep, w')
    /\ db w' = db w
    /\ additive_score
         (more_than_80_percent_small txs)
         (identical_weights txs /\ (5 < length txs)%nat)
         (repeated_citizen txs)
         (heavy_average txs)
         ((1 < length txs)%nat /\ within_60_seconds txs)
         (riskScore rep)
    /\ (isSuspicious rep = true <-> 50 < riskScore rep).
Proof.
  intros Hf [row Hb] Hres Hne txs.
  unfold detectSuspiciousPatterns, try_catch, mbind, M_bind.
  rewrite getBatchTransactionSummary_run, Hf. unfold summary_of. rewrite Hb.
  rewrite (joined_transactions_resolved _ _ Hres Hne). fold txs.
  destruct (sorted_rows_of_members txs) as (rows' & -> & Hperm).
  cbn [summary_transactions transactionCount totalOriginalWeight].
  rewrite small_filter_json, count_ids_Some, sum_weights_Some, length_fmap.
  rewrite (small_count_Permutation _ _ Hperm), (Permutation_length Hperm).
  remember (JS.gt (JS.of_nat (small_count txs))
              (JS.of_nat (length txs) * 0.8)%Q) as c1 eqn:E1.
  remember ((length (JS.new_Set (json_weight_grams <$> (Some <$> rows')))
             =? 1)%nat && (5 <? length txs)%nat) as c2 eqn:E2.
  remember (0 <? length
              (List.filter (fun entry : option Z * nat => (1 <? entry.2)%nat)
                 (map_to_list (citizenCounts (Some <$> rows')))))%nat
    as c3 eqn:E3.
  remember (JS.gt (total_weight txs / JS.of_nat (length txs))%Q 10000%Q)
    as c4 eqn:E4.
  remember (1 <? length txs)%nat as c5a eqn:E5a.
  remember (JS.max_of
              ((fun t : JsonTx => JS.get_time (json_created_at t)) <$>
               (Some <$> rows')) -
            JS.min_of
              ((fun t : JsonTx => JS.get_time (json_created_at t)) <$>
               (Some <$> rows')) <? 60000) as c5b eqn:E5b.
  assert (H1 : c1 = true <-> more_than_80_percent_small txs).
  { subst c1. apply small_share_iff. }
  assert (H2 : c2 = true <-> identical_weights txs /\ (5 < length txs)%nat).
  { subst c2. rewrite andb_true_iff, Nat.eqb_eq, Nat.ltb_lt,
      unique_weights_one, (identical_weights_Permutation _ _ Hperm).
    split; [tauto|]. intros [Hid Hlen]. split; [split|]; try assumption.
    intros ->. apply Permutation_nil_l in Hperm. rewrite <- Hperm in Hlen.
    cbn in Hlen. lia. }
  assert (H3 : c3 = true <-> repeated_citizen txs).
  { subst c3. rewrite Nat.ltb_lt, duplicate_citizens, json_citizens_NoDup.
    unfold repeated_citizen. rewrite Hperm. reflexivity. }
  assert (H4 : c4 = true <-> heavy_average txs).
  { subst c4. apply JS_gt_iff. }
  assert (H5 : c5a && c5b = true
               <-> (1 < length txs)%nat /\ within_60_seconds txs).
  { subst c5a c5b. rewrite andb_true_iff, Nat.ltb_lt, Z.ltb_lt.
    rewrite <- (within_60_seconds_Permutation _ _ Hperm).
    assert (Hts : (1 < length rows')%nat ->
              (fun t : JsonTx => JS.get_time (json_created_at t)) <$>
              (Some <$> rows') <> []).
    { intros Hlen Hnil. apply fmap_nil_inv, fmap_nil_inv in Hnil.
      subst rows'. cbn in Hlen. lia. }
    rewrite <- (Permutation_length Hperm).
    split; intros [Hlen H]; (split; [exact Hlen|]).
    - pose proof (proj1 (time_span_below _ _ (Hts Hlen)) H) as Hall.
      intros x y Hx Hy. apply Hall; apply list_elem_of_fmap;
        [exists (Some x) | exists (Some y)]; (split; [reflexivity|]);
        apply list_elem_of_fmap; eauto.
    - apply (proj2 (time_span_below _ _ (Hts Hlen))).
      intros x y Hx Hy.
      apply list_elem_of_fmap in Hx as (jx & -> & Hx).
      apply list_elem_of_fmap in Hx as (tx & -> & Hx).
      apply list_elem_of_fmap in Hy as (jy & -> & Hy).
      apply list_elem_of_fmap in Hy as (ty & -> & Hy).
      apply H; assumption. }
  clear E1 E2 E3 E4 E5a E5b.
  destruct c1, c2, c3, c4, c5a, c5b;
    (eexists; eexists; split; [reflexivity|]; split; [reflexivity|];
     cbn [riskScore isSuspicious]; split;
     [ do 5 eexists;
       (split; [exact H1|]); (split; [exact H2|]); (split; [exact H3|]);
       (split; [exact H4|]); (split; [exact H5|]); reflexivity
     | rewrite Z.ltb_lt; reflexivity ]).
Qed.

(** A batch that is not found (or whose summary cannot be loaded) is
    maximally suspicious. *)
Lemma detectSuspiciousPatterns_not_found b w :
  batches (db w) !! b = None \/ db_fault w (db_calls w) = true ->
  detectSuspiciousPatterns b w =
  (Ok {| isSuspicious := true; reasons := ["Batch not found"];
         riskScore := 100 |},
   after_query w (db w)).
Proof.
  intros H. unfold detectSuspiciousPatterns, try_catch, mbind, M_bind.
  rewrite getBatchTransactionSummary_run.
  destruct (db_fault w (db_calls w)); [reflexivity|].
  destruct H as [H|H]; [|discriminate]. unfold summary_of. rewrite H.
  reflexivity.
Qed.

(** For a batch without transactions the summary carries the single
    all-null object of the LEFT JOIN, which counts as small: check 1 fires
    and the score is 30. *)
Lemma detectSuspiciousPatterns_empty_batch :
  (detectSuspiciousPatterns 7 Sample.empty_batch).1 =
  Ok {| isSuspicious := false;
        reasons := ["High concentration of small transactions (< 100g)"];
        riskScore := 30 |}.
Proof. reflexivity. Qed.

(** C9, as worded, fails: with four of five transactions under 100 g
    (exactly 80%) the claim adds 30, the code scores 0. *)
Lemma exactly_80_percent_small_scores_0 : ~ risk_score_as_worded.
Proof.
  intros H.
  destruct (H 7 Sample.four_small_of_five) as (rep & w' & Hrun & Hscore).
  - reflexivity.
  - eexists. reflexivity.
  - intros tb Hin _.
    repeat (apply elem_of_cons in Hin as [->|Hin]; [eexists; reflexivity|]).
    inversion Hin.
  - vm_compute. discriminate.
  - vm_compute in Hrun. injection Hrun as <- _.
    destruct Hscore as (c1 & c2 & c3 & c4 & c5 & H1 & _ & _ & _ & _ & Hsum).
    assert (Hc1 : c1 = true).
    { apply H1. unfold at_least_80_percent_small. vm_compute. lia. }
    subst c1. cbn [riskScore] in Hsum.
    destruct c2, c3, c4, c5; discriminate Hsum.
Qed.

(** C9, amended.  A batch that is not found yields riskScore 100, the
    single reason "Batch not found" and isSuspicious.  For an existing
    batch with at least one member transaction (summary loaded, links
    resolving) riskScore is the sum of the increments of the heuristics
    that hold: +30 when more than 80% of the transactions weigh under
    100 g, +40 when all transactions share one weight and there are more
    than 5, +20 (flat) when some citizen appears more than once, +25 when
    the average weight per transaction exceeds 10000 g, +15 when there
    are at least two transactions and all creation timestamps lie within
    less than 60 seconds; isSuspicious holds iff riskScore > 50; the
    tables are left untouched. *)
Theorem detectSuspiciousPatterns_report b w :
  (batches (db w) !! b = None ->
   exists w',
     detectSuspiciousPatterns b w =
     (Ok {| isSuspicious := true; reasons := ["Batch not found"];
            riskScore := 100 |}, w'))
  /\ (db_fault w (db_calls w) = false ->
      is_Some (batches (db w) !! b) ->
      links_resolved (db w) b ->
      member_transactions (db w) b <> [] ->
      let txs := member_transactions (db w) b in
      exists rep w',
        detectSuspiciousPatterns b w = (Ok rep, w')
        /\ db w' = db w
        /\ additive_score
             (more_than_80_percent_small txs)
             (identical_weights txs /\ (5 < length txs)%nat)
             (repeated_citizen txs)
             (heavy_average txs)
             ((1 < length txs)%nat /\ within_60_seconds txs)
             (riskScore rep)
        /\ (isSuspicious rep = true <-> 50 < riskScore rep)).
Proof.
  split.
  - intros H. eexists. apply detectSuspiciousPatterns_not_found. left.
    exact H.
  - apply detectSuspiciousPatterns_score.
Qed.

Lemma detectSuspiciousPatterns_report_witness :
  let txs := member_transactions (db Sample.burst) 7 in
  exists rep w',
    detectSuspiciousPatterns 7 Sample.burst = (Ok rep, w')
    /\ db w' = db Sample.burst
    /\ additive_score
         (more_than_80_percent_small txs)
         (identical_weights txs /\ (5 < length txs)%nat)
         (repeated_citizen txs)
         (heavy_average txs)
         ((1 < length txs)%nat /\ within_60_seconds txs)
         (riskScore rep)
    /\ (isSuspicious rep = true <-> 50 < riskScore rep).
Proof.
  apply (proj2 (detectSuspiciousPatterns_report 7 Sample.burst)).
  - reflexivity.
  - eexists. reflexivity.
  - intros tb Hin _.
    repeat (apply elem_of_cons in Hin as [->|Hin]; [eexists; reflexivity|]).
    inversion Hin.
  - vm_compute. discriminate.
Defined.

End FraudProperties.

(** ** The verification request handler: the properties *)

Section ControllerProperties.

Import VerificationService.

Lemma whole_number (q : Q) :
  JS.is_whole q = true -> (q == inject_Z (Qfloor q))%Q.
Proof. apply Qeq_bool_eq. Qed.

(** A whole number of grams is stored unchanged in a [DECIMAL(10, 2)]
    column. *)
Lemma round2_whole (q : Q) :
  JS.is_whole q = true -> (0 <= q)%Q -> (BatchSql.round2 q == q)%Q.
Proof.
  intros Hw Hpos. apply whole_number in Hw.
  unfold BatchSql.round2.
  destruct (Qle_bool 0 q) eqn:Hle;
    [|apply Qle_bool_iff in Hpos; congruence].
  set (z := Qfloor q) in *. clearbody z.
  assert (Hfl : Qfloor (Qabs q * 100 + (1 # 2)) = 100 * z).
  { rewrite (Qfloor_comp _ ((200 * z + 1) # 2)).
    - cbn [Qfloor]. symmetry. apply Z.div_unique with (r := 1); lia.
    - rewrite Qabs_pos by exact Hpos. rewrite Hw.
      unfold Qeq, Qplus, Qmult, inject_Z. cbn [Qnum Qden]. lia. }
  rewrite Hfl, Hw. unfold Qeq, inject_Z. cbn [Qnum Qden]. lia.
Qed.

Lemma decimal_10_2_whole (q : Q) :
  JS.is_whole q = true -> (0 <= q)%Q -> (q < 100000000)%Q ->
  exists r, BatchSql.decimal_10_2 q = Some r /\ (r == q)%Q.
Proof.
  intros Hw Hpos Hlt. exists (BatchSql.round2 q).
  pose proof (round2_whole q Hw Hpos) as Hr.
  split; [|exact Hr].
  unfold BatchSql.decimal_10_2.
  destruct (Qle_bool 100000000 (Qabs (BatchSql.round2 q))) eqn:Hle;
    [|reflexivity].
  apply Qle_bool_iff in Hle. rewrite Hr, Qabs_pos in Hle by exact Hpos.
  exfalso. exact (Qlt_not_le _ _ Hlt Hle).
Qed.

Lemma getBatchById_run b w :
  BatchService.getBatchById b w =
  (Ok (if db_fault w (db_calls w) then None
       else head (BatchSql.select_batch_by_id b (db w))),
   after_query w (db w)).
Proof.
  unfold BatchService.getBatchById, try_catch, mbind, M_bind, db_query,
    reading.
  destruct (db_fault w (db_calls w)); reflexivity.
Qed.

Lemma updateBatchVerification_run b params w :
  BatchService.updateBatchVerification b params w =
  if db_fault w (db_calls w) then (Throw DbError, after_query w (db w))
  else
    match BatchSql.update_batch_verification b
            (BatchService.p_recycler_id params)
            (BatchService.p_verified_weight_total params)
            (BatchService.p_ipfs_proof_hash params)
            (BatchService.p_proof_type params)
            (JS.string_or_null (BatchService.p_verification_notes params))
            (BatchService.p_verification_status params)
            (BatchService.p_rejection_reason params)
            (JS.string_or_null (BatchService.p_blockchain_batch_id params))
            (clock w) (db w) with
    | Some (rows, d') => (Ok (head rows), after_query w d')
    | None => (Throw DbError, after_query w (db w))
    end.
Proof.
  unfold BatchService.updateBatchVerification, try_catch, mbind, M_bind, now,
    db_exec.
  destruct (db_fault w (db_calls w)); [reflexivity|].
  destruct (BatchSql.update_batch_verification _ _ _ _ _ _ _ _ _ _ _)
    as [[rows d']|]; reflexivity.
Qed.



(** A request that passes validation carries a positive whole weight. *)
Lemma valid_weight data :
  BatchController.validateVerifyBatchRequest data = [] ->
  JS.is_whole (BatchController.verified_weight_total data) = true
  /\ (0 < BatchController.verified_weight_total data)%Q.
Proof.
  unfold BatchController.validateVerifyBatchRequest. intros H.
  apply app_eq_nil in H as [_ H]. apply app_eq_nil in H as [H _].
  destruct (JS.eq _ _); [discriminate|].
  destruct (JS.le _ _) eqn:Hle; [discriminate|].
  destruct (JS.is_whole _); [|discriminate].
  split; [reflexivity|]. apply JS_le_false. exact Hle.
Qed.




End ControllerProperties.

(** ** Mint orchestrator: the properties *)

Section MintProperties.

Import BlockchainService.

Lemma updateBatchMintStatus_run b status w :
  updateBatchMintStatus b status w =
  if db_fault w (db_calls w) then (Throw DbError, after_query w (db w))
  else
    (Ok tt,
     after_query w
       (BlockchainSql.update_batch_mint_status b
          (ms_mintStatus status)
          (JS.string_or_null (ms_txHash status))
          (JS.int_or_null (ms_blockNumber status))
          (JS.int_or_zero (ms_retryCount status))
          (ms_lastAttempt status)
          (JS.string_or_null (ms_error status))
          (clock w) (db w))).
Proof.
  unfold updateBatchMintStatus, try_catch, mbind, M_bind, now, db_query,
    writing.
  destruct (db_fault w (db_calls w)); reflexivity.
Qed.

(** The row that the UPDATE of [updateBatchMintStatus] leaves. *)
Lemma update_batch_mint_status_row b st tx bn rc la err ts d old :
  batches d !! b = Some old ->
  exists new,
    batches (BlockchainSql.update_batch_mint_status b st tx bn rc la err ts d)
      !! b = Some new
    /\ mint_columns new = (st, tx, bn, rc, la, err)
    /\ other_columns new = other_columns old
    /\ Batch.updated_at new = ts.
Proof.
  intros Hb. unfold BlockchainSql.update_batch_mint_status. rewrite Hb.
  eexists. cbn [batches set_batches]. rewrite lookup_insert_eq.
  split; [reflexivity|]. repeat split.
Qed.

Lemma update_batch_mint_status_others b st tx bn rc la err ts d b' :
  b' <> b ->
  batches (BlockchainSql.update_batch_mint_status b st tx bn rc la err ts d)
    !! b' = batches d !! b'.
Proof.
  intros Hne. unfold BlockchainSql.update_batch_mint_status.
  destruct (batches d !! b); [|reflexivity].
  cbn [batches set_batches]. apply lookup_insert_ne. congruence.
Qed.

(** C10.  A call of [updateBatchMintStatus] that reaches an existing row
    assigns all six mint columns from its argument in one UPDATE: each
    column gets the field given ([x || null], so an empty string or a 0
    block number also reads as absent) and a field absent from the partial
    status is written as NULL ([retry_count] as 0), whatever the row held
    before; the other columns and the other rows are unchanged.  A
    RETRYING or FAILED_ON_CHAIN write, which carries no hash and no block
    number, therefore clears both. *)
Theorem updateBatchMintStatus_overwrites b status w old :
  db_fault w (db_calls w) = false ->
  batches (db w) !! b = Some old ->
  exists w' new,
    updateBatchMintStatus b status w = (Ok tt, w')
    /\ batches (db w') !! b = Some new
    /\ Batch.mint_status new = ms_mintStatus status
    /\ Batch.tx_hash new = JS.string_or_null (ms_txHash status)
    /\ Batch.block_number new = JS.int_or_null (ms_blockNumber status)
    /\ Batch.retry_count new = JS.int_or_zero (ms_retryCount status)
    /\ Batch.last_attempt new = ms_lastAttempt status
    /\ Batch.mint_error new = JS.string_or_null (ms_error status)
    /\ (ms_mintStatus status = None -> Batch.mint_status new = None)
    /\ (ms_txHash status = None -> Batch.tx_hash new = None)
    /\ (ms_blockNumber status = None -> Batch.block_number new = None)
    /\ (ms_retryCount status = None -> Batch.retry_count new = 0)
    /\ (ms_lastAttempt status = None -> Batch.last_attempt new = None)
    /\ (ms_error status = None -> Batch.mint_error new = None)
    /\ other_columns new = other_columns old
    /\ (forall b', b' <> b -> batches (db w') !! b' = batches (db w) !! b').
Proof.
  intros Hf Hb. rewrite updateBatchMintStatus_run, Hf.
  destruct (update_batch_mint_status_row b
              (ms_mintStatus status)
              (JS.string_or_null (ms_txHash status))
              (JS.int_or_null (ms_blockNumber status))
              (JS.int_or_zero (ms_retryCount status))
              (ms_lastAttempt status)
              (JS.string_or_null (ms_error status))
              (clock w) (db w) old Hb) as (new & Hnew & Hmint & Hother & _).
  eexists. exists new. split; [reflexivity|].
  cbn [after_query db]. split; [exact Hnew|].
  unfold mint_columns in Hmint. injection Hmint as H1 H2 H3 H4 H5 H6.
  repeat split; try assumption.
  - intros H. congruence.
  - intros H. rewrite H2, H. reflexivity.
  - intros H. rewrite H3, H. reflexivity.
  - intros H. rewrite H4, H. reflexivity.
  - intros H. congruence.
  - intros H. rewrite H6, H. reflexivity.
  - intros b' Hne. apply update_batch_mint_status_others. exact Hne.
Qed.

Lemma updateBatchMintStatus_overwrites_witness :
  exists w' new,
    BlockchainService.updateBatchMintStatus 7
      {| ms_mintStatus := Some RETRYING; ms_txHash := None;
         ms_blockNumber := None; ms_retryCount := Some 1;
         ms_lastAttempt := Some 1000000; ms_error := Some "timeout" |}
      Sample.minted = (Ok tt, w')
    /\ batches (db w') !! 7 = Some new
    /\ Batch.mint_status new = Some RETRYING
    /\ Batch.tx_hash new = None
    /\ Batch.block_number new = None
    /\ Batch.retry_count new = 1
    /\ Batch.mint_error new = Some "timeout".
Proof.
  destruct (updateBatchMintStatus_overwrites 7
              {| ms_mintStatus := Some RETRYING; ms_txHash := None;
                 ms_blockNumber := None; ms_retryCount := Some 1;
                 ms_lastAttempt := Some 1000000;
                 ms_error := Some "timeout" |}
              Sample.minted Sample.minted_row)
    as (w' & new & Hrun & Hnew & Hst & _ & _ & Hrc & _ & Herr & _ & Htx
        & Hbn & _).
  - reflexivity.
  - reflexivity.
  - exists w', new. repeat split; auto.
Defined.

(** *** Attempts *)

(** An attempt consumes one answer of the chain and depends on nothing
    else. *)
Lemma executeMintTransaction_run request w :
  executeMintTransaction request w =
  (attempt_result (chain w (chain_calls w)), attempted request w).
Proof.
  unfold attempt_result, attempted, executeMintTransaction, try_catch, mbind,
    M_bind, chain_attempt.
  cbn [probe chain chain_calls fst snd].
  destruct (chain w (chain_calls w)) as [h bl g| |code message];
    [reflexivity | reflexivity |].
  unfold throw. cbn [exn_code exn_message].
  destruct (String.eqb code "UNPREDICTABLE_GAS_LIMIT"); [reflexivity|].
  destruct (String.eqb code "NONCE_EXPIRED" || String.eqb code "NONCE_TOO_LOW");
    [reflexivity|].
  destruct (JS.includes "revert" message); [reflexivity|].
  destruct (JS.includes "insufficient funds" message); reflexivity.
Qed.

(** An attempt succeeds or throws a [BlockchainError] with a non-empty
    message. *)
Lemma attempt_result_cases o :
  (exists r, attempt_result o = Ok r /\ success r = true)
  \/ (exists e, attempt_result o = Throw (Blockchain e)
                /\ be_message e <> "").
Proof.
  unfold attempt_result, executeMintTransaction, try_catch, mbind, M_bind,
    chain_attempt.
  cbn [probe chain chain_calls fst snd].
  destruct o as [h bl g| |code message].
  - left. eexists. split; reflexivity.
  - right. eexists. split; [reflexivity|]. discriminate.
  - right. unfold throw. cbn [exn_code exn_message].
    destruct (String.eqb code "UNPREDICTABLE_GAS_LIMIT");
      [eexists; split; [reflexivity|discriminate]|].
    destruct (String.eqb code "NONCE_EXPIRED"
              || String.eqb code "NONCE_TOO_LOW");
      [eexists; split; [reflexivity|discriminate]|].
    destruct (JS.includes "revert" message);
      [eexists; split; [reflexivity|discriminate]|].
    destruct (JS.includes "insufficient funds" message);
      eexists; (split; [reflexivity|discriminate]).
Qed.

(** *** The retry loop *)


Section Loop.

Variable config : BlockchainConfig.
Variable b : Z.
Variable request : MintRequest.




End Loop.

(** *** [triggerMint] *)

Lemma getBatchForMinting_run b w :
  getBatchForMinting b w =
  (Ok (if db_fault w (db_calls w) then None
       else head (BlockchainSql.select_batch_for_minting b (db w))),
   after_query w (db w)).
Proof.
  unfold getBatchForMinting, try_catch, mbind, M_bind, db_query, reading.
  destruct (db_fault w (db_calls w)); reflexivity.
Qed.

Lemma select_batch_for_minting_eligible d b row :
  BlockchainSql.select_batch_for_minting b d = [row] -> eligible d b row.
Proof.
  unfold BlockchainSql.select_batch_for_minting, eligible.
  destruct (batches d !! b) as [r|]; [|discriminate].
  destruct (users d !! Batch.collector_id r); [|discriminate].
  destruct (bool_decide (Batch.verification_status r = verified)) eqn:Hv;
    [|discriminate].
  apply bool_decide_eq_true in Hv. cbn [andb].
  destruct (Batch.mint_status r) as [[| | |]|] eqn:Hm; try discriminate;
    intros [= <-]; auto.
Qed.

Lemma select_batch_for_minting_cases d b :
  BlockchainSql.select_batch_for_minting b d = []
  \/ exists row, BlockchainSql.select_batch_for_minting b d = [row].
Proof.
  unfold BlockchainSql.select_batch_for_minting.
  destruct (batches d !! b) as [r|]; [|left; reflexivity].
  destruct (users d !! Batch.collector_id r); [|left; reflexivity].
  destruct (_ && _); [right; eauto | left; reflexivity].
Qed.

Lemma eligible_selected d b row :
  eligible d b row -> is_Some (users d !! Batch.collector_id row) ->
  BlockchainSql.select_batch_for_minting b d = [row].
Proof.
  intros (Hb & Hv & Hm) [uc Hc].
  unfold BlockchainSql.select_batch_for_minting. rewrite Hb, Hc.
  rewrite bool_decide_eq_true_2 by exact Hv.
  destruct Hm as [-> | ->]; reflexivity.
Qed.

(** With both wallets on file the lookup succeeds. *)
Lemma getUserAddresses_run d row ca ra w :
  db w = d -> db_fault w (db_calls w) = false ->
  wallets_on_file d row ca ra ->
  getUserAddresses (Batch.collector_id row) (Batch.recycler_id row) w =
  (Ok {| ua_success := true; ua_collectorAddress := Some ca;
         ua_recyclerAddress := Some ra; ua_error := None |},
   after_query w (db w)).
Proof.
  intros <- Hf (rid & uc & ur & Hrid & Hne & Huc & Hur & Hrc & Hrr & Hwc
                & Hwr & Hca & Hra).
  unfold getUserAddresses, try_catch, mbind, M_bind, db_query, reading.
  rewrite Hf. unfold BlockchainSql.select_wallets. rewrite Hrid.
  rewrite bool_decide_eq_false_2 by exact Hne.
  cbn [omap list_omap]. rewrite Huc, Hur. cbn [List.filter].
  rewrite Hwc, Hwr.
  rewrite !bool_decide_eq_true_2 by eauto.
  cbn [length Nat.ltb Nat.leb List.find].
  rewrite (bool_decide_eq_true_2 _ Hrc).
  rewrite (bool_decide_eq_false_2 (User.role uc = recycler))
    by (rewrite Hrc; discriminate).
  rewrite (bool_decide_eq_true_2 _ Hrr).
  cbn [mbind option_bind]. rewrite Hwc, Hwr.
  unfold JS.string_or_null.
  apply String.eqb_neq in Hca, Hra. rewrite Hca, Hra. reflexivity.
Qed.

Section TriggerMint.

Variable config : BlockchainConfig.

(** The orchestrator refuses a batch that is not eligible: unsuccessful
    result, no write, no chain submission. *)
Lemma triggerMint_refuses b w :
  (forall row, ~ eligible (db w) b row) ->
  triggerMint config b w =
  (Ok (Some (failure "Batch not found or not in APPROVED status")),
   after_query w (db w)).
Proof.
  intros Hne. unfold triggerMint, mbind, M_bind.
  rewrite getBatchForMinting_run.
  destruct (db_fault w (db_calls w)); [reflexivity|].
  destruct (select_batch_for_minting_cases (db w) b) as [->|[row Hrow]];
    [reflexivity|].
  exfalso. apply (Hne row). apply select_batch_for_minting_eligible.
  exact Hrow.
Qed.

Lemma attempt_fails_message o e : attempt_fails o e -> be_message e <> "".
Proof.
  unfold attempt_fails. intros H.
  destruct (attempt_result_cases o) as [(r & Hr & _)|(e' & He' & Hmsg)];
    congruence.
Qed.


(** One iteration of the loop, spelled out. *)
Lemma retry_loop_unfold b request fuel rc last w :
  (rc < maxRetries config)%nat ->
  let w1 := attempted request w in
  let retry err w1 :=
    if db_fault w1 (db_calls w1)
    then (Throw DbError, after_query w1 (db w1))
    else retry_loop config fuel b request (S rc) (Some err)
           (after_retrying config b rc err w1) in
  retry_loop config (S fuel) b request rc last w =
  match attempt_result (chain w (chain_calls w)) with
  | Ok result =>
      if db_fault w1 (db_calls w1)
      then retry DbError (after_query w1 (db w1))
      else
        (Ok (Some (Returned
               {| success := true;
                  transactionHash := transactionHash result;
                  blockNumber := blockNumber result;
                  gasUsed := gasUsed result;
                  error := None;
                  retryCount := Some rc |})),
         after_query w1
           (BlockchainSql.update_batch_mint_status b (Some MINTED)
              (JS.string_or_null (transactionHash result))
              (JS.int_or_null (blockNumber result))
              (Z.of_nat rc) None None (clock w1) (db w1)))
  | Throw err =>
      if non_retryable err
      then (Ok (Some (Left (S rc) (Some err))), w1)
      else retry err w1
  end.
Proof.
  intros Hrc. cbv zeta. cbn [retry_loop].
  apply Nat.ltb_lt in Hrc. rewrite Hrc.
  unfold try_catch, mbind at 1, M_bind at 1.
  rewrite executeMintTransaction_run.
  unfold after_retrying.
  destruct (attempt_result (chain w (chain_calls w))) as [result|err].
  - unfold mbind at 1, M_bind at 1. rewrite updateBatchMintStatus_run.
    cbn [ms_mintStatus ms_txHash ms_blockNumber ms_retryCount
           ms_lastAttempt ms_error JS.int_or_zero].
    destruct (db_fault (attempted request w) (db_calls (attempted request w)));
      [|reflexivity].
    cbn [non_retryable]. unfold mbind, M_bind, now.
    rewrite updateBatchMintStatus_run.
    cbn [ms_mintStatus ms_txHash ms_blockNumber ms_retryCount
           ms_lastAttempt ms_error JS.int_or_zero JS.string_or_null
           JS.int_or_null exn_message].
    destruct (db_fault _ _); [reflexivity|].
    destruct (S rc <? maxRetries config)%nat; reflexivity.
  - destruct (non_retryable err); [reflexivity|].
    unfold mbind, M_bind, now. rewrite updateBatchMintStatus_run.
    cbn [ms_mintStatus ms_txHash ms_blockNumber ms_retryCount
           ms_lastAttempt ms_error JS.int_or_zero JS.int_or_null].
    destruct (db_fault _ _); [reflexivity|].
    destruct (S rc <? maxRetries config)%nat; reflexivity.
Qed.

Lemma update_keeps_row b st tx bn n la err ts d :
  is_Some (batches d !! b) ->
  is_Some (batches (BlockchainSql.update_batch_mint_status
                      b st tx bn n la err ts d) !! b).
Proof.
  intros [old Hold].
  destruct (update_batch_mint_status_row b st tx bn n la err ts _ _ Hold)
    as (new & Hnew & _).
  eauto.
Qed.

Lemma after_retrying_row b rc err w1 :
  is_Some (batches (db w1) !! b) ->
  is_Some (batches (db (after_retrying config b rc err w1)) !! b).
Proof.
  intros Hrow. unfold after_retrying.
  destruct (S rc <? maxRetries config)%nat; cbn [sleep snd after_query db];
    apply update_keeps_row; exact Hrow.
Qed.

(** The loop returns only after a MINTED write went through. *)
Lemma retry_loop_returned b request fuel : forall rc last w result w',
  retry_loop config fuel b request rc last w
    = (Ok (Some (Returned result)), w') ->
  is_Some (batches (db w) !! b) ->
  success result = true
  /\ exists row, batches (db w') !! b = Some row
                 /\ Batch.mint_status row = Some MINTED.
Proof.
  induction fuel as [|fuel IH]; intros rc last w result w' Hrun Hrow;
    [discriminate Hrun|].
  destruct (Nat.ltb_spec rc (maxRetries config)) as [Hrc|Hrc].
  - rewrite (retry_loop_unfold b request fuel rc last w Hrc) in Hrun.
    cbv zeta in Hrun.
    assert (Hrow1 : is_Some (batches (db (attempted request w)) !! b))
      by exact Hrow.
    destruct (attempt_result (chain w (chain_calls w))) as [res|err].
    + destruct (db_fault (attempted request w) _).
      * cbn [after_query db_fault db_calls] in Hrun.
        destruct (db_fault (attempted request w) _); [discriminate Hrun|].
        apply IH in Hrun; [exact Hrun|].
        apply after_retrying_row. exact Hrow1.
      * injection Hrun as <- <-. split; [reflexivity|].
        destruct Hrow1 as [old Hold]. cbn [after_query db].
        match goal with
        | |- context [BlockchainSql.update_batch_mint_status b ?st ?tx ?bn
                        ?n ?la ?er ?ts ?d] =>
            destruct (update_batch_mint_status_row b st tx bn n la er ts d
                        old Hold) as (new & Hnew & Hmint & _)
        end.
        exists new. split; [exact Hnew|].
        unfold mint_columns in Hmint. congruence.
    + destruct (non_retryable err); [discriminate Hrun|].
      destruct (db_fault (attempted request w) _); [discriminate Hrun|].
      apply IH in Hrun; [exact Hrun|].
      apply after_retrying_row. exact Hrow1.
  - cbn [retry_loop] in Hrun.
    apply Nat.ltb_ge in Hrc. rewrite Hrc in Hrun. discriminate Hrun.
Qed.

(** [maxRetries - retryCount + 1] iterations are enough: the loop never
    runs out of fuel. *)
Lemma retry_loop_fuel b request fuel : forall rc last w,
  (maxRetries config - rc < fuel)%nat ->
  (retry_loop config fuel b request rc last w).1 <> Ok None.
Proof.
  induction fuel as [|fuel IH]; intros rc last w Hfuel; [lia|].
  destruct (Nat.ltb_spec rc (maxRetries config)) as [Hrc|Hrc].
  - rewrite (retry_loop_unfold b request fuel rc last w Hrc). cbv zeta.
    destruct (attempt_result (chain w (chain_calls w))) as [res|err].
    + destruct (db_fault (attempted request w) _); [|discriminate].
      destruct (db_fault (after_query _ _) _); [discriminate|].
      apply IH. lia.
    + destruct (non_retryable err); [discriminate|].
      destruct (db_fault (attempted request w) _); [discriminate|].
      apply IH. lia.
  - cbn [retry_loop]. apply Nat.ltb_ge in Hrc. rewrite Hrc. discriminate.
Qed.

Lemma getUserAddresses_frame c r w :
  exists a, getUserAddresses c r w = (Ok a, after_query w (db w)).
Proof.
  unfold getUserAddresses, try_catch, mbind, M_bind, db_query, reading.
  destruct (db_fault w (db_calls w)); [eexists; reflexivity|].
  destruct (length _ <? 2)%nat; [eexists; reflexivity|].
  destruct (JS.string_or_null _); [|eexists; reflexivity].
  destruct (JS.string_or_null _); eexists; reflexivity.
Qed.

Lemma eligible_dec d b :
  {row | eligible d b row} + {forall row, ~ eligible d b row}.
Proof.
  unfold eligible.
  destruct (batches d !! b) as [row|] eqn:Hb;
    [|right; intros row (H & _); discriminate H].
  destruct (decide (Batch.verification_status row = verified)) as [Hv|Hv];
    [|right; intros row' (H & Hv' & _); congruence].
  destruct (Batch.mint_status row) as [[| | |]|] eqn:Hm;
    try (right; intros row' (H & _ & [Hm'|Hm']); congruence);
    left; exists row; auto.
Qed.

(** A successful [triggerMint] leaves the batch MINTED. *)
Lemma triggerMint_success_minted b w r w1 :
  triggerMint config b w = (Ok (Some r), w1) ->
  success r = true ->
  exists row, batches (db w1) !! b = Some row
              /\ Batch.mint_status row = Some MINTED.
Proof.
  unfold triggerMint, mbind at 1, M_bind at 1.
  rewrite getBatchForMinting_run. intros Hrun Hok.
  destruct (db_fault w (db_calls w));
    [injection Hrun as <- _; discriminate Hok|].
  destruct (select_batch_for_minting_cases (db w) b) as [Hsel|[row Hsel]];
    rewrite Hsel in Hrun; cbn [head] in Hrun;
    [injection Hrun as <- _; discriminate Hok|].
  apply select_batch_for_minting_eligible in Hsel as (Hb & _).
  unfold mbind at 1, M_bind at 1 in Hrun.
  destruct (getUserAddresses_frame (Batch.collector_id row)
              (Batch.recycler_id row) (after_query w (db w))) as (a & Ha).
  rewrite Ha in Hrun.
  destruct (ua_success a); cbn [negb] in Hrun;
    [|injection Hrun as <- _; discriminate Hok].
  unfold mbind at 1, M_bind at 1, now in Hrun.
  unfold mbind at 1, M_bind at 1 in Hrun.
  rewrite updateBatchMintStatus_run in Hrun.
  destruct (db_fault _ _); [discriminate Hrun|].
  unfold mbind at 1, M_bind at 1 in Hrun.
  match type of Hrun with
  | context [retry_loop config ?f b ?rq ?rc ?la ?w0] =>
      destruct (retry_loop config f b rq rc la w0) as [[[[res|n last]|]|e] w4]
        eqn:Hloop
  end.
  - injection Hrun as <- <-.
    apply retry_loop_returned in Hloop as [_ Hrow]; [exact Hrow|].
    cbn [after_query db]. apply update_keeps_row. cbn [after_query db].
    eauto.
  - unfold mbind, M_bind, now in Hrun.
    rewrite updateBatchMintStatus_run in Hrun.
    destruct (db_fault w4 (db_calls w4)); [discriminate Hrun|].
    injection Hrun as <- _. discriminate Hok.
  - discriminate Hrun.
  - discriminate Hrun.
Qed.

(** [triggerMint] always produces a result or throws: its loop never runs
    out of fuel. *)
Lemma triggerMint_total b w : (triggerMint config b w).1 <> Ok None.
Proof.
  unfold triggerMint, mbind at 1, M_bind at 1.
  rewrite getBatchForMinting_run.
  destruct (if db_fault w (db_calls w) then None else _) as [row|];
    [|discriminate].
  unfold mbind at 1, M_bind at 1.
  destruct (getUserAddresses_frame (Batch.collector_id row)
              (Batch.recycler_id row) (after_query w (db w))) as (a & ->).
  destruct (ua_success a); cbn [negb]; [|discriminate].
  unfold mbind at 1, M_bind at 1, now.
  unfold mbind at 1, M_bind at 1. rewrite updateBatchMintStatus_run.
  destruct (db_fault _ _); [discriminate|].
  unfold mbind at 1, M_bind at 1.
  match goal with
  | |- context [retry_loop config ?f b ?rq ?rc ?la ?w0] =>
      pose proof (retry_loop_fuel b rq f rc la w0 ltac:(lia)) as Hfuel;
      destruct (retry_loop config f b rq rc la w0)
        as [[[[res|n last]|]|e] w4]
  end.
  - discriminate.
  - unfold mbind, M_bind, now. rewrite updateBatchMintStatus_run.
    destruct (db_fault w4 (db_calls w4)); discriminate.
  - exfalso. apply Hfuel. reflexivity.
  - discriminate.
Qed.

(** C2.  [triggerMint] refuses a batch that is not eligible (missing, not
    verified, or with a mint status other than null and FAILED_ON_CHAIN,
    that is MINTED, PENDING_MINT or RETRYING): it returns an unsuccessful
    result, leaves the tables as they were and submits nothing to the
    chain.  So a run that submits to the chain started from an eligible
    batch; and after a run that minted successfully a second call on the
    same batch refuses, again without writing or submitting. *)
Theorem triggerMint_only_when_eligible b w :
  ((forall row, ~ eligible (db w) b row) ->
   exists r w',
     triggerMint config b w = (Ok (Some r), w')
     /\ success r = false
     /\ db w' = db w
     /\ trace w' = trace w)
  /\ (forall res w',
        triggerMint config b w = (res, w') ->
        attempts (trace w') <> attempts (trace w) ->
        exists row, eligible (db w) b row)
  /\ (forall r w1,
        triggerMint config b w = (Ok (Some r), w1) ->
        success r = true ->
        exists r2 w2,
          triggerMint config b w1 = (Ok (Some r2), w2)
          /\ success r2 = false
          /\ db w2 = db w1
          /\ trace w2 = trace w1).
Proof.
  split; [|split].
  - intros Hne. rewrite (triggerMint_refuses b w Hne).
    eexists. eexists. split; [reflexivity|]. repeat split.
  - intros res w' Hrun Hatt.
    destruct (eligible_dec (db w) b) as [[row Hrow]|Hne]; [eauto|].
    rewrite (triggerMint_refuses b w Hne) in Hrun.
    injection Hrun as _ <-. exfalso. apply Hatt. reflexivity.
  - intros r w1 Hrun Hok.
    destruct (triggerMint_success_minted b w r w1 Hrun Hok)
      as (row & Hrow & Hminted).
    rewrite (triggerMint_refuses b w1).
    + eexists. eexists. split; [reflexivity|]. repeat split.
    + intros row' (Hb & _ & [Hm|Hm]); congruence.
Qed.


End TriggerMint.

Lemma triggerMint_only_when_eligible_witness :
  exists r w',
    BlockchainService.triggerMint default_config 7 Sample.minted = (Ok (Some r), w')
    /\ success r = false
    /\ db w' = db Sample.minted
    /\ trace w' = trace Sample.minted.
Proof.
  apply (proj1 (triggerMint_only_when_eligible default_config 7
                  Sample.minted)).
  intros row (Hb & _ & [Hm|Hm]); vm_compute in Hb; injection Hb as <-;
    discriminate Hm.
Defined.



(** Three retryable failures exhaust the default configuration: the waits
    before attempts 2 and 3 are 5000 ms and 10000 ms, and the batch ends
    FAILED_ON_CHAIN with retry_count 3. *)
Example triggerMint_exhausts_retries :
  let '(res, w') :=
    BlockchainService.triggerMint default_config 7 Sample.always_times_out in
  (match res with
   | Ok (Some r) => Some (success r, retryCount r)
   | _ => None
   end,
   List.filter (fun e => negb (is_attempt e)) (trace w'),
   attempts (trace w'),
   mint_columns <$> batches (db w') !! 7)
  = (Some (false, Some 3%nat),
     [EvSleep 5000; EvSleep 10000],
     3%nat,
     Some (Some FAILED_ON_CHAIN, None, None, 3, Some 1015000,
           Some "Transaction failed: request timed out")).
Proof. vm_compute. reflexivity. Qed.

End MintProperties.

(** ** The concrete figures in binary64 *)

Section Binary64Figures.

Import Stdlib.Floats.Floats.

(** With an original weight of 1000 g every whole verified weight from
    950 g to 1050 g is APPROVED in double arithmetic too: at both ends the
    computed percentage is exactly 5. *)
Lemma binary64_tolerance_of_1000 :
  forallb (fun n => bool_decide
                      (Binary64.status 1000 (Binary64.grams (950 + n))
                       = APPROVED))
          (seq 0 101) = true.
Proof. vm_compute. reflexivity. Qed.

Lemma binary64_thresholds :
  Binary64.weightDifferencePercentage 1000 950 = 5%float
  /\ Binary64.status 1000 949 = FLAGGED
  /\ Binary64.status 1000 1150 = FLAGGED
  /\ Binary64.status 1000 1200 = FLAGGED
  /\ Binary64.status 1000 1201 = REJECTED
  /\ Binary64.status 1000 1300 = REJECTED.
Proof. vm_compute. repeat split. Qed.

(** 10000 g in 10 transactions: 850, 100, 50 and 1000, exactly. *)
Lemma binary64_rewards :
  Binary64.calculateEIURewards 10000 10
  = (850%float, 100%float, 50%float, 1000%float).
Proof. vm_compute. reflexivity. Qed.

(** Four small transactions out of five do not exceed 5 * 0.8, which is
    exactly 4. *)
Lemma binary64_four_of_five : Binary64.small_share 4 5 = false.
Proof. vm_compute. reflexivity. Qed.

End Binary64Figures.

(** ** Validating a verification request *)

Section RequestValidation.

Lemma is_whole_iff q : JS.is_whole q = true <-> whole q.
Proof.
  unfold JS.is_whole, whole. rewrite Qeq_bool_iff. split.
  - intros H. eauto.
  - intros [n Hn]. rewrite (Qfloor_comp _ _ Hn), Qfloor_Z. exact Hn.
Qed.

Lemma string_length_0 s : String.eqb s "" = true <-> String.length s = 0%nat.
Proof. destruct s; cbn; split; congruence. Qed.

(** X1.  For a request whose fields have their declared types,
    validateVerifyBatchRequest reports no error exactly when batch_id is
    positive, verified_weight_total is a positive whole number, the IPFS
    hash has 46 to 64 characters, proof_type is absent, empty or one of
    photo, video, document, and the notes are absent or at most 1000
    characters long.  The failing fields are reported in the order
    batch_id, verified_weight_total, ipfs_proof_hash, proof_type,
    verification_notes, each at most once. *)
Theorem validateVerifyBatchRequest_accepts data :
  (BatchController.validateVerifyBatchRequest data = [] <-> acceptable data)
  /\ BatchController.validateVerifyBatchRequest data `sublist_of` request_fields.
Proof.
  unfold BatchController.validateVerifyBatchRequest, acceptable, request_fields.
  destruct data as [b v h pt notes]. cbn [BatchController.batch_id
    BatchController.verified_weight_total BatchController.ipfs_proof_hash
    BatchController.proof_type BatchController.verification_notes].
  split.
  - split.
    + intros H.
      apply app_eq_nil in H as [H1 H]. apply app_eq_nil in H as [H2 H].
      apply app_eq_nil in H as [H3 H]. apply app_eq_nil in H as [H4 H5].
      destruct (Z.leb_spec b 0); [discriminate|].
      destruct (JS.eq v 0%Q); [discriminate|].
      destruct (JS.le v 0%Q) eqn:Hle; [discriminate|].
      destruct (JS.is_whole v) eqn:Hw; [|discriminate].
      destruct (String.eqb h ""); [discriminate|].
      destruct (Nat.ltb_spec (String.length h) 46); [discriminate|].
      destruct (Nat.ltb_spec 64 (String.length h)); [discriminate|].
      repeat split; try lia.
      * apply JS_le_false. exact Hle.
      * apply is_whole_iff. exact Hw.
      * intros t ->. unfold JS.string_or_null in H4.
        destruct (String.eqb_spec t "") as [E|_]; [rewrite E; apply list_elem_of_here|].
        destruct (bool_decide _) eqn:Hin; [|discriminate].
        apply bool_decide_eq_true in Hin. apply list_elem_of_further. exact Hin.
      * intros n ->. unfold JS.string_or_null in H5.
        destruct (String.eqb_spec n "") as [E|_]; [rewrite E; cbn; lia|].
        destruct (Nat.ltb_spec 1000 (String.length n)); [discriminate|lia].
    + intros (Hb & Hpos & Hw & Hlen & Hpt & Hn).
      destruct (Z.leb_spec b 0); [lia|].
      assert (JS.eq v 0%Q = false) as ->.
      { unfold JS.eq. apply not_true_iff_false. rewrite Qeq_bool_iff.
        intros E. rewrite E in Hpos. discriminate Hpos. }
      assert (JS.le v 0%Q = false) as -> by (apply JS_le_false; exact Hpos).
      apply is_whole_iff in Hw. rewrite Hw.
      assert (String.eqb h "" = false) as ->.
      { apply not_true_iff_false. rewrite string_length_0. lia. }
      destruct (Nat.ltb_spec (String.length h) 46); [lia|].
      destruct (Nat.ltb_spec 64 (String.length h)); [lia|].
      cbn [negb orb app].
      assert (match JS.string_or_null pt with
              | Some t => if bool_decide (t ∈ ["photo"; "video"; "document"])
                          then [] else ["proof_type"]
              | None => []
              end = []) as ->.
      { destruct pt as [t|]; [|reflexivity]. unfold JS.string_or_null.
        destruct (String.eqb_spec t "") as [E|Hne]; [reflexivity|].
        rewrite bool_decide_eq_true_2; [reflexivity|].
        specialize (Hpt t eq_refl).
        apply elem_of_cons in Hpt as [->|Hpt]; [congruence|exact Hpt]. }
      destruct notes as [n|]; [|reflexivity]. unfold JS.string_or_null.
      destruct (String.eqb n ""); [reflexivity|].
      specialize (Hn n eq_refl).
      destruct (Nat.ltb_spec 1000 (String.length n)); [lia|reflexivity].
  - repeat match goal with
           | |- context [if ?c then _ else _] => destruct c
           | |- context [match JS.string_or_null ?o with _ => _ end] =>
               destruct (JS.string_or_null o)
           end;
      cbn [app];
      repeat first [apply sublist_nil | apply sublist_skip | apply sublist_cons].
Qed.

End RequestValidation.

(** ** The verification endpoint, end to end *)

Section VerifyBatchHandler.

Import VerificationService.

Lemma logBatchActivity_exact b r a details w :
  BatchService.logBatchActivity b r a details w =
  (Ok tt,
   after_query w
     (if db_fault w (db_calls w) then db w
      else Sql.insert_audit (activity_row b r (clock w) a details) (db w))).
Proof.
  unfold BatchService.logBatchActivity, try_catch, mbind, M_bind, now,
    db_query, writing.
  destruct (db_fault w (db_calls w)); [reflexivity|].
  destruct a; reflexivity.
Qed.

Lemma update_batch_verification_row b rid v h pt notes st reason bbid ts d
    old stored :
  BatchSql.decimal_10_2 v = Some stored ->
  batches d !! b = Some old ->
  exists new,
    BatchSql.update_batch_verification b rid v h pt notes st reason bbid ts d
      = Some ([new], set_batches d (<[ b := new ]> (batches d)))
    /\ verification_columns new
       = (Some rid, stored, st, Some h, Some pt, notes, Some ts, reason, bbid)
    /\ kept_by_verification new = kept_by_verification old
    /\ Batch.updated_at new = ts.
Proof.
  intros Hdec Hb. unfold BatchSql.update_batch_verification.
  rewrite Hdec, Hb. eexists. split; [reflexivity|]. repeat split.
Qed.

Lemma update_batch_verification_missing b rid v h pt notes st reason bbid ts d
    stored :
  BatchSql.decimal_10_2 v = Some stored ->
  batches d !! b = None ->
  BatchSql.update_batch_verification b rid v h pt notes st reason bbid ts d
    = Some ([], d).
Proof.
  intros Hdec Hb. unfold BatchSql.update_batch_verification.
  rewrite Hdec, Hb. reflexivity.
Qed.

Lemma verifyBatchWeight_world b v r w :
  exists res w1,
    verifyBatchWeight b v r w = (Ok res, w1)
    /\ users (db w1) = users (db w)
    /\ transactions (db w1) = transactions (db w)
    /\ transaction_batch (db w1) = transaction_batch (db w)
    /\ batches (db w1) = batches (db w)
    /\ db_fault w1 = db_fault w
    /\ chain w1 = chain w
    /\ chain_calls w1 = chain_calls w
    /\ trace w1 = trace w
    /\ clock w1 = clock w
    /\ random w1 = random w
    /\ (degenerate w b ->
        res = no_transactions_result v
        /\ db w1 = db w /\ db_calls w1 = S (db_calls w))
    /\ (~ degenerate w b ->
        db_calls w1 = S (S (db_calls w))
        /\ originalWeight res = member_weight (db w) b
        /\ verifiedWeight res = v
        /\ audit_log (db w1) =
           (if db_fault w (S (db_calls w)) then audit_log (db w)
            else audit_log (db w) ++ [audit_row_of b r (clock w) res])).
Proof.
  destruct (degenerate_dec w b) as [Hd|Hd].
  - exists (no_transactions_result v). eexists.
    split; [apply verifyBatchWeight_degenerate; exact Hd|].
    cbn [after_query db db_fault chain chain_calls trace clock random db_calls].
    repeat split; tauto.
  - destruct (verifyBatchWeight_normal b v r w Hd)
      as (res & Hrun & Ho & Hv & _).
    exists res. eexists. split; [exact Hrun|].
    cbn [after_query db db_fault chain chain_calls trace clock random db_calls].
    destruct (db_fault w (S (db_calls w))); repeat split; auto; tauto.
Qed.

Import BatchController.

Lemma batch_id_not_empty s : JS.string_or_null (Some ("BATCH_" +:+ s)) = Some ("BATCH_" +:+ s).
Proof. reflexivity. Qed.

Section Main.
Variables (req : AuthenticatedRequest) (w : World) (u : User.row)
  (old : Batch.row).
Let data := body req.
Let b := batch_id data.
Let v := verified_weight_total data.

Hypothesis Huser : user req = Some u.
Hypothesis Hrole : User.role u = recycler.
Hypothesis Hvalid : validateVerifyBatchRequest data = [].
Hypothesis Hlookup : db_fault w (db_calls w) = false.
Hypothesis Hold : batches (db w) !! b = Some old.
Hypothesis Hpending : Batch.verification_status old = pending.
Hypothesis Hcollector : is_Some (users (db w) !! Batch.collector_id old).

Lemma verifyBatch_main :
  exists res w1,
    verifyBatchWeight b v (User.id u) (after_query w (db w)) = (Ok res, w1)
    /\ verifyBatch req w =
       (let bbid :=
          match wc_status res with
          | APPROVED =>
              Some ("BATCH_" +:+ pretty (clock w) +:+ "_" +:+ random w)
          | _ => None
          end in
        if db_fault w1 (db_calls w1)
        then (Ok Status500, after_query w1 (db w1))
        else
          match BatchSql.update_batch_verification b (User.id u) v
                  (ipfs_proof_hash data)
                  (default "photo" (JS.string_or_null (proof_type data)))
                  (JS.string_or_null (verification_notes data))
                  (stored_status (wc_status res))
                  (match wc_status res with
                   | REJECTED => Some (wc_message res)
                   | _ => None
                   end)
                  bbid (clock w) (db w1) with
          | None => (Ok Status500, after_query w1 (db w1))
          | Some (rows, d2) =>
              let w2 := after_query w1 d2 in
              (Ok (Status200 (head rows) res
                     (bool_decide (wc_status res = APPROVED))),
               after_query w2
                 (if db_fault w2 (db_calls w2) then d2
                  else Sql.insert_audit
                         (activity_row b (User.id u) (clock w)
                            (wc_status res)
                            (Audit.Activity v (originalWeight res)
                               (weightDifferencePercentage res)
                               (ipfs_proof_hash data)
                               (verification_notes data))) d2))
          end).
Proof.
  destruct Hcollector as [c Hc].
  destruct (verifyBatchWeight_world b v (User.id u) (after_query w (db w)))
    as (res & w1 & Hrun & _ & _ & _ & _ & Hfault & _ & _ & _ & Hclock
        & Hrandom & _).
  cbn [after_query clock random] in Hclock, Hrandom.
  exists res, w1. split; [exact Hrun|].
  unfold verifyBatch, try_catch.
  rewrite Huser. cbn [negb]. rewrite bool_decide_eq_true_2 by exact Hrole.
  cbn [negb]. fold data. rewrite Hvalid.
  unfold mbind at 1, M_bind at 1. rewrite getBatchById_run, Hlookup.
  fold b v. unfold BatchSql.select_batch_by_id. rewrite Hold, Hc. cbn [head].
  rewrite bool_decide_eq_true_2 by exact Hpending. cbn [negb].
  unfold mbind at 1, M_bind at 1. rewrite Hrun. cbv zeta.
  destruct (wc_status res) eqn:Hst;
    unfold mbind, M_bind, mret, M_ret, generateBlockchainBatchId;
    rewrite updateBatchVerification_run;
    cbn [BatchService.p_recycler_id BatchService.p_verified_weight_total
           BatchService.p_ipfs_proof_hash BatchService.p_proof_type
           BatchService.p_verification_notes
           BatchService.p_verification_status
           BatchService.p_rejection_reason
           BatchService.p_blockchain_batch_id stored_status];
    rewrite ?Hclock, ?Hrandom;
    (destruct (db_fault w1 (db_calls w1)); [reflexivity|]);
    rewrite ?batch_id_not_empty;
    change (JS.string_or_null None) with (@None string);
    match goal with
    | |- context [BatchSql.update_batch_verification ?a1 ?a2 ?a3 ?a4 ?a5 ?a6
                    ?a7 ?a8 ?a9 ?a10 ?a11] =>
        destruct (BatchSql.update_batch_verification a1 a2 a3 a4 a5 a6 a7 a8
                    a9 a10 a11) as [[rows d2]|]; [|reflexivity]
    end;
    rewrite logBatchActivity_exact;
    cbn [after_query clock db]; rewrite ?Hclock; reflexivity.
Qed.

End Main.

(** X2.  verifyBatch answers 403 to a request without a user or whose user
    is not a recycler, and 400 to a recycler's request that fails
    validation, in both cases before any storage call: tables, call
    counters, clock and trace are unchanged.  (Which fields the 400
    lists is not part of this statement.) *)
Theorem verifyBatch_checks_before_storage req w :
  (authorised req = false -> verifyBatch req w = (Ok Status403, w))
  /\ (authorised req = true ->
      validateVerifyBatchRequest (body req) <> [] ->
      exists fields,
        verifyBatch req w = (Ok (Status400Validation fields), w)).
Proof.
  unfold authorised, verifyBatch, try_catch.
  destruct (user req) as [u|]; [|split; [reflexivity|discriminate]].
  destruct (bool_decide (User.role u = recycler)); cbn [negb];
    (split; [try reflexivity; discriminate|]); [|discriminate].
  intros _ Hne.
  destruct (validateVerifyBatchRequest (body req)) as [|e es];
    [congruence|eexists; reflexivity].
Qed.

Lemma verifyBatch_checks_before_storage_witness :
  verifyBatch
    {| user := Some (Sample.usr 1 collector (Some "0xC011"));
       body := body (Sample.request 980%Q) |} Sample.one_kilo
  = (Ok Status403, Sample.one_kilo).
Proof.
  apply (proj1 (verifyBatch_checks_before_storage _ Sample.one_kilo)).
  reflexivity.
Defined.

Lemma verifyBatch_not_found_run req w u :
  user req = Some u ->
  User.role u = recycler ->
  validateVerifyBatchRequest (body req) = [] ->
  db_fault w (db_calls w) = true
  \/ batches (db w) !! batch_id (body req) = None ->
  verifyBatch req w = (Ok Status404, after_query w (db w)).
Proof.
  intros Hu Hrole Hvalid Hmiss.
  unfold verifyBatch, try_catch.
  rewrite Hu. cbn [negb]. rewrite bool_decide_eq_true_2 by exact Hrole.
  cbn [negb]. rewrite Hvalid.
  unfold mbind at 1, M_bind at 1. rewrite getBatchById_run.
  destruct Hmiss as [Hf|Hb]; [rewrite Hf; reflexivity|].
  destruct (db_fault w (db_calls w)); [reflexivity|].
  unfold BatchSql.select_batch_by_id. rewrite Hb. reflexivity.
Qed.

Lemma verifyBatch_not_pending_run req w u row :
  user req = Some u ->
  User.role u = recycler ->
  validateVerifyBatchRequest (body req) = [] ->
  db_fault w (db_calls w) = false ->
  batches (db w) !! batch_id (body req) = Some row ->
  is_Some (users (db w) !! Batch.collector_id row) ->
  Batch.verification_status row <> pending ->
  verifyBatch req w =
  (Ok (Status400NotPending (Batch.verification_status row)),
   after_query w (db w)).
Proof.
  intros Hu Hrole Hvalid Hf Hb [c Hc] Hst.
  unfold verifyBatch, try_catch.
  rewrite Hu. cbn [negb]. rewrite bool_decide_eq_true_2 by exact Hrole.
  cbn [negb]. rewrite Hvalid.
  unfold mbind at 1, M_bind at 1. rewrite getBatchById_run, Hf.
  unfold BatchSql.select_batch_by_id. rewrite Hb, Hc. cbn [head].
  rewrite bool_decide_eq_false_2 by exact Hst. reflexivity.
Qed.

(** X3.  For a valid request of a recycler, verifyBatch answers 404 when the
    batch does not exist or when its lookup fails (getBatchById swallows
    the storage error), and 400 naming the current status when the batch
    is no longer pending; in both cases after exactly one storage call
    and without changing any table. *)
Theorem verifyBatch_missing_or_settled req w u :
  user req = Some u ->
  User.role u = recycler ->
  validateVerifyBatchRequest (body req) = [] ->
  let b := batch_id (body req) in
  (db_fault w (db_calls w) = true \/ batches (db w) !! b = None ->
   verifyBatch req w = (Ok Status404, after_query w (db w)))
  /\ (forall row,
        db_fault w (db_calls w) = false ->
        batches (db w) !! b = Some row ->
        is_Some (users (db w) !! Batch.collector_id row) ->
        Batch.verification_status row <> pending ->
        verifyBatch req w =
        (Ok (Status400NotPending (Batch.verification_status row)),
         after_query w (db w))).
Proof.
  intros Hu Hrole Hvalid b. split.
  - apply (verifyBatch_not_found_run req w u); assumption.
  - intros row. apply (verifyBatch_not_pending_run req w u); assumption.
Qed.

Lemma verifyBatch_missing_or_settled_witness :
  verifyBatch (Sample.request 1000%Q) Sample.minted
  = (Ok (Status400NotPending verified),
     after_query Sample.minted (db Sample.minted)).
Proof.
  apply (proj2 (verifyBatch_missing_or_settled (Sample.request 1000%Q)
                  Sample.minted (Sample.usr 2 recycler (Some "0x4EC1"))
                  eq_refl eq_refl eq_refl) Sample.minted_row).
  - reflexivity.
  - reflexivity.
  - eexists. reflexivity.
  - discriminate.
Defined.

Lemma decimal_10_2_overflow (q : Q) :
  JS.is_whole q = true -> (100000000 <= q)%Q -> BatchSql.decimal_10_2 q = None.
Proof.
  intros Hw Hge.
  assert (Hpos : (0 <= q)%Q) by (eapply Qle_trans; [|exact Hge]; discriminate).
  pose proof (round2_whole q Hw Hpos) as Hr.
  unfold BatchSql.decimal_10_2.
  destruct (Qle_bool 100000000 (Qabs (BatchSql.round2 q))) eqn:Hle;
    [reflexivity|].
  exfalso. apply not_true_iff_false in Hle. apply Hle.
  apply Qle_bool_iff. rewrite Hr, Qabs_pos by exact Hpos. exact Hge.
Qed.

(** With a working storage, an existing batch has no member transaction
    exactly when the comparison takes its degenerate path. *)
Lemma degenerate_after_lookup w b old :
  db_fault w (S (db_calls w)) = false ->
  batches (db w) !! b = Some old ->
  degenerate (after_query w (db w)) b <-> member_transactions (db w) b = [].
Proof.
  intros Hf Hb. unfold degenerate. cbn [after_query db db_fault db_calls].
  rewrite Hf, Hb. split; [intros [H|[H|H]]; [discriminate|discriminate|exact H]|].
  intros H. right. right. exact H.
Qed.

(** The main path of [verifyBatch] with a working storage, in full. *)
Lemma verifyBatch_success_run req w u old :
  user req = Some u ->
  User.role u = recycler ->
  validateVerifyBatchRequest (body req) = [] ->
  (verified_weight_total (body req) < 100000000)%Q ->
  (forall n, db_fault w n = false) ->
  batches (db w) !! batch_id (body req) = Some old ->
  Batch.verification_status old = pending ->
  is_Some (users (db w) !! Batch.collector_id old) ->
  let data := body req in
  let b := batch_id data in
  let v := verified_weight_total data in
  exists new res w1 w' stored,
    verifyBatchWeight b v (User.id u) (after_query w (db w)) = (Ok res, w1)
    /\ verifyBatch req w
       = (Ok (Status200 (Some new) res
                (bool_decide (wc_status res = APPROVED))), w')
    /\ BatchSql.decimal_10_2 v = Some stored
    /\ (stored == v)%Q
    /\ verification_columns new =
         (Some (User.id u), stored, stored_status (wc_status res),
          Some (ipfs_proof_hash data),
          Some (default "photo" (JS.string_or_null (proof_type data))),
          JS.string_or_null (verification_notes data),
          Some (clock w),
          match wc_status res with
          | REJECTED => Some (wc_message res)
          | _ => None
          end,
          match wc_status res with
          | APPROVED =>
              Some ("BATCH_" +:+ pretty (clock w) +:+ "_" +:+ random w)
          | _ => None
          end)
    /\ kept_by_verification new = kept_by_verification old
    /\ db w' =
         Sql.insert_audit
           (activity_row b (User.id u) (clock w) (wc_status res)
              (Audit.Activity v (originalWeight res)
                 (weightDifferencePercentage res) (ipfs_proof_hash data)
                 (verification_notes data)))
           (set_batches (db w1) (<[ b := new ]> (batches (db w))))
    /\ db_calls w' = S (S (db_calls w1))
    /\ db_fault w' = db_fault w
    /\ chain w' = chain w
    /\ chain_calls w' = chain_calls w
    /\ trace w' = trace w
    /\ clock w' = clock w
    /\ random w' = random w.
Proof.
  intros Hu Hrole Hvalid Hlt Hf Hb Hpending Hc. cbv zeta.
  destruct (valid_weight _ Hvalid) as [Hwhole Hpos].
  destruct (decimal_10_2_whole _ Hwhole (Qlt_le_weak _ _ Hpos) Hlt)
    as (stored & Hdec & Hstored).
  destruct (verifyBatch_main req w u old Hu Hrole Hvalid (Hf _) Hb Hpending Hc)
    as (res & w1 & Hrun & Hmain).
  destruct (verifyBatchWeight_world (batch_id (body req))
              (verified_weight_total (body req)) (User.id u)
              (after_query w (db w)))
    as (res' & w1' & Hrun' & _ & _ & _ & Hbatches & Hfault & Hchain & Hcc
        & Htrace & Hclock & Hrandom & _).
  rewrite Hrun in Hrun'. injection Hrun' as <- <-.
  cbn [after_query db db_fault chain chain_calls trace clock random]
    in Hbatches, Hfault, Hchain, Hcc, Htrace, Hclock, Hrandom.
  rewrite Hmain. cbv zeta. rewrite Hfault, Hf.
  assert (Hb1 : batches (db w1) !! batch_id (body req) = Some old)
    by (rewrite Hbatches; exact Hb).
  match goal with
  | |- context [BatchSql.update_batch_verification ?a1 ?a2 ?a3 ?a4 ?a5 ?a6
                  ?a7 ?a8 ?a9 ?a10 ?a11] =>
      destruct (update_batch_verification_row a1 a2 a3 a4 a5 a6 a7 a8 a9 a10
                  a11 old stored Hdec Hb1)
        as (new & Hupd & Hcols & Hkept & _);
      rewrite Hupd
  end.
  cbn [head after_query db_fault]. rewrite Hfault, Hf.
  exists new, res, w1. eexists. exists stored.
  split; [exact Hrun|]. split; [reflexivity|].
  cbn [after_query db db_calls db_fault chain chain_calls trace clock random].
  rewrite Hbatches.
  repeat split; assumption.
Qed.

(** X4.  When a recycler's valid request for a pending batch goes through
    (no storage failure, verified weight below 10^8), verifyBatch
    answers 200 with the updated row and the comparison result, and
    reports the mint as initiated iff the result is APPROVED.  The
    stored verification_status is verified for APPROVED, pending again
    for FLAGGED and rejected for REJECTED; blockchain_batch_id is
    BATCH_<clock>_<random> only when APPROVED; rejection_reason is the
    result's message only when REJECTED; recycler_id, verified_at (also
    when FLAGGED), the IPFS hash and proof_type (photo by default) are
    stored; the id, the collector, the mint columns and created_at are
    kept, and no other row changes. *)
Theorem verifyBatch_outcome req w u old :
  user req = Some u ->
  User.role u = recycler ->
  validateVerifyBatchRequest (body req) = [] ->
  (verified_weight_total (body req) < 100000000)%Q ->
  (forall n, db_fault w n = false) ->
  batches (db w) !! batch_id (body req) = Some old ->
  Batch.verification_status old = pending ->
  is_Some (users (db w) !! Batch.collector_id old) ->
  let data := body req in
  let b := batch_id data in
  let v := verified_weight_total data in
  exists updated res w',
    verifyBatch req w
      = (Ok (Status200 (Some updated) res
               (bool_decide (wc_status res = APPROVED))), w')
    /\ (verifyBatchWeight b v (User.id u) (after_query w (db w))).1 = Ok res
    /\ batches (db w') = <[ b := updated ]> (batches (db w))
    /\ Batch.verification_status updated = stored_status (wc_status res)
    /\ Batch.blockchain_batch_id updated =
         match wc_status res with
         | APPROVED =>
             Some ("BATCH_" +:+ pretty (clock w) +:+ "_" +:+ random w)
         | _ => None
         end
    /\ Batch.rejection_reason updated =
         match wc_status res with
         | REJECTED => Some (wc_message res)
         | _ => None
         end
    /\ Batch.recycler_id updated = Some (User.id u)
    /\ Batch.verified_at updated = Some (clock w)
    /\ Batch.ipfs_proof_hash updated = Some (ipfs_proof_hash data)
    /\ Batch.proof_type updated =
         Some (default "photo" (JS.string_or_null (proof_type data)))
    /\ kept_by_verification updated = kept_by_verification old.
Proof.
  intros Hu Hrole Hvalid Hlt Hf Hb Hpending Hc. cbv zeta.
  destruct (verifyBatch_success_run req w u old Hu Hrole Hvalid Hlt Hf Hb
              Hpending Hc)
    as (new & res & w1 & w' & stored & Hrun & Hmain & _ & _ & Hcols & Hkept
        & Hdb & _).
  exists new, res, w'. split; [exact Hmain|].
  split; [rewrite Hrun; reflexivity|].
  split; [rewrite Hdb; reflexivity|].
  unfold verification_columns in Hcols.
  injection Hcols as H1 H2 H3 H4 H5 H6 H7 H8 H9.
  repeat split; assumption.
Qed.

Lemma verifyBatch_outcome_witness :
  exists updated res w',
    verifyBatch (Sample.request 980%Q) Sample.one_kilo
      = (Ok (Status200 (Some updated) res
               (bool_decide (wc_status res = APPROVED))), w')
    /\ Batch.verification_status updated = stored_status (wc_status res)
    /\ Batch.recycler_id updated = Some 2.
Proof.
  destruct (verifyBatch_outcome (Sample.request 980%Q) Sample.one_kilo
              (Sample.usr 2 recycler (Some "0x4EC1"))
              (Sample.batch 7 1000%Q pending None))
    as (updated & res & w' & Hrun & _ & _ & Hst & _ & _ & Hrec & _).
  - reflexivity.
  - reflexivity.
  - reflexivity.
  - vm_compute. reflexivity.
  - intros n. reflexivity.
  - reflexivity.
  - reflexivity.
  - eexists. reflexivity.
  - exists updated, res, w'. split; [exact Hrun|]. split; assumption.
Defined.

(** X5.  Such a request appends to the audit log, in this order, the
    BATCH_VERIFICATION row of verifyBatchWeight (only if the batch has
    member transactions) and one BATCH_APPROVED, BATCH_FLAGGED or
    BATCH_REJECTED row carrying the verified weight, the original
    weight, the percentage, the IPFS hash and the notes; nothing else is
    appended and no earlier row is touched. *)
Theorem verifyBatch_audit_rows req w u old :
  user req = Some u ->
  User.role u = recycler ->
  validateVerifyBatchRequest (body req) = [] ->
  (verified_weight_total (body req) < 100000000)%Q ->
  (forall n, db_fault w n = false) ->
  batches (db w) !! batch_id (body req) = Some old ->
  Batch.verification_status old = pending ->
  is_Some (users (db w) !! Batch.collector_id old) ->
  let data := body req in
  let b := batch_id data in
  let v := verified_weight_total data in
  exists updated res minting w',
    verifyBatch req w = (Ok (Status200 updated res minting), w')
    /\ audit_log (db w') =
       audit_log (db w)
       ++ match member_transactions (db w) b with
          | [] => []
          | _ => [audit_row_of b (User.id u) (clock w) res]
          end
       ++ [activity_row b (User.id u) (clock w) (wc_status res)
             (Audit.Activity v (originalWeight res)
                (weightDifferencePercentage res) (ipfs_proof_hash data)
                (verification_notes data))].
Proof.
  intros Hu Hrole Hvalid Hlt Hf Hb Hpending Hc. cbv zeta.
  destruct (verifyBatch_success_run req w u old Hu Hrole Hvalid Hlt Hf Hb
              Hpending Hc)
    as (new & res & w1 & w' & stored & Hrun & Hmain & _ & _ & _ & _
        & Hdb & _).
  destruct (verifyBatchWeight_world (batch_id (body req))
              (verified_weight_total (body req)) (User.id u)
              (after_query w (db w)))
    as (res' & w1' & Hrun' & _ & _ & _ & _ & _ & _ & _ & _ & _ & _
        & Hdeg & Hnorm).
  rewrite Hrun in Hrun'. injection Hrun' as <- <-.
  do 4 eexists. split; [exact Hmain|].
  rewrite Hdb.
  cbn [Sql.insert_audit set_audit_log set_batches audit_log].
  rewrite app_assoc. f_equal.
  pose proof (degenerate_after_lookup w (batch_id (body req)) old (Hf _) Hb)
    as Hiff.
  destruct (member_transactions (db w) (batch_id (body req))) as [|t ts]
    eqn:Hm.
  - destruct Hdeg as (_ & Hdb1 & _); [apply Hiff; reflexivity|].
    rewrite Hdb1, app_nil_r. reflexivity.
  - destruct Hnorm as (_ & _ & _ & Hlog);
      [rewrite Hiff; discriminate|].
    cbn [after_query db db_fault db_calls clock] in Hlog.
    rewrite Hf in Hlog. exact Hlog.
Qed.

Lemma verifyBatch_audit_rows_witness :
  exists updated res minting w',
    verifyBatch (Sample.request 980%Q) Sample.one_kilo
      = (Ok (Status200 updated res minting), w')
    /\ length (audit_log (db w')) = 2%nat.
Proof.
  destruct (verifyBatch_audit_rows (Sample.request 980%Q) Sample.one_kilo
              (Sample.usr 2 recycler (Some "0x4EC1"))
              (Sample.batch 7 1000%Q pending None))
    as (updated & res & minting & w' & Hrun & Hlog).
  - reflexivity.
  - reflexivity.
  - reflexivity.
  - vm_compute. reflexivity.
  - intros n. reflexivity.
  - reflexivity.
  - reflexivity.
  - eexists. reflexivity.
  - exists updated, res, minting, w'. split; [exact Hrun|].
    rewrite Hlog. reflexivity.
Defined.

(** X6.  A verified weight of 10^8 grams or more passes validation but does
    not fit the DECIMAL(10,2) column total_weight_grams: the UPDATE
    fails, verifyBatch answers 500 and the batches table is unchanged,
    while the BATCH_VERIFICATION audit row that verifyBatchWeight wrote
    before the update stays in the audit log. *)
Theorem verifyBatch_weight_overflow req w u old :
  user req = Some u ->
  User.role u = recycler ->
  validateVerifyBatchRequest (body req) = [] ->
  (100000000 <= verified_weight_total (body req))%Q ->
  db_fault w (db_calls w) = false ->
  batches (db w) !! batch_id (body req) = Some old ->
  Batch.verification_status old = pending ->
  is_Some (users (db w) !! Batch.collector_id old) ->
  let data := body req in
  let b := batch_id data in
  let v := verified_weight_total data in
  exists res w',
    verifyBatch req w = (Ok Status500, w')
    /\ (verifyBatchWeight b v (User.id u) (after_query w (db w))).1 = Ok res
    /\ batches (db w') = batches (db w)
    /\ (member_transactions (db w) b <> [] ->
        db_fault w (S (db_calls w)) = false ->
        db_fault w (S (S (db_calls w))) = false ->
        audit_log (db w') =
        audit_log (db w) ++ [audit_row_of b (User.id u) (clock w) res]).
Proof.
  intros Hu Hrole Hvalid Hge Hf Hb Hpending Hc. cbv zeta.
  destruct (valid_weight _ Hvalid) as [Hwhole Hpos].
  pose proof (decimal_10_2_overflow _ Hwhole Hge) as Hdec.
  destruct (verifyBatch_main req w u old Hu Hrole Hvalid Hf Hb Hpending Hc)
    as (res & w1 & Hrun & Hmain).
  destruct (verifyBatchWeight_world (batch_id (body req))
              (verified_weight_total (body req)) (User.id u)
              (after_query w (db w)))
    as (res' & w1' & Hrun' & _ & _ & _ & Hbatches & _ & _ & _ & _ & _ & _
        & _ & Hnorm).
  rewrite Hrun in Hrun'. injection Hrun' as <- <-.
  cbn [after_query db] in Hbatches.
  exists res, (after_query w1 (db w1)).
  split.
  { rewrite Hmain. cbv zeta.
    destruct (db_fault w1 (db_calls w1)); [reflexivity|].
    unfold BatchSql.update_batch_verification. rewrite Hdec. reflexivity. }
  split; [rewrite Hrun; reflexivity|].
  split; [exact Hbatches|].
  intros Hne Hf1 Hf2. cbn [after_query db].
  destruct Hnorm as (_ & _ & _ & Hlog).
  { rewrite (degenerate_after_lookup w _ old Hf1 Hb). exact Hne. }
  cbn [after_query db db_fault db_calls clock] in Hlog.
  rewrite Hf2 in Hlog. exact Hlog.
Qed.

Lemma verifyBatch_weight_overflow_witness :
  exists res w',
    verifyBatch (Sample.request 100000000%Q) Sample.one_kilo
      = (Ok Status500, w')
    /\ batches (db w') = batches (db Sample.one_kilo)
    /\ audit_log (db w') = [audit_row_of 7 2 1000000 res].
Proof.
  destruct (verifyBatch_weight_overflow (Sample.request 100000000%Q)
              Sample.one_kilo (Sample.usr 2 recycler (Some "0x4EC1"))
              (Sample.batch 7 1000%Q pending None))
    as (res & w' & Hrun & _ & Hbatches & Hlog).
  - reflexivity.
  - reflexivity.
  - reflexivity.
  - vm_compute. discriminate.
  - reflexivity.
  - reflexivity.
  - reflexivity.
  - eexists. reflexivity.
  - exists res, w'. split; [exact Hrun|]. split; [exact Hbatches|].
    apply Hlog; [vm_compute; discriminate|reflexivity|reflexivity].
Defined.

(** X7.  After a first request that was FLAGGED the batch is still pending,
    so a second valid request on the same batch is processed again
    (200); after an APPROVED or a REJECTED one the second request is
    answered 400 naming the stored status (verified or rejected), after
    one storage call and with no table changed. *)
Theorem verifyBatch_second_request req w u old req2 u2 :
  user req = Some u ->
  User.role u = recycler ->
  validateVerifyBatchRequest (body req) = [] ->
  (verified_weight_total (body req) < 100000000)%Q ->
  (forall n, db_fault w n = false) ->
  batches (db w) !! batch_id (body req) = Some old ->
  Batch.verification_status old = pending ->
  is_Some (users (db w) !! Batch.collector_id old) ->
  user req2 = Some u2 ->
  User.role u2 = recycler ->
  validateVerifyBatchRequest (body req2) = [] ->
  (verified_weight_total (body req2) < 100000000)%Q ->
  batch_id (body req2) = batch_id (body req) ->
  exists updated res w1,
    verifyBatch req w
      = (Ok (Status200 (Some updated) res
               (bool_decide (wc_status res = APPROVED))), w1)
    /\ (wc_status res = FLAGGED ->
        exists updated2 res2 w2,
          verifyBatch req2 w1
          = (Ok (Status200 (Some updated2) res2
                   (bool_decide (wc_status res2 = APPROVED))), w2))
    /\ (wc_status res <> FLAGGED ->
        verifyBatch req2 w1
        = (Ok (Status400NotPending (stored_status (wc_status res))),
           after_query w1 (db w1))).
Proof.
  intros Hu Hrole Hvalid Hlt Hf Hb Hpending Hc Hu2 Hrole2 Hvalid2 Hlt2 Hsame.
  destruct (verifyBatch_success_run req w u old Hu Hrole Hvalid Hlt Hf Hb
              Hpending Hc)
    as (new & res & w0 & w1 & stored & Hrun & Hmain & _ & _ & Hcols & Hkept
        & Hdb & _ & Hfault & _).
  destruct (verifyBatchWeight_world (batch_id (body req))
              (verified_weight_total (body req)) (User.id u)
              (after_query w (db w)))
    as (res' & w0' & Hrun' & Husers & _).
  rewrite Hrun in Hrun'. injection Hrun' as <- <-.
  cbn [after_query db] in Husers.
  assert (Hnew : batches (db w1) !! batch_id (body req2) = Some new).
  { rewrite Hdb, Hsame. cbn [Sql.insert_audit set_audit_log set_batches batches].
    apply lookup_insert_eq. }
  assert (Hcol : is_Some (users (db w1) !! Batch.collector_id new)).
  { rewrite Hdb. cbn [Sql.insert_audit set_audit_log set_batches users].
    rewrite Husers. unfold kept_by_verification in Hkept.
    injection Hkept as _ -> _ _. exact Hc. }
  assert (Hst : Batch.verification_status new = stored_status (wc_status res)).
  { unfold verification_columns in Hcols. injection Hcols. auto. }
  assert (Hf1 : forall n, db_fault w1 n = false).
  { intros n. rewrite Hfault. apply Hf. }
  exists new, res, w1. split; [exact Hmain|]. split.
  - intros Hfl. rewrite Hfl in Hst. cbn [stored_status] in Hst.
    destruct (verifyBatch_success_run req2 w1 u2 new Hu2 Hrole2 Hvalid2 Hlt2
                Hf1 Hnew Hst Hcol)
      as (new2 & res2 & _ & w2 & _ & _ & Hmain2 & _).
    exists new2, res2, w2. exact Hmain2.
  - intros Hnf. rewrite <- Hst.
    apply (verifyBatch_not_pending_run req2 w1 u2 new Hu2 Hrole2 Hvalid2
             (Hf1 _) Hnew Hcol).
    rewrite Hst. destruct (wc_status res); [discriminate|congruence|discriminate].
Qed.

Lemma verifyBatch_second_request_witness :
  exists updated res w1,
    verifyBatch (Sample.request 980%Q) Sample.one_kilo
      = (Ok (Status200 (Some updated) res
               (bool_decide (wc_status res = APPROVED))), w1)
    /\ (wc_status res <> FLAGGED ->
        verifyBatch (Sample.request 1000%Q) w1
        = (Ok (Status400NotPending (stored_status (wc_status res))),
           after_query w1 (db w1))).
Proof.
  destruct (verifyBatch_second_request (Sample.request 980%Q) Sample.one_kilo
              (Sample.usr 2 recycler (Some "0x4EC1"))
              (Sample.batch 7 1000%Q pending None)
              (Sample.request 1000%Q)
              (Sample.usr 2 recycler (Some "0x4EC1")))
    as (updated & res & w1 & Hrun & _ & Hsettled).
  - reflexivity.
  - reflexivity.
  - reflexivity.
  - vm_compute. reflexivity.
  - intros n. reflexivity.
  - reflexivity.
  - reflexivity.
  - eexists. reflexivity.
  - reflexivity.
  - reflexivity.
  - reflexivity.
  - vm_compute. reflexivity.
  - reflexivity.
  - exists updated, res, w1. split; [exact Hrun|exact Hsettled].
Defined.

End VerifyBatchHandler.

(** ** The batch summary, the fraud heuristics and the rewards *)

Section SummaryAndFraud.

Import VerificationService.

#[local] Instance created_desc_total : Total Sql.created_desc.
Proof.
  intros [x|] [y|]; cbn; try tauto. lia.
Qed.

#[local] Instance created_desc_trans : Transitive Sql.created_desc.
Proof.
  intros [x|] [y|] [z|]; cbn; try tauto. lia.
Qed.

Lemma no_links_joined d b :
  no_links d b -> Sql.joined_transactions d b = [None].
Proof.
  unfold no_links, Sql.joined_transactions.
  generalize (transaction_batch d). intros l H.
  replace (filter (λ tb : Z * Z, tb.2 = b) l) with (@nil (Z * Z));
    [reflexivity|].
  symmetry. induction l as [|tb l IH]; [reflexivity|].
  rewrite filter_cons. destruct (decide (tb.2 = b)) as [E|E].
  - exfalso. apply (H tb); [left|exact E].
  - apply IH. intros tb' Hin. apply H. right. exact Hin.
Qed.

(** X8.  getBatchTransactionSummary makes one storage call and never throws.
    It returns null when the query fails or the batch does not exist;
    otherwise a summary whose count is the number of member
    transactions, whose total weight is their sum, and whose transaction
    list is the joined rows sorted by created_at, newest first.  A batch
    without links gets count 0 and a list holding one all-null entry
    (the row of the outer join); when every link resolves, the list is a
    permutation of the member transactions. *)
Theorem getBatchTransactionSummary_contents b w :
  (db_fault w (db_calls w) = true \/ batches (db w) !! b = None ->
   getBatchTransactionSummary b w = (Ok None, after_query w (db w)))
  /\ (db_fault w (db_calls w) = false ->
      is_Some (batches (db w) !! b) ->
      exists s,
        getBatchTransactionSummary b w = (Ok (Some s), after_query w (db w))
        /\ batchId s = b
        /\ transactionCount s = length (member_transactions (db w) b)
        /\ totalOriginalWeight s = total_weight (member_transactions (db w) b)
        /\ Sorted Sql.created_desc (summary_transactions s)
        /\ summary_transactions s ≡ₚ Sql.joined_transactions (db w) b
        /\ (no_links (db w) b ->
            transactionCount s = 0%nat /\ summary_transactions s = [None])
        /\ (links_resolved (db w) b ->
            member_transactions (db w) b <> [] ->
            exists rows,
              summary_transactions s = Some <$> rows
              /\ rows ≡ₚ member_transactions (db w) b)).
Proof.
  rewrite getBatchTransactionSummary_run. split.
  - intros [->| Hb]; [reflexivity|].
    unfold summary_of. rewrite Hb. destruct (db_fault w (db_calls w)); reflexivity.
  - intros -> [row Hrow]. unfold summary_of. rewrite Hrow.
    eexists. split; [reflexivity|].
    cbn [batchId transactionCount totalOriginalWeight summary_transactions].
    split; [reflexivity|]. split; [reflexivity|]. split; [reflexivity|].
    split; [apply Sorted_merge_sort; apply _|].
    split; [apply merge_sort_Permutation|].
    split.
    + intros Hno. rewrite (no_links_joined _ _ Hno). split; reflexivity.
    + intros Hres Hne. rewrite (joined_transactions_resolved _ _ Hres Hne).
      apply sorted_rows_of_members.
Qed.

Lemma getBatchTransactionSummary_contents_witness :
  exists s,
    getBatchTransactionSummary 7 Sample.four_small_of_five
    = (Ok (Some s),
       after_query Sample.four_small_of_five (db Sample.four_small_of_five))
    /\ transactionCount s = 5%nat
    /\ Sorted Sql.created_desc (summary_transactions s).
Proof.
  destruct (proj2 (getBatchTransactionSummary_contents 7
                     Sample.four_small_of_five))
    as (s & Hrun & _ & Hcount & _ & Hsorted & _).
  - reflexivity.
  - eexists. reflexivity.
  - exists s. split; [exact Hrun|]. split; [exact Hcount|exact Hsorted].
Defined.

(** X9.  detectSuspiciousPatterns never throws and makes one storage call.
    Its score lies between 0 and 130, isSuspicious holds iff the score
    exceeds 50, the score is 0 iff no reason is given, at most five
    reasons are given, and a suspicious report carries at least two
    reasons unless it is the Batch-not-found report (score 100), which
    is what a failed query or a missing batch gives. *)
Theorem detectSuspiciousPatterns_invariants b w :
  exists rep,
    detectSuspiciousPatterns b w = (Ok rep, after_query w (db w))
    /\ fraud_report_sound rep
    /\ (db_fault w (db_calls w) = true \/ batches (db w) !! b = None ->
        rep = {| isSuspicious := true; reasons := ["Batch not found"];
                 riskScore := 100 |}).
Proof.
  destruct (decide (db_fault w (db_calls w) = true
                    \/ batches (db w) !! b = None)) as [Hmiss|Hfound].
  - eexists. split; [apply detectSuspiciousPatterns_not_found; tauto|].
    split; [|reflexivity].
    unfold fraud_report_sound. cbn. repeat split; try lia; try discriminate.
    intros _. right. reflexivity.
  - unfold detectSuspiciousPatterns, try_catch, mbind, M_bind.
    rewrite getBatchTransactionSummary_run.
    destruct (db_fault w (db_calls w)); [exfalso; tauto|].
    unfold summary_of.
    destruct (batches (db w) !! b) as [row|]; [|exfalso; tauto].
    cbn [summary_transactions transactionCount totalOriginalWeight].
    set (txs := merge_sort Sql.created_desc (Sql.joined_transactions (db w) b)).
    set (n := Sql.count_ids (Sql.joined_transactions (db w) b)).
    set (total := Sql.sum_weights (Sql.joined_transactions (db w) b)).
    clearbody txs n total.
    repeat match goal with
           | |- context [if ?c then _ else _] => destruct c
           end;
      unfold mret, M_ret; (eexists; split; [reflexivity|]);
      (split; [|intros; exfalso; tauto]);
      unfold fraud_report_sound;
      cbn [riskScore reasons isSuspicious app length Z.add];
      repeat split; try lia; try discriminate; try reflexivity;
      try (intros _; left; lia).
Qed.

Lemma detectSuspiciousPatterns_invariants_witness :
  exists rep,
    detectSuspiciousPatterns 8 Sample.one_kilo
    = (Ok rep, after_query Sample.one_kilo (db Sample.one_kilo))
    /\ fraud_report_sound rep
    /\ riskScore rep = 100.
Proof.
  destruct (detectSuspiciousPatterns_invariants 8 Sample.one_kilo)
    as (rep & Hrun & Hsound & Hmiss).
  exists rep. split; [exact Hrun|]. split; [exact Hsound|].
  rewrite Hmiss; [reflexivity|]. right. reflexivity.
Defined.

(** X10.  An existing batch without any linked transaction is reported with
    score 30 and the small-transactions reason alone (the all-null row
    of the outer join counts as one transaction under 100 g, against a
    count of 0), and is not suspicious. *)
Theorem detectSuspiciousPatterns_no_transactions b w :
  db_fault w (db_calls w) = false ->
  is_Some (batches (db w) !! b) ->
  no_links (db w) b ->
  detectSuspiciousPatterns b w =
  (Ok {| isSuspicious := false;
         reasons := ["High concentration of small transactions (< 100g)"];
         riskScore := 30 |},
   after_query w (db w)).
Proof.
  intros Hf [row Hrow] Hno.
  unfold detectSuspiciousPatterns, try_catch, mbind, M_bind.
  rewrite getBatchTransactionSummary_run, Hf.
  unfold summary_of. rewrite Hrow, (no_links_joined _ _ Hno).
  reflexivity.
Qed.

Lemma detectSuspiciousPatterns_no_transactions_witness :
  detectSuspiciousPatterns 7 Sample.empty_batch =
  (Ok {| isSuspicious := false;
         reasons := ["High concentration of small transactions (< 100g)"];
         riskScore := 30 |},
   after_query Sample.empty_batch (db Sample.empty_batch)).
Proof.
  apply detectSuspiciousPatterns_no_transactions.
  - reflexivity.
  - eexists. reflexivity.
  - intros tb Hin. inversion Hin.
Defined.

(** X11.  verifyBatchWeight always returns a result, and never the
    system-error one: its catch branch cannot be reached, because the
    summary lookup and the audit insert each swallow their own storage
    errors.  A failed summary query is reported as a batch without
    transactions (REJECTED, 100%), and that message is given exactly in
    the degenerate cases: query failed, batch missing, or no member
    transaction. *)
Theorem verifyBatchWeight_hides_storage_failure b v r w :
  exists res w',
    verifyBatchWeight b v r w = (Ok res, w')
    /\ wc_message res <> MsgSystemError
    /\ (db_fault w (db_calls w) = true ->
        res = no_transactions_result v)
    /\ (wc_message res = MsgNoTransactions <-> degenerate w b).
Proof.
  destruct (degenerate_dec w b) as [Hd|Hd].
  - exists (no_transactions_result v). eexists.
    split; [apply verifyBatchWeight_degenerate; exact Hd|].
    split; [discriminate|]. split; [reflexivity|]. split; auto.
  - destruct (verifyBatchWeight_normal b v r w Hd)
      as (res & Hrun & _ & _ & _ & _ & _ & Hmsg).
    exists res. eexists. split; [exact Hrun|].
    assert (Hne : wc_message res <> MsgSystemError
                  /\ wc_message res <> MsgNoTransactions).
    { rewrite Hmsg. destruct (JS.le _ _); [split; discriminate|].
      destruct (JS.gt _ _); split; discriminate. }
    split; [tauto|]. split.
    + intros Hf. exfalso. apply Hd. left. exact Hf.
    + split; [intros H; exfalso; tauto | intros H; exfalso; tauto].
Qed.

Lemma verifyBatchWeight_hides_storage_failure_witness :
  exists res w',
    verifyBatchWeight 7 1000%Q 2
      (Sample.world (db Sample.one_kilo) (fun _ => true) Sample.no_chain)
    = (Ok res, w')
    /\ res = no_transactions_result 1000%Q.
Proof.
  destruct (verifyBatchWeight_hides_storage_failure 7 1000%Q 2
              (Sample.world (db Sample.one_kilo) (fun _ => true)
                 Sample.no_chain))
    as (res & w' & Hrun & _ & Hfail & _).
  exists res, w'. split; [exact Hrun|]. apply Hfail. reflexivity.
Defined.



End SummaryAndFraud.

(** ** One chain attempt and the wallet lookup *)

Section ChainAttempts.

Import BlockchainService.



(** X14.  getUserAddresses never throws and makes one storage call.  When it
    reports success, both addresses are non-empty wallet addresses of
    users that the lookup names (by the collector id or the recycler
    id), one with role collector and one with role recycler; when it
    reports failure, both addresses are absent and an error text is
    given.  Without a recycler id, or with the collector's own id as
    recycler id, it always fails: with the database error text if the
    query failed, with the missing-wallet text otherwise. *)
Theorem getUserAddresses_sound c r w :
  exists a,
    getUserAddresses c r w = (Ok a, after_query w (db w))
    /\ (ua_success a = true ->
        exists uc ur ca ra,
          ua_collectorAddress a = Some ca
          /\ ua_recyclerAddress a = Some ra
          /\ ca <> "" /\ ra <> ""
          /\ named (db w) c r uc /\ named (db w) c r ur
          /\ User.role uc = collector /\ User.role ur = recycler
          /\ User.wallet_address uc = Some ca
          /\ User.wallet_address ur = Some ra)
    /\ (ua_success a = false ->
        ua_collectorAddress a = None /\ ua_recyclerAddress a = None
        /\ is_Some (ua_error a))
    /\ (r = None \/ r = Some c ->
        ua_success a = false
        /\ ua_error a
           = Some (if db_fault w (db_calls w)
                   then "Database error while fetching wallet addresses"
                   else "Missing wallet addresses for collector or recycler")).
Proof.
  unfold getUserAddresses, try_catch, mbind at 1, M_bind at 1, db_query,
    reading.
  destruct (db_fault w (db_calls w)).
  { eexists. split; [reflexivity|]. cbn. repeat split; eauto; discriminate. }
  unfold BlockchainSql.select_wallets, named.
  destruct r as [i|].
  2:{ cbn [omap list_omap].
      destruct (users (db w) !! c) as [uc|]; cbn [List.filter];
        [destruct (bool_decide (is_Some (User.wallet_address uc)))|];
        cbn [length Nat.ltb Nat.leb]; eexists; (split; [reflexivity|]);
        cbn; repeat split; eauto; discriminate. }
  destruct (decide (i = c)) as [->|Hne].
  { rewrite bool_decide_eq_true_2 by reflexivity. cbn [omap list_omap].
    destruct (users (db w) !! c) as [uc|]; cbn [List.filter];
      [destruct (bool_decide (is_Some (User.wallet_address uc)))|];
      cbn [length Nat.ltb Nat.leb]; eexists; (split; [reflexivity|]);
      cbn; repeat split; eauto; discriminate. }
  rewrite bool_decide_eq_false_2 by exact Hne. cbn [omap list_omap].
  assert (Hbad : forall x, Some x = None \/ Some x = Some c -> x = c)
    by (intros x [H|H]; congruence).
  destruct (users (db w) !! c) as [[idc [wc|] rolec]|] eqn:Hc;
    destruct (users (db w) !! i) as [[idi [wi|] rolei]|] eqn:Hi;
    cbn [omap list_omap option_bind mbind List.filter User.wallet_address
           bool_decide decide_rel is_Some_dec length Nat.ltb Nat.leb];
    try (eexists; (split; [reflexivity|]); cbn;
         repeat split; eauto; try discriminate;
         intros H; apply Hbad in H; congruence).
  destruct rolec, rolei;
    cbn [List.find User.role];
    repeat first [rewrite bool_decide_eq_true_2 by reflexivity
                 |rewrite bool_decide_eq_false_2 by discriminate];
    cbn [mbind option_bind User.wallet_address JS.string_or_null];
    try (eexists; (split; [reflexivity|]); cbn;
         repeat split; eauto; try discriminate;
         intros H; apply Hbad in H; congruence);
    destruct (String.eqb_spec wc "") as [Hwc|Hwc];
    destruct (String.eqb_spec wi "") as [Hwi|Hwi];
    eexists; (split; [reflexivity|]);
    cbn [ua_success ua_collectorAddress ua_recyclerAddress ua_error];
    (split; [try discriminate|
             split; [try discriminate; repeat split; eauto|
                     intros H; apply Hbad in H; congruence]]);
    intros _;
    [ exists {| User.id := idc; User.wallet_address := Some wc;
                User.role := collector |},
             {| User.id := idi; User.wallet_address := Some wi;
                User.role := recycler |}, wc, wi
    | exists {| User.id := idi; User.wallet_address := Some wi;
                User.role := collector |},
             {| User.id := idc; User.wallet_address := Some wc;
                User.role := recycler |}, wi, wc ];
    repeat split; eauto.
Qed.

End ChainAttempts.

(** ** Whole runs of the mint orchestrator *)

Section MintRuns.

Import BlockchainService.

Lemma same_but_mint_refl b d : same_but_mint b d d.
Proof. unfold same_but_mint. repeat split. Qed.

Lemma same_but_mint_trans b d1 d2 d3 :
  same_but_mint b d1 d2 -> same_but_mint b d2 d3 -> same_but_mint b d1 d3.
Proof.
  intros (A1 & A2 & A3 & A4 & A5 & A6) (B1 & B2 & B3 & B4 & B5 & B6).
  unfold same_but_mint. repeat split; try congruence.
  intros b' Hne. rewrite B5, A5 by exact Hne. reflexivity.
Qed.

Lemma update_batch_mint_status_frame b st tx bn rc la err ts d :
  same_but_mint b d
    (BlockchainSql.update_batch_mint_status b st tx bn rc la err ts d).
Proof.
  unfold same_but_mint, BlockchainSql.update_batch_mint_status.
  destruct (batches d !! b) as [old|] eqn:Hb.
  - cbn [set_batches users transactions transaction_batch audit_log batches].
    split; [reflexivity|]. split; [reflexivity|]. split; [reflexivity|].
    split; [reflexivity|]. split.
    + intros b' Hne. apply lookup_insert_ne. congruence.
    + rewrite lookup_insert_eq. reflexivity.
  - repeat split. rewrite Hb. reflexivity.
Qed.

Lemma waits_app t1 t2 : waits (t1 ++ t2) = waits t1 ++ waits t2.
Proof. unfold waits. apply omap_app. Qed.

Lemma submissions_app t1 t2 :
  submissions (t1 ++ t2) = submissions t1 ++ submissions t2.
Proof. unfold submissions. apply omap_app. Qed.

Lemma attempts_submissions t : attempts t = length (submissions t).
Proof.
  unfold attempts, submissions.
  induction t as [|[rq|ms] t IH]; cbn; [reflexivity| |exact IH].
  f_equal. exact IH.
Qed.

Section LoopFacts.

Variable config : BlockchainConfig.
Variable b : Z.
Variable request : MintRequest.

Lemma attempted_facts w :
  let w1 := attempted request w in
  db w1 = db w /\ db_calls w1 = db_calls w /\ db_fault w1 = db_fault w
  /\ chain w1 = chain w /\ chain_calls w1 = S (chain_calls w)
  /\ clock w1 = clock w /\ random w1 = random w
  /\ trace w1 = trace w ++ [EvMintAttempt request].
Proof. cbv zeta. unfold attempted, chain_attempt. cbn. repeat split. Qed.

Lemma after_retrying_facts rc err w1 :
  let w2 := after_retrying config b rc err w1 in
  let wait := (S rc <? maxRetries config)%nat in
  same_but_mint b (db w1) (db w2)
  /\ db_calls w2 = S (db_calls w1)
  /\ db_fault w2 = db_fault w1
  /\ chain w2 = chain w1
  /\ chain_calls w2 = chain_calls w1
  /\ trace w2 =
     trace w1
     ++ (if wait then [EvSleep (retryDelay config * 2 ^ Z.of_nat rc)] else [])
  /\ clock w2 =
     clock w1 + (if wait then retryDelay config * 2 ^ Z.of_nat rc else 0)
  /\ (forall old, batches (db w1) !! b = Some old ->
        exists new,
          batches (db w2) !! b = Some new
          /\ mint_columns new =
             (Some RETRYING, None, None, Z.of_nat (S rc), Some (clock w1),
              JS.string_or_null (Some (exn_message err)))).
Proof.
  cbv zeta. unfold after_retrying.
  replace (Z.of_nat (S rc) - 1) with (Z.of_nat rc) by lia.
  destruct (S rc <? maxRetries config)%nat;
    cbn [sleep snd after_query db db_calls db_fault chain chain_calls trace
           clock];
    (split; [apply update_batch_mint_status_frame|]);
    rewrite ?app_nil_r, ?Z.add_0_r;
    repeat split;
    intros old Hold;
    destruct (update_batch_mint_status_row b (Some RETRYING) None None
                (Z.of_nat (S rc)) (Some (clock w1))
                (JS.string_or_null (Some (exn_message err))) (clock w1)
                (db w1) old Hold) as (new & Hnew & Hcols & _);
    exists new; split; assumption.
Qed.

Lemma retry_loop_exit fuel rc last w :
  (maxRetries config <= rc)%nat ->
  retry_loop config (S fuel) b request rc last w
  = (Ok (Some (Left rc last)), w).
Proof.
  intros H. cbn [retry_loop]. apply Nat.ltb_ge in H. rewrite H. reflexivity.
Qed.

(** Whatever the chain and the storage do, the loop changes nothing but
    the mint columns of its batch. *)
Lemma retry_loop_frame fuel : forall rc last w,
  let w' := (retry_loop config fuel b request rc last w).2 in
  same_but_mint b (db w) (db w')
  /\ db_fault w' = db_fault w /\ chain w' = chain w.
Proof.
  induction fuel as [|fuel IH]; intros rc last w; cbv zeta.
  { cbn. split; [apply same_but_mint_refl|]. split; reflexivity. }
  destruct (Nat.ltb_spec rc (maxRetries config)) as [Hrc|Hrc];
    [|rewrite retry_loop_exit by exact Hrc; cbn;
      split; [apply same_but_mint_refl|]; split; reflexivity].
  rewrite (retry_loop_unfold config b request fuel rc last w Hrc). cbv zeta.
  destruct (attempted_facts w) as (Hdb & _ & Hdf & Hch & _).
  assert (Hretry : forall err w1,
            db w1 = db w -> db_fault w1 = db_fault w -> chain w1 = chain w ->
            let w' := (if db_fault w1 (db_calls w1)
                       then (Throw DbError, after_query w1 (db w1))
                       else retry_loop config fuel b request (S rc) (Some err)
                              (after_retrying config b rc err w1)).2 in
            same_but_mint b (db w) (db w')
            /\ db_fault w' = db_fault w /\ chain w' = chain w).
  { intros err w1 H1 H2 H3. cbv zeta.
    destruct (db_fault w1 (db_calls w1)).
    - cbn. rewrite H1. split; [apply same_but_mint_refl|]. split; assumption.
    - destruct (after_retrying_facts rc err w1)
        as (Hs & _ & Hf2 & Hc2 & _).
      destruct (IH (S rc) (Some err) (after_retrying config b rc err w1))
        as (Hs' & Hf' & Hc').
      rewrite H1 in Hs.
      split; [eapply same_but_mint_trans; eassumption|].
      split; congruence. }
  destruct (attempt_result (chain w (chain_calls w))) as [result|err].
  - destruct (db_fault (attempted request w) (db_calls (attempted request w))).
    + apply Hretry; cbn [after_query db db_fault chain]; assumption.
    + cbn [snd after_query db db_fault chain]. rewrite Hdb.
      split; [apply update_batch_mint_status_frame|]. split; assumption.
  - destruct (non_retryable err).
    + cbn [snd]. rewrite Hdb. split; [apply same_but_mint_refl|].
      split; assumption.
    + apply Hretry; assumption.
Qed.




Lemma same_but_mint_row d d' :
  same_but_mint b d d' ->
  is_Some (batches d !! b) -> is_Some (batches d' !! b).
Proof.
  intros (_ & _ & _ & _ & _ & H) [old Hold]. rewrite Hold in H.
  destruct (batches d' !! b); [eauto|discriminate H].
Qed.

(** A retryable failure followed by a RETRYING write that goes through. *)
Lemma retry_loop_retryable_step fuel rc last w e :
  (rc < maxRetries config)%nat ->
  attempt_fails (chain w (chain_calls w)) e ->
  be_retryable e = true ->
  db_fault w (db_calls w) = false ->
  retry_loop config (S fuel) b request rc last w =
  retry_loop config fuel b request (S rc) (Some (Blockchain e))
    (after_retrying config b rc (Blockchain e) (attempted request w)).
Proof.
  intros Hrc Hfail Hr Hf.
  rewrite (retry_loop_unfold config b request fuel rc last w Hrc). cbv zeta.
  unfold attempt_fails in Hfail. rewrite Hfail.
  cbn [non_retryable]. rewrite Hr. cbn [negb].
  destruct (attempted_facts w) as (_ & -> & -> & _).
  rewrite Hf. reflexivity.
Qed.

Lemma backoff_snoc from n :
  backoff config from (S n)
  = backoff config from n ++ [retryDelay config * 2 ^ Z.of_nat (from + n)].
Proof.
  unfold backoff. rewrite seq_S, fmap_app. reflexivity.
Qed.

(** [k] retryable failures in a row, with a storage that works. *)
Lemma retry_loop_retries k : forall fuel rc last w,
  (rc + k <= maxRetries config)%nat ->
  (forall n, db_fault w n = false) ->
  (forall i, (i < k)%nat ->
     exists e, attempt_fails (chain w (chain_calls w + i)%nat) e
               /\ be_retryable e = true) ->
  exists wk,
    retry_loop config (k + fuel) b request rc last w =
    retry_loop config fuel b request (rc + k) (remembered w k last) wk
    /\ db_fault wk = db_fault w
    /\ chain wk = chain w
    /\ chain_calls wk = (chain_calls w + k)%nat
    /\ db_calls wk = (db_calls w + k)%nat
    /\ submissions (trace wk) = submissions (trace w) ++ replicate k request
    /\ waits (trace wk) =
       waits (trace w)
       ++ backoff config rc (Nat.min k (maxRetries config - 1 - rc))
    /\ same_but_mint b (db w) (db wk)
    /\ random wk = random w.
Proof.
  induction k as [|k IH]; intros fuel rc last w Hrc Hf Hfail.
  - exists w. rewrite !Nat.add_0_r. cbn [Nat.add remembered Nat.min replicate].
    unfold backoff. cbn [seq fmap list_fmap]. rewrite !app_nil_r.
    repeat split.
  - destruct (IH (S fuel) rc last w ltac:(lia) Hf
                ltac:(intros i Hi; apply Hfail; lia))
      as (wk & Hrun & Hdf & Hch & Hcc & Hdc & Hsub & Hwt & Hsame & Hrnd).
    destruct (Hfail k ltac:(lia)) as (e & He & Hr).
    replace (S k + fuel)%nat with (k + S fuel)%nat by lia.
    rewrite Hrun.
    rewrite (retry_loop_retryable_step fuel (rc + k) _ wk e);
      [|lia|rewrite Hch, Hcc; exact He|exact Hr|rewrite Hdf; apply Hf].
    destruct (after_retrying_facts (rc + k) (Blockchain e)
                (attempted request wk))
      as (Hs2 & Hdc2 & Hdf2 & Hch2 & Hcc2 & Htr2 & _ & _).
    cbv zeta in Htr2.
    destruct (attempted_facts wk)
      as (Hdb1 & Hdc1 & Hdf1 & Hch1 & Hcc1 & _ & Hrnd1 & Htr1).
    eexists. split.
    { replace (rc + S k)%nat with (S (rc + k)) by lia.
      cbn [remembered]. unfold attempt_fails in He. rewrite He. reflexivity. }
    rewrite Hdf2, Hdf1, Hdf, Hch2, Hch1, Hch, Hcc2, Hcc1, Hcc, Hdc2, Hdc1, Hdc.
    rewrite Htr2, Htr1, !submissions_app, !waits_app, Hsub, Hwt.
    split; [reflexivity|]. split; [reflexivity|].
    split; [lia|]. split; [lia|].
    split.
    { assert (submissions
                (if (S (rc + k) <? maxRetries config)%nat
                 then [EvSleep (retryDelay config * 2 ^ Z.of_nat (rc + k))]
                 else []) = []) as ->
        by (destruct (S (rc + k) <? maxRetries config)%nat; reflexivity).
      change (submissions [EvMintAttempt request])
        with (replicate 1 request).
      rewrite app_nil_r, <- app_assoc, <- replicate_add, Nat.add_1_r.
      reflexivity. }
    split.
    { change (waits [EvMintAttempt request]) with (@nil Z).
      rewrite app_nil_r.
      destruct (Nat.ltb_spec (S (rc + k)) (maxRetries config)) as [H|H].
      - replace (Nat.min (S k) (maxRetries config - 1 - rc)) with (S k) by lia.
        replace (Nat.min k (maxRetries config - 1 - rc)) with k by lia.
        rewrite backoff_snoc, <- app_assoc. reflexivity.
      - replace (Nat.min (S k) (maxRetries config - 1 - rc))
          with (Nat.min k (maxRetries config - 1 - rc)) by lia.
        cbn. rewrite app_nil_r. reflexivity. }
    split.
    { eapply same_but_mint_trans; [exact Hsame|]. rewrite <- Hdb1.
      exact Hs2. }
    unfold after_retrying.
    destruct (S (rc + k) <? maxRetries config)%nat; cbn; congruence.
Qed.

Lemma in_flight_after_retrying rc err w1 :
  is_Some (batches (db w1) !! b) ->
  in_flight b (db (after_retrying config b rc err w1)).
Proof.
  intros [old Hold].
  destruct (after_retrying_facts rc err w1) as (_ & _ & _ & _ & _ & _ & _ & H).
  destruct (H old Hold) as (new & Hnew & Hcols).
  exists new. split; [exact Hnew|]. right.
  unfold mint_columns in Hcols. congruence.
Qed.

(** How the loop can end, and what the row of the batch then holds. *)
Lemma retry_loop_status fuel : forall rc last w res w',
  retry_loop config fuel b request rc last w = (res, w') ->
  in_flight b (db w) ->
  match res with
  | Ok (Some (Returned r)) =>
      success r = true
      /\ error r = None
      /\ (exists k, retryCount r = Some k /\ (rc <= k < maxRetries config)%nat
            /\ exists row,
                 batches (db w') !! b = Some row
                 /\ mint_columns row =
                    (Some MINTED, JS.string_or_null (transactionHash r),
                     JS.int_or_null (blockNumber r), Z.of_nat k, None, None))
  | Ok (Some (Left n _)) =>
      in_flight b (db w') /\ (rc <= n <= Nat.max rc (maxRetries config))%nat
  | Ok None => True
  | Throw e => e = DbError /\ in_flight b (db w')
  end.
Proof.
  induction fuel as [|fuel IH]; intros rc last w res w' Hrun Hfl.
  { cbn in Hrun. injection Hrun as <- <-. exact I. }
  destruct (Nat.ltb_spec rc (maxRetries config)) as [Hrc|Hrc];
    [|rewrite retry_loop_exit in Hrun by exact Hrc;
      injection Hrun as <- <-; split; [exact Hfl|lia]].
  rewrite (retry_loop_unfold config b request fuel rc last w Hrc) in Hrun.
  cbv zeta in Hrun.
  destruct (attempted_facts w) as (Hdb & _).
  set (w1 := attempted request w) in *.
  assert (Hrow : is_Some (batches (db w) !! b))
    by (destruct Hfl as (row & Hrow & _); eauto).
  assert (Hretry : forall err w0,
            db w0 = db w ->
            (if db_fault w0 (db_calls w0)
             then (Throw DbError, after_query w0 (db w0))
             else retry_loop config fuel b request (S rc) (Some err)
                    (after_retrying config b rc err w0)) = (res, w') ->
            match res with
            | Ok (Some (Returned r)) =>
                success r = true
                /\ error r = None
                /\ (exists k, retryCount r = Some k
                      /\ (rc <= k < maxRetries config)%nat
                      /\ exists row,
                           batches (db w') !! b = Some row
                           /\ mint_columns row =
                              (Some MINTED,
                               JS.string_or_null (transactionHash r),
                               JS.int_or_null (blockNumber r), Z.of_nat k,
                               None, None))
            | Ok (Some (Left n _)) =>
                in_flight b (db w')
                /\ (rc <= n <= Nat.max rc (maxRetries config))%nat
            | Ok None => True
            | Throw e => e = DbError /\ in_flight b (db w')
            end).
  { intros err w0 H0 Hrun0.
    destruct (db_fault w0 (db_calls w0)).
    - injection Hrun0 as <- <-. split; [reflexivity|].
      cbn [after_query db]. rewrite H0. exact Hfl.
    - apply IH in Hrun0;
        [|apply in_flight_after_retrying; rewrite H0; exact Hrow].
      destruct res as [[[r|n l]|]|e]; [| |exact I|exact Hrun0].
      + destruct Hrun0 as (H1 & H2 & k & H3 & H4 & H5).
        split; [exact H1|]. split; [exact H2|]. exists k.
        split; [exact H3|]. split; [lia|exact H5].
      + destruct Hrun0 as (H1 & H2). split; [exact H1|lia]. }
  destruct (attempt_result (chain w (chain_calls w))) as [result|err].
  - destruct (db_fault w1 (db_calls w1)).
    + apply (Hretry DbError (after_query w1 (db w1))); [exact Hdb|exact Hrun].
    + injection Hrun as <- <-.
      cbn [success error retryCount transactionHash blockNumber].
      split; [reflexivity|]. split; [reflexivity|].
      exists rc. split; [reflexivity|]. split; [lia|].
      destruct Hrow as [old Hold]. rewrite <- Hdb in Hold.
      cbn [after_query db].
      match goal with
      | |- context [BlockchainSql.update_batch_mint_status b ?st ?tx ?bn ?n
                      ?la ?er ?ts ?d] =>
          destruct (update_batch_mint_status_row b st tx bn n la er ts d
                      old Hold) as (new & Hnew & Hmint & _)
      end.
      exists new. split; [exact Hnew|exact Hmint].
  - destruct (non_retryable err).
    + injection Hrun as <- <-. rewrite Hdb. split; [exact Hfl|lia].
    + apply (Hretry err w1); [exact Hdb|exact Hrun].
Qed.

End LoopFacts.

Section TriggerMintFacts.

Variable config : BlockchainConfig.

Lemma triggerMint_frame_run b w :
  let w' := (triggerMint config b w).2 in
  same_but_mint b (db w) (db w')
  /\ db_fault w' = db_fault w
  /\ chain w' = chain w.
Proof.
  cbv zeta.
  set (P := fun w' => same_but_mint b (db w) (db w')
                      /\ db_fault w' = db_fault w /\ chain w' = chain w).
  change (P (triggerMint config b w).2).
  assert (Hq : forall w0, db w0 = db w -> db_fault w0 = db_fault w ->
                          chain w0 = chain w -> P w0).
  { intros w0 H1 H2 H3. unfold P. rewrite H1.
    split; [apply same_but_mint_refl|]. split; assumption. }
  unfold triggerMint, mbind at 1, M_bind at 1.
  rewrite getBatchForMinting_run.
  destruct (if db_fault w (db_calls w) then None else _) as [row|];
    [|apply Hq; reflexivity].
  unfold mbind at 1, M_bind at 1.
  destruct (getUserAddresses_frame (Batch.collector_id row)
              (Batch.recycler_id row) (after_query w (db w))) as (a & ->).
  destruct (ua_success a); cbn [negb]; [|apply Hq; reflexivity].
  unfold mbind at 1, M_bind at 1, now.
  unfold mbind at 1, M_bind at 1. rewrite updateBatchMintStatus_run.
  cbn [after_query db_fault db_calls db clock].
  destruct (db_fault w (S (S (db_calls w)))); [apply Hq; reflexivity|].
  unfold mbind at 1, M_bind at 1.
  match goal with
  | |- context [retry_loop config ?f b ?rq ?rc ?la ?w0] =>
      pose proof (retry_loop_frame config b rq f rc la w0) as Hloop;
      destruct (retry_loop config f b rq rc la w0)
        as [[[[res|n last]|]|e] w4]
  end;
    cbv zeta in Hloop; cbn [snd after_query db db_fault chain] in Hloop;
    destruct Hloop as (Hs & Hf & Hc);
    assert (Hs0 : same_but_mint b (db w) (db w4))
      by (eapply same_but_mint_trans;
          [apply update_batch_mint_status_frame|exact Hs]).
  - unfold P. cbn. auto.
  - unfold mbind, M_bind, now. rewrite updateBatchMintStatus_run.
    unfold P.
    destruct (db_fault w4 (db_calls w4));
      cbn [snd after_query db db_fault chain]; [auto|].
    split; [|auto].
    eapply same_but_mint_trans;
      [exact Hs0|apply update_batch_mint_status_frame].
  - unfold P. cbn. auto.
  - unfold P. cbn. auto.
Qed.

Lemma last_message_not_empty last :
  JS.string_or_null (Some (last_message last)) = Some (last_message last).
Proof.
  unfold last_message, JS.string_or_null.
  destruct last as [e|]; [|reflexivity]. cbn [fmap option_fmap option_map].
  destruct (String.eqb (exn_message e) "") eqn:E; cbn [default from_option id];
    [reflexivity|]. rewrite E. reflexivity.
Qed.

(** [triggerMint] up to its loop, for an eligible batch whose wallets are
    on file, when the first three storage calls go through; and what it
    does with each way the loop can end. *)
Lemma triggerMint_run b w row ca ra :
  db_fault w (db_calls w) = false ->
  db_fault w (S (db_calls w)) = false ->
  db_fault w (S (S (db_calls w))) = false ->
  eligible (db w) b row ->
  wallets_on_file (db w) row ca ra ->
  triggerMint config b w =
  match retry_loop config (S (maxRetries config)) b
          (mint_request b row ca ra) 0%nat None (loop_entry b w) with
  | (Ok None, w4) => (Ok None, w4)
  | (Ok (Some (Returned result)), w4) => (Ok (Some result), w4)
  | (Ok (Some (Left n last)), w4) =>
      if db_fault w4 (db_calls w4)
      then (Throw DbError, after_query w4 (db w4))
      else (Ok (Some (gave_up n last)), given_up b n last w4)
  | (Throw e, w4) => (Throw e, w4)
  end.
Proof.
  intros Hf0 Hf1 Hf2 Hel Hwal.
  assert (Hcol : is_Some (users (db w) !! Batch.collector_id row)).
  { destruct Hwal as (rid & uc & ur & _ & _ & Huc & _). eauto. }
  unfold triggerMint, mbind at 1, M_bind at 1.
  rewrite getBatchForMinting_run, Hf0, (eligible_selected _ _ _ Hel Hcol).
  cbn [head]. unfold mbind at 1, M_bind at 1.
  rewrite (getUserAddresses_run (db w) row ca ra);
    [|reflexivity|exact Hf1|exact Hwal].
  cbn [ua_success negb ua_collectorAddress ua_recyclerAddress default
         from_option id].
  unfold mbind at 1, M_bind at 1, now.
  unfold mbind at 1, M_bind at 1. rewrite updateBatchMintStatus_run.
  cbn [after_query db_fault db_calls db clock]. rewrite Hf2.
  unfold mbind at 1, M_bind at 1.
  match goal with
  | |- context [retry_loop config _ b ?rq 0%nat None ?w0] =>
      change w0 with (loop_entry b w);
      change rq with (mint_request b row ca ra)
  end.
  destruct (retry_loop config (S (maxRetries config)) b
              (mint_request b row ca ra) 0%nat None (loop_entry b w))
    as [[[[res|n last]|]|e] w4]; try reflexivity.
  unfold mbind, M_bind, now. rewrite updateBatchMintStatus_run.
  cbn [ms_mintStatus ms_txHash ms_blockNumber ms_retryCount ms_lastAttempt
         ms_error JS.int_or_zero JS.int_or_null].
  fold (last_message last). rewrite last_message_not_empty.
  destruct (db_fault w4 (db_calls w4)); reflexivity.
Qed.

Lemma loop_entry_facts b w :
  same_but_mint b (db w) (db (loop_entry b w))
  /\ db_calls (loop_entry b w) = S (S (S (db_calls w)))
  /\ db_fault (loop_entry b w) = db_fault w
  /\ chain (loop_entry b w) = chain w
  /\ chain_calls (loop_entry b w) = chain_calls w
  /\ trace (loop_entry b w) = trace w
  /\ clock (loop_entry b w) = clock w
  /\ (is_Some (batches (db w) !! b) -> in_flight b (db (loop_entry b w))).
Proof.
  unfold loop_entry. cbn [after_query db db_calls db_fault chain chain_calls
                            trace clock].
  split; [apply update_batch_mint_status_frame|]. repeat split.
  intros [old Hold].
  destruct (update_batch_mint_status_row b (Some PENDING_MINT) None None 0
              (Some (clock w)) None (clock w) (db w) old Hold)
    as (new & Hnew & Hcols & _).
  exists new. split; [exact Hnew|]. left.
  unfold mint_columns in Hcols. congruence.
Qed.


Lemma given_up_row b n last w4 old :
  batches (db w4) !! b = Some old ->
  exists final,
    batches (db (given_up b n last w4)) !! b = Some final
    /\ mint_columns final =
       (Some FAILED_ON_CHAIN, None, None, Z.of_nat n, Some (clock w4),
        Some (last_message last)).
Proof.
  intros Hold. unfold given_up. cbn [after_query db].
  destruct (update_batch_mint_status_row b (Some FAILED_ON_CHAIN) None None
              (Z.of_nat n) (Some (clock w4)) (Some (last_message last))
              (clock w4) (db w4) old Hold) as (new & Hnew & Hcols & _).
  exists new. split; assumption.
Qed.

Lemma last_message_of e :
  be_message e <> "" -> last_message (Some (Blockchain e)) = be_message e.
Proof.
  intros H. unfold last_message. cbn. apply String.eqb_neq in H.
  rewrite H. reflexivity.
Qed.

Lemma triggerMint_exhausts_run b w row ca ra :
  (forall n, db_fault w n = false) ->
  eligible (db w) b row ->
  wallets_on_file (db w) row ca ra ->
  (0 < maxRetries config)%nat ->
  (forall i, (i < maxRetries config)%nat ->
     exists e, attempt_fails (chain w (chain_calls w + i)%nat) e
               /\ be_retryable e = true) ->
  exists r w' final,
    triggerMint config b w = (Ok (Some r), w')
    /\ success r = false
    /\ retryCount r = Some (maxRetries config)
    /\ submissions (trace w') =
       submissions (trace w)
       ++ replicate (maxRetries config) (mint_request b row ca ra)
    /\ waits (trace w') =
       waits (trace w) ++ backoff config 0 (maxRetries config - 1)
    /\ db_calls w' = (db_calls w + 4 + maxRetries config)%nat
    /\ batches (db w') !! b = Some final
    /\ Batch.mint_status final = Some FAILED_ON_CHAIN
    /\ Batch.retry_count final = Z.of_nat (maxRetries config)
    /\ (forall e,
          attempt_fails
            (chain w (chain_calls w + (maxRetries config - 1))%nat) e ->
          Batch.mint_error final = Some (be_message e)).
Proof.
  intros Hf Hel Hwal Hm Hfail.
  rewrite (triggerMint_run b w row ca ra (Hf _) (Hf _) (Hf _) Hel Hwal).
  destruct (loop_entry_facts b w)
    as (Hs0 & Hdc0 & Hdf0 & Hch0 & Hcc0 & Htr0 & _ & _).
  destruct (retry_loop_retries config b (mint_request b row ca ra)
              (maxRetries config) 1 0 None (loop_entry b w))
    as (wk & Hrun & Hdf & Hch & Hcc & Hdc & Hsub & Hwt & Hsame & _).
  { lia. }
  { intros n. rewrite Hdf0. apply Hf. }
  { intros i Hi. rewrite Hch0, Hcc0. apply Hfail. exact Hi. }
  replace (S (maxRetries config)) with (maxRetries config + 1)%nat by lia.
  rewrite Hrun, retry_loop_exit by lia.
  rewrite Hdf, Hdf0, Hf.
  assert (Hrow : is_Some (batches (db wk) !! b)).
  { apply (same_but_mint_row b (db (loop_entry b w))); [exact Hsame|].
    apply (same_but_mint_row b (db w)); [exact Hs0|].
    destruct Hel as (Hb & _). eauto. }
  destruct Hrow as [old Hold].
  destruct (given_up_row b (0 + maxRetries config)
              (remembered (loop_entry b w) (maxRetries config) None) wk old
              Hold) as (final & Hfinal & Hcols).
  eexists. eexists. exists final. split; [reflexivity|].
  unfold mint_columns in Hcols. injection Hcols as H1 _ _ H4 _ H6.
  cbn [gave_up success retryCount given_up after_query trace db_calls].
  rewrite Hsub, Hwt, Htr0, Hdc, Hdc0, Nat.sub_0_r.
  replace (Nat.min (maxRetries config) (maxRetries config - 1))
    with (maxRetries config - 1)%nat by lia.
  repeat split; try assumption; try lia.
  intros e He. rewrite H6. f_equal.
  destruct (maxRetries config) as [|m'] eqn:Em; [lia|].
  cbn [remembered]. rewrite Hch0, Hcc0.
  replace (S m' - 1)%nat with m' in He by lia.
  pose proof (attempt_fails_message _ _ He) as Hmsg.
  unfold attempt_fails in He. rewrite He.
  apply last_message_of. exact Hmsg.
Qed.

Lemma attempt_result_confirmed h bl g :
  attempt_result (Confirmed h bl g)
  = Ok {| success := true; transactionHash := Some h;
          blockNumber := Some bl; gasUsed := Some g; error := None;
          retryCount := None |}.
Proof. reflexivity. Qed.

Lemma triggerMint_mints_run b w row ca ra k h bl g :
  (forall n, db_fault w n = false) ->
  eligible (db w) b row ->
  wallets_on_file (db w) row ca ra ->
  (k < maxRetries config)%nat ->
  (forall i, (i < k)%nat ->
     exists e, attempt_fails (chain w (chain_calls w + i)%nat) e
               /\ be_retryable e = true) ->
  chain w (chain_calls w + k)%nat = Confirmed h bl g ->
  exists w' final,
    triggerMint config b w
    = (Ok (Some {| success := true; transactionHash := Some h;
                   blockNumber := Some bl; gasUsed := Some g;
                   error := None; retryCount := Some k |}), w')
    /\ submissions (trace w') =
       submissions (trace w) ++ replicate (S k) (mint_request b row ca ra)
    /\ waits (trace w') = waits (trace w) ++ backoff config 0 k
    /\ db_calls w' = (db_calls w + 4 + k)%nat
    /\ batches (db w') !! b = Some final
    /\ mint_columns final =
       (Some MINTED, JS.string_or_null (Some h), JS.int_or_null (Some bl),
        Z.of_nat k, None, None)
    /\ other_columns final = other_columns row.
Proof.
  intros Hf Hel Hwal Hk Hfail Hok.
  rewrite (triggerMint_run b w row ca ra (Hf _) (Hf _) (Hf _) Hel Hwal).
  destruct (loop_entry_facts b w)
    as (Hs0 & Hdc0 & Hdf0 & Hch0 & Hcc0 & Htr0 & _ & _).
  destruct (retry_loop_retries config b (mint_request b row ca ra)
              k (S (maxRetries config - k)) 0 None (loop_entry b w))
    as (wk & Hrun & Hdf & Hch & Hcc & Hdc & Hsub & Hwt & Hsame & _).
  { lia. }
  { intros n. rewrite Hdf0. apply Hf. }
  { intros i Hi. rewrite Hch0, Hcc0. apply Hfail. exact Hi. }
  replace (S (maxRetries config))
    with (k + S (maxRetries config - k))%nat by lia.
  rewrite Hrun.
  rewrite (retry_loop_unfold config b (mint_request b row ca ra) _ (0 + k)
             _ wk ltac:(lia)).
  cbv zeta. rewrite Hch, Hcc, Hch0, Hcc0, Hok, attempt_result_confirmed.
  destruct (attempted_facts (mint_request b row ca ra) wk)
    as (Hdb1 & Hdc1 & Hdf1 & _ & _ & Hck1 & _ & Htr1).
  rewrite Hdf1, Hdc1, Hdf, Hdf0, Hf.
  cbn [transactionHash blockNumber gasUsed].
  assert (Hsame1 : same_but_mint b (db w)
                     (db (attempted (mint_request b row ca ra) wk))).
  { rewrite Hdb1. eapply same_but_mint_trans; eassumption. }
  destruct Hel as (Hb & _).
  destruct (same_but_mint_row b _ _ Hsame1 ltac:(eauto)) as [old Hold].
  match goal with
  | |- context [BlockchainSql.update_batch_mint_status b ?st ?tx ?bn ?n
                  ?la ?er ?ts ?d] =>
      destruct (update_batch_mint_status_row b st tx bn n la er ts d
                  old Hold) as (final & Hfinal & Hmint & Hother & _)
  end.
  eexists. exists final. split; [reflexivity|].
  cbn [after_query trace db_calls db].
  rewrite Htr1, submissions_app, waits_app, Hsub, Hwt, Htr0, Hdc1, Hdc, Hdc0.
  replace (Nat.min k (maxRetries config - 1 - 0)) with k by lia.
  split.
  { cbn. rewrite <- app_assoc. f_equal.
    change [mint_request b row ca ra]
      with (replicate 1 (mint_request b row ca ra)).
    rewrite <- replicate_add, Nat.add_1_r. reflexivity. }
  split; [cbn; apply app_nil_r|].
  split; [lia|]. split; [exact Hfinal|]. split; [exact Hmint|].
  rewrite Hother.
  destruct Hsame1 as (_ & _ & _ & _ & _ & Hcols).
  rewrite Hold, Hb in Hcols. cbn [fmap option_fmap option_map] in Hcols.
  congruence.
Qed.

(** X16.  If the chain confirms the first submission but the storage write
    that records MINTED fails (and no other call does), the catch block
    takes it for a failed attempt: triggerMint waits retryDelay and
    submits the same request a second time; when that is confirmed too,
    it returns success with retryCount 1 and the row is MINTED with the
    second hash.  The batch has then been submitted to the chain, and
    confirmed, twice. *)
Theorem triggerMint_resubmits_after_lost_write b w row ca ra
    h1 bl1 g1 h2 bl2 g2 :
  loses_first_minted_write w ->
  eligible (db w) b row ->
  wallets_on_file (db w) row ca ra ->
  (2 <= maxRetries config)%nat ->
  chain w (chain_calls w) = Confirmed h1 bl1 g1 ->
  chain w (S (chain_calls w)) = Confirmed h2 bl2 g2 ->
  exists w' final,
    triggerMint config b w
    = (Ok (Some {| success := true; transactionHash := Some h2;
                   blockNumber := Some bl2; gasUsed := Some g2;
                   error := None; retryCount := Some 1%nat |}), w')
    /\ submissions (trace w') =
       submissions (trace w)
       ++ [mint_request b row ca ra; mint_request b row ca ra]
    /\ waits (trace w') = waits (trace w) ++ [retryDelay config]
    /\ batches (db w') !! b = Some final
    /\ mint_columns final =
       (Some MINTED, JS.string_or_null (Some h2), JS.int_or_null (Some bl2),
        1, None, None).
Proof.
  intros (Hbad & Hgood) Hel Hwal Hm Hc1 Hc2.
  rewrite (triggerMint_run b w row ca ra) by
    (try assumption; apply Hgood; lia).
  destruct (loop_entry_facts b w)
    as (Hs0 & Hdc0 & Hdf0 & Hch0 & Hcc0 & Htr0 & _ & _).
  set (rq := mint_request b row ca ra).
  (* first attempt: confirmed, the write is lost *)
  rewrite (retry_loop_unfold config b rq _ 0 _ _ ltac:(lia)). cbv zeta.
  rewrite Hch0, Hcc0, Hc1, attempt_result_confirmed.
  destruct (attempted_facts rq (loop_entry b w))
    as (Hdb1 & Hdc1 & Hdf1 & Hch1 & Hcc1 & _ & _ & Htr1).
  set (w1 := attempted rq (loop_entry b w)) in *.
  rewrite Hdf1, Hdc1, Hdf0, Hdc0.
  replace (S (S (S (db_calls w)))) with (db_calls w + 3)%nat by lia.
  rewrite Hbad. cbn [after_query db_fault db_calls].
  rewrite Hdf1, Hdc1, Hdf0, Hdc0, Hgood by lia.
  (* second attempt: confirmed, the write goes through *)
  destruct (after_retrying_facts config b 0 DbError (after_query w1 (db w1)))
    as (Hs2 & Hdc2 & Hdf2 & Hch2 & Hcc2 & Htr2 & _ & _).
  cbv zeta in Htr2.
  cbn [after_query db db_calls db_fault chain chain_calls trace]
    in Hs2, Hdc2, Hdf2, Hch2, Hcc2, Htr2.
  set (w2 := after_retrying config b 0 DbError (after_query w1 (db w1))) in *.
  destruct (maxRetries config) as [|[|m']] eqn:Em; [lia|lia|].
  rewrite (retry_loop_unfold config b rq _ 1 _ w2) by (rewrite Em; lia).
  cbv zeta.
  rewrite Hch2, Hch1, Hch0, Hcc2, Hcc1, Hcc0, Hc2, attempt_result_confirmed.
  destruct (attempted_facts rq w2)
    as (Hdb3 & Hdc3 & Hdf3 & _ & _ & _ & _ & Htr3).
  rewrite Hdf3, Hdc3, Hdf2, Hdc2, Hdf1, Hdc1, Hdf0, Hdc0, Hgood by lia.
  cbn [transactionHash blockNumber gasUsed].
  assert (Hsame : same_but_mint b (db w) (db (attempted rq w2))).
  { rewrite Hdb3. eapply same_but_mint_trans; [exact Hs0|].
    rewrite Hdb1 in Hs2. exact Hs2. }
  destruct Hel as (Hb & _).
  destruct (same_but_mint_row b _ _ Hsame ltac:(eauto)) as [old Hold].
  match goal with
  | |- context [BlockchainSql.update_batch_mint_status b ?st ?tx ?bn ?n
                  ?la ?er ?ts ?d] =>
      destruct (update_batch_mint_status_row b st tx bn n la er ts d
                  old Hold) as (final & Hfinal & Hmint & _)
  end.
  eexists. exists final. split; [reflexivity|].
  cbn [after_query trace db].
  rewrite Htr3, Htr2, Htr1, Htr0, ?Em.
  rewrite !submissions_app, !waits_app. cbn.
  rewrite !app_nil_r, <- !app_assoc, Z.mul_1_r.
  repeat split; assumption.
Qed.

(** X17.  Every run of triggerMint ends in one of these states.  Success:
    the row is MINTED with the result's hash and block, the retry count,
    and last_attempt and mint_error null.  Refusal (no retry count in
    the result): tables and trace unchanged.  Failure after retries: the
    row is FAILED_ON_CHAIN with that retry count, hash and block null
    and an error text.  A thrown error: it is the storage's, and either
    nothing was changed or the row is left PENDING_MINT or RETRYING. *)
Theorem triggerMint_settles b w res w' :
  triggerMint config b w = (res, w') -> settled b w res w'.
Proof.
  unfold triggerMint, mbind at 1, M_bind at 1.
  rewrite getBatchForMinting_run. intros Hrun.
  assert (Hrefused : forall (r : MintResult) w0,
            (Ok (Some r), w0) = (res, w') -> success r = false ->
            retryCount r = None -> db w0 = db w -> trace w0 = trace w ->
            settled b w res w').
  { intros r w0 [= <- <-] H1 H2 H3 H4. unfold settled. rewrite H1.
    left. auto. }
  destruct (db_fault w (db_calls w));
    [apply (Hrefused _ _ Hrun); reflexivity|].
  destruct (select_batch_for_minting_cases (db w) b) as [Hsel|[row Hsel]];
    rewrite Hsel in Hrun; cbn [head] in Hrun;
    [apply (Hrefused _ _ Hrun); reflexivity|].
  apply select_batch_for_minting_eligible in Hsel as (Hb & _).
  unfold mbind at 1, M_bind at 1 in Hrun.
  destruct (getUserAddresses_frame (Batch.collector_id row)
              (Batch.recycler_id row) (after_query w (db w))) as (a & Ha).
  rewrite Ha in Hrun.
  destruct (ua_success a); cbn [negb] in Hrun;
    [|apply (Hrefused _ _ Hrun); reflexivity].
  unfold mbind at 1, M_bind at 1, now in Hrun.
  unfold mbind at 1, M_bind at 1 in Hrun.
  rewrite updateBatchMintStatus_run in Hrun.
  cbn [after_query db db_fault db_calls clock ms_mintStatus ms_txHash
         ms_blockNumber ms_retryCount ms_lastAttempt ms_error
         JS.string_or_null JS.int_or_null JS.int_or_zero] in Hrun.
  destruct (db_fault w (S (S (db_calls w)))).
  { injection Hrun as <- <-. split; [reflexivity|]. left. split; reflexivity. }
  unfold mbind at 1, M_bind at 1 in Hrun.
  match type of Hrun with
  | context [retry_loop config ?f b ?rq ?rc ?la ?w0] =>
      change w0 with (loop_entry b w) in Hrun;
      pose proof (retry_loop_status config b rq f rc la (loop_entry b w))
        as Hstatus;
      pose proof (retry_loop_fuel config b rq f rc la (loop_entry b w)
                    ltac:(lia)) as Hfuel;
      destruct (retry_loop config f b rq rc la (loop_entry b w))
        as [lres w4]
  end.
  specialize (Hstatus lres w4 eq_refl).
  destruct (loop_entry_facts b w) as (_ & _ & _ & _ & _ & _ & _ & Hfl).
  specialize (Hstatus (Hfl ltac:(eauto))).
  destruct lres as [[[r|n last]|]|e].
  - injection Hrun as <- <-.
    destruct Hstatus as (Hok & _ & k & Hk & _ & final & Hfinal & Hcols).
    unfold settled. rewrite Hok. exists final, k. auto.
  - unfold mbind, M_bind, now in Hrun.
    rewrite updateBatchMintStatus_run in Hrun.
    cbn [ms_mintStatus ms_txHash ms_blockNumber ms_retryCount ms_lastAttempt
           ms_error JS.int_or_zero JS.int_or_null] in Hrun.
    fold (last_message last) in Hrun.
    rewrite last_message_not_empty in Hrun.
    destruct Hstatus as ((old & Hold & Hin) & _).
    destruct (db_fault w4 (db_calls w4)).
    + injection Hrun as <- <-. split; [reflexivity|]. right.
      exists old. cbn [after_query db]. auto.
    + injection Hrun as <- <-. unfold settled. cbn [success retryCount].
      right.
      destruct (given_up_row b n last w4 old Hold) as (final & Hfinal & Hcols).
      exists final, n. unfold mint_columns in Hcols.
      injection Hcols as H1 H2 H3 H4 H5 H6.
      split; [exact Hfinal|]. rewrite H6. repeat split; eauto.
  - exfalso. apply Hfuel. reflexivity.
  - injection Hrun as <- <-. destruct Hstatus as (-> & Hin).
    split; [reflexivity|]. right. exact Hin.
Qed.

(** X18.  Whatever the storage and the chain do, triggerMint changes nothing
    but the mint columns and updated_at of its own batch row: users,
    transactions, links, the audit log, every other batch row and the
    other columns of its row are kept (and no row is created or
    deleted). *)
Theorem triggerMint_frame b w :
  let w' := (triggerMint config b w).2 in
  same_but_mint b (db w) (db w')
  /\ db_fault w' = db_fault w
  /\ chain w' = chain w.
Proof. apply triggerMint_frame_run. Qed.

(** X19.  For an eligible batch with both wallets on file and a working
    storage: if the first k attempts (k < maxRetries) fail with
    retryable errors and the next one is confirmed, triggerMint returns
    success with retryCount k, has submitted the same request k+1 times
    (batch id, the two wallets, the stored weight and IPFS hash), has
    waited retryDelay * 2^i after the (i+1)-th failure, has made 4 + k
    storage calls, and leaves the row MINTED with the hash, the block,
    retry_count k, last_attempt and mint_error null, and the other
    columns as they were. *)
Theorem triggerMint_succeeds_after_retries b w row ca ra k h bl g :
  (forall n, db_fault w n = false) ->
  eligible (db w) b row ->
  wallets_on_file (db w) row ca ra ->
  (k < maxRetries config)%nat ->
  (forall i, (i < k)%nat ->
     exists e, attempt_fails (chain w (chain_calls w + i)%nat) e
               /\ be_retryable e = true) ->
  chain w (chain_calls w + k)%nat = Confirmed h bl g ->
  exists w' final,
    triggerMint config b w
    = (Ok (Some {| success := true; transactionHash := Some h;
                   blockNumber := Some bl; gasUsed := Some g;
                   error := None; retryCount := Some k |}), w')
    /\ submissions (trace w') =
       submissions (trace w) ++ replicate (S k) (mint_request b row ca ra)
    /\ waits (trace w') = waits (trace w) ++ backoff config 0 k
    /\ db_calls w' = (db_calls w + 4 + k)%nat
    /\ batches (db w') !! b = Some final
    /\ mint_columns final =
       (Some MINTED, JS.string_or_null (Some h), JS.int_or_null (Some bl),
        Z.of_nat k, None, None)
    /\ other_columns final = other_columns row.
Proof. apply triggerMint_mints_run. Qed.

(** X20.  For an eligible batch with both wallets on file and a working
    storage: if all maxRetries attempts fail with retryable errors,
    triggerMint returns a failure with retryCount maxRetries after
    maxRetries submissions of the same request and maxRetries - 1 waits
    of retryDelay, 2 * retryDelay, 4 * retryDelay, ... (none after the
    last failure), having made 4 + maxRetries storage calls; the row
    ends FAILED_ON_CHAIN with retry_count maxRetries and the message of
    the last error. *)
Theorem triggerMint_exhausts_retries_schedule b w row ca ra :
  (forall n, db_fault w n = false) ->
  eligible (db w) b row ->
  wallets_on_file (db w) row ca ra ->
  (0 < maxRetries config)%nat ->
  (forall i, (i < maxRetries config)%nat ->
     exists e, attempt_fails (chain w (chain_calls w + i)%nat) e
               /\ be_retryable e = true) ->
  exists r w' final,
    triggerMint config b w = (Ok (Some r), w')
    /\ success r = false
    /\ retryCount r = Some (maxRetries config)
    /\ submissions (trace w') =
       submissions (trace w)
       ++ replicate (maxRetries config) (mint_request b row ca ra)
    /\ waits (trace w') =
       waits (trace w) ++ backoff config 0 (maxRetries config - 1)
    /\ db_calls w' = (db_calls w + 4 + maxRetries config)%nat
    /\ batches (db w') !! b = Some final
    /\ Batch.mint_status final = Some FAILED_ON_CHAIN
    /\ Batch.retry_count final = Z.of_nat (maxRetries config)
    /\ (forall e,
          attempt_fails
            (chain w (chain_calls w + (maxRetries config - 1))%nat) e ->
          Batch.mint_error final = Some (be_message e)).
Proof. apply triggerMint_exhausts_run. Qed.

End TriggerMintFacts.


Lemma ready_eligible : eligible Scenario.ready 7 Scenario.ready_row.
Proof. repeat split. left. reflexivity. Qed.

Lemma ready_wallets :
  wallets_on_file Scenario.ready Scenario.ready_row "0xC011" "0x4EC1".
Proof.
  exists 2, (Sample.usr 1 collector (Some "0xC011")),
    (Sample.usr 2 recycler (Some "0x4EC1")).
  repeat split; discriminate.
Qed.

Lemma triggerMint_exhausts_retries_schedule_witness :
  exists r w',
    triggerMint default_config 7 Sample.always_times_out = (Ok (Some r), w')
    /\ retryCount r = Some 3%nat
    /\ waits (trace w') = [5000; 10000]
    /\ length (submissions (trace w')) = 3%nat.
Proof.
  destruct (triggerMint_exhausts_retries_schedule default_config 7
              Sample.always_times_out Scenario.ready_row "0xC011" "0x4EC1")
    as (r & w' & final & Hrun & _ & Hrc & Hsub & Hwt & _).
  - intros n. reflexivity.
  - exact ready_eligible.
  - exact ready_wallets.
  - vm_compute. lia.
  - intros i _. exists Scenario.timeout. split; reflexivity.
  - exists r, w'. split; [exact Hrun|]. split; [exact Hrc|].
    split; [rewrite Hwt; reflexivity|]. rewrite Hsub. reflexivity.
Defined.

Lemma triggerMint_succeeds_after_retries_witness :
  exists w' final,
    triggerMint default_config 7 Scenario.confirms_second
    = (Ok (Some {| success := true; transactionHash := Some "0xabc";
                   blockNumber := Some 4242; gasUsed := Some "21000";
                   error := None; retryCount := Some 1%nat |}), w')
    /\ waits (trace w') = [5000]
    /\ batches (db w') !! 7 = Some final
    /\ mint_columns final
       = (Some MINTED, Some "0xabc", Some 4242, 1, None, None).
Proof.
  destruct (triggerMint_succeeds_after_retries default_config 7
              Scenario.confirms_second Scenario.ready_row "0xC011" "0x4EC1"
              1 "0xabc" 4242 "21000")
    as (w' & final & Hrun & _ & Hwt & _ & Hfinal & Hcols & _).
  - intros n. reflexivity.
  - exact ready_eligible.
  - exact ready_wallets.
  - vm_compute. lia.
  - intros i Hi. assert (i = 0%nat) as -> by lia.
    exists Scenario.timeout. split; reflexivity.
  - reflexivity.
  - exists w', final. split; [exact Hrun|].
    split; [rewrite Hwt; reflexivity|]. split; [exact Hfinal|exact Hcols].
Defined.

Lemma triggerMint_resubmits_after_lost_write_witness :
  exists w' final,
    triggerMint default_config 7 Scenario.lost_write
    = (Ok (Some {| success := true; transactionHash := Some "0xabc";
                   blockNumber := Some 4242; gasUsed := Some "21000";
                   error := None; retryCount := Some 1%nat |}), w')
    /\ length (submissions (trace w')) = 2%nat
    /\ batches (db w') !! 7 = Some final
    /\ Batch.mint_status final = Some MINTED.
Proof.
  destruct (triggerMint_resubmits_after_lost_write default_config 7
              Scenario.lost_write Scenario.ready_row "0xC011" "0x4EC1"
              "0xabc" 4242 "21000" "0xabc" 4242 "21000")
    as (w' & final & Hrun & Hsub & _ & Hfinal & Hcols).
  - split; [reflexivity|]. intros n Hn. cbn.
    apply Nat.eqb_neq. exact Hn.
  - exact ready_eligible.
  - exact ready_wallets.
  - vm_compute. lia.
  - reflexivity.
  - reflexivity.
  - exists w', final. split; [exact Hrun|].
    split; [rewrite Hsub; reflexivity|]. split; [exact Hfinal|].
    unfold mint_columns in Hcols. congruence.
Defined.

Lemma triggerMint_settles_witness :
  let run := triggerMint default_config 7 Scenario.storage_goes_down in
  settled 7 Scenario.storage_goes_down run.1 run.2.
Proof.
  apply (triggerMint_settles default_config 7 Scenario.storage_goes_down).
  apply surjective_pairing.
Defined.

End MintRuns.

(** ** The cron helper and the endpoints that reach the chain *)

Section CronAndEndpoints.

Import BlockchainService.

Lemma select_failed_batches_sound m ts d b :
  b ∈ BlockchainSql.select_failed_batches m ts d ->
  exists row, batches d !! b = Some row
              /\ BlockchainSql.retriable m ts row = true.
Proof.
  unfold BlockchainSql.select_failed_batches. intros Hin.
  apply (subseteq_take 10) in Hin.
  apply list_elem_of_fmap in Hin as ([k row] & -> & Hin).
  rewrite merge_sort_Permutation in Hin.
  apply list_elem_of_In, filter_In in Hin as [Hin Hp].
  apply list_elem_of_In, elem_of_map_to_list in Hin.
  exists row. split; assumption.
Qed.

Lemma retriable_spec m ts row :
  BlockchainSql.retriable m ts row = true <->
  Batch.mint_status row = Some FAILED_ON_CHAIN
  /\ Batch.retry_count row < m
  /\ (forall t, Batch.last_attempt row = Some t -> t < ts - 3600000).
Proof.
  unfold BlockchainSql.retriable.
  rewrite !andb_true_iff, bool_decide_eq_true, Z.ltb_lt.
  destruct (Batch.last_attempt row) as [t|].
  - rewrite Z.ltb_lt. split.
    + intros [[H1 H2] H3]. repeat split; auto. intros t' [= <-]. exact H3.
    + intros (H1 & H2 & H3). auto.
  - split; [intros [[H1 H2] _]; repeat split; auto; discriminate|].
    intros (H1 & H2 & _). auto.
Qed.

Section Cron.

Variable config : BlockchainConfig.

Lemma retry_each_counts ids : forall s f w,
  exists s' f' w',
    retry_each config ids s f w = (Ok (s', f'), w')
    /\ (s' + f' = s + f + length ids)%nat
    /\ db_fault w' = db_fault w
    /\ (ids = [] -> w' = w).
Proof.
  induction ids as [|b ids IH]; intros s f w.
  - exists s, f, w. cbn. repeat split; lia.
  - cbn [retry_each]. unfold mbind at 1, M_bind at 1, try_catch.
    unfold mbind at 1, M_bind at 1.
    destruct (triggerMint_frame_run config b w) as (_ & Hdf & _).
    destruct (triggerMint config b w) as [[[r|]|e] w1];
      cbn [snd] in Hdf; unfold mret at 1, M_ret at 1.
    + destruct (success r);
        [destruct (IH (S s) f w1) as (s' & f' & w' & Hrun & Hsum & Hdf' & _)
        |destruct (IH s (S f) w1) as (s' & f' & w' & Hrun & Hsum & Hdf' & _)];
        exists s', f', w'; (split; [exact Hrun|]); cbn [length];
        (split; [lia|]); (split; [congruence|discriminate]).
    + destruct (IH s (S f) w1) as (s' & f' & w' & Hrun & Hsum & Hdf' & _).
      exists s', f', w'. split; [exact Hrun|]. cbn [length].
      split; [lia|]. split; [congruence|discriminate].
    + destruct (IH s (S f) w1) as (s' & f' & w' & Hrun & Hsum & Hdf' & _).
      exists s', f', w'. split; [exact Hrun|]. cbn [length].
      split; [lia|]. split; [congruence|discriminate].
Qed.

(** X21.  retryFailedBatches never throws.  It retries at most 10 batches
    per run and reports retried = successful + failed; when its SELECT
    fails it reports zeros and changes nothing; otherwise retried is the
    number of batches selected, and a batch that is not FAILED_ON_CHAIN,
    or whose retry_count has reached maxRetries, is not among them. *)
Theorem retryFailedBatches_accounts w :
  exists rep w',
    retryFailedBatches config w = (Ok rep, w')
    /\ retried rep = (successful rep + failed rep)%nat
    /\ (retried rep <= 10)%nat
    /\ (db_fault w (db_calls w) = true ->
        rep = {| retried := 0; successful := 0; failed := 0 |}
        /\ w' = after_query w (db w))
    /\ (db_fault w (db_calls w) = false ->
        retried rep
        = length (BlockchainSql.select_failed_batches
                    (Z.of_nat (maxRetries config)) (clock w) (db w)))
    /\ (forall b,
          db_fault w (db_calls w) = false ->
          (forall row, batches (db w) !! b = Some row ->
             Batch.mint_status row <> Some FAILED_ON_CHAIN
             \/ Z.of_nat (maxRetries config) <= Batch.retry_count row) ->
          b ∉ BlockchainSql.select_failed_batches
                (Z.of_nat (maxRetries config)) (clock w) (db w)).
Proof.
  unfold retryFailedBatches, try_catch, mbind at 1, M_bind at 1, now.
  unfold mbind at 1, M_bind at 1, db_query, reading.
  destruct (db_fault w (db_calls w)) eqn:Hf.
  { eexists. eexists. split; [reflexivity|]. cbn.
    repeat split; try lia; discriminate. }
  set (ids := BlockchainSql.select_failed_batches _ _ _).
  unfold mbind at 1, M_bind at 1.
  destruct (retry_each_counts ids 0%nat 0%nat (after_query w (db w)))
    as (s' & f' & w' & Hrun & Hsum & _).
  rewrite Hrun. unfold mret, M_ret.
  eexists. eexists. split; [reflexivity|].
  cbn [retried successful failed fst snd].
  split; [lia|]. split.
  { unfold ids, BlockchainSql.select_failed_batches. rewrite length_take. lia. }
  split; [discriminate|]. split; [reflexivity|].
  intros b _ Hb Hin.
  apply select_failed_batches_sound in Hin as (row & Hrow & Hret).
  apply retriable_spec in Hret as (H1 & H2 & _).
  destruct (Hb row Hrow) as [H|H]; [congruence|lia].
Qed.

End Cron.

Section CronSkips.

Variable config : BlockchainConfig.

(** X22.  A batch whose mint failed on all maxRetries attempts with
    retryable errors is stored FAILED_ON_CHAIN with retry_count =
    maxRetries, so the SELECT of retryFailedBatches (retry_count <
    maxRetries) does not return it at any later time: the cron helper
    never retries such a batch. *)
Theorem retryFailedBatches_skips_exhausted b w row ca ra :
  (forall n, db_fault w n = false) ->
  eligible (db w) b row ->
  wallets_on_file (db w) row ca ra ->
  (0 < maxRetries config)%nat ->
  (forall i, (i < maxRetries config)%nat ->
     exists e, attempt_fails (chain w (chain_calls w + i)%nat) e
               /\ be_retryable e = true) ->
  let w' := (triggerMint config b w).2 in
  (exists final,
     batches (db w') !! b = Some final
     /\ Batch.mint_status final = Some FAILED_ON_CHAIN
     /\ Batch.retry_count final = Z.of_nat (maxRetries config))
  /\ forall ts,
       b ∉ BlockchainSql.select_failed_batches
             (Z.of_nat (maxRetries config)) ts (db w').
Proof.
  intros Hf Hel Hwal Hm Hfail. cbv zeta.
  destruct (triggerMint_exhausts_run config b w row ca ra Hf Hel Hwal Hm Hfail)
    as (r & w' & final & Hrun & _ & _ & _ & _ & _ & Hfinal & Hst & Hrc & _).
  rewrite Hrun. cbn [snd]. split; [exists final; auto|].
  intros ts Hin.
  apply select_failed_batches_sound in Hin as (row' & Hrow' & Hret).
  apply retriable_spec in Hret as (_ & Hlt & _).
  rewrite Hfinal in Hrow'. injection Hrow' as <-. lia.
Qed.

End CronSkips.

Import BatchMintController.

(** X23.  getBatchMintStatus answers 403 to every request and never reads
    the storage: it looks the role up among the upper-case strings
    COLLECTOR and RECYCLER, while the values of UserRole are citizen,
    collector and recycler. *)
Theorem getBatchMintStatus_always_denies receipts user b w :
  getBatchMintStatus receipts user b w = (Ok MintStatus403, w).
Proof.
  unfold getBatchMintStatus, try_catch.
  destruct user as [u|]; [|reflexivity].
  destruct (User.role u) eqn:Hr; cbn [role_value];
    rewrite bool_decide_eq_false_2; try reflexivity;
    rewrite !elem_of_cons, elem_of_nil; intros [H|[H|[]]]; discriminate.
Qed.

Lemma triggerMintAsync_run b w :
  triggerMintAsync b w
  = (Ok tt, (triggerMint default_config b (sleep 1000 w).2).2).
Proof.
  unfold triggerMintAsync, try_catch, mbind, M_bind, sleep. cbn [snd].
  destruct (triggerMint default_config b _) as [[r|e] w']; reflexivity.
Qed.

(** X24.  The detached task triggerMintAsync never throws, whatever
    triggerMint does; it changes only the mint columns of its batch; and
    for a batch that is not eligible it changes no table and records
    nothing but its one-second wait. *)
Theorem triggerMintAsync_quiet b w :
  exists w',
    triggerMintAsync b w = (Ok tt, w')
    /\ same_but_mint b (db w) (db w')
    /\ db_fault w' = db_fault w
    /\ chain w' = chain w
    /\ ((forall row, ~ eligible (db w) b row) ->
        db w' = db w /\ trace w' = trace w ++ [EvSleep 1000]).
Proof.
  rewrite triggerMintAsync_run. eexists. split; [reflexivity|].
  destruct (triggerMint_frame_run default_config b (sleep 1000 w).2)
    as (H1 & H2 & H3).
  split; [exact H1|]. split; [exact H2|]. split; [exact H3|].
  intros Hne. rewrite triggerMint_refuses by exact Hne.
  split; reflexivity.
Qed.

(** X25.  retryBatchMint always answers (nothing escapes its catch) and
    changes at most the mint columns of its batch.  With 403, 404 or 400
    no table is changed and nothing is submitted.  It reaches
    triggerMint (answering 200, or 500 if that throws) only for a
    recycler who is the recycler of an existing batch that is
    FAILED_ON_CHAIN; a 200 carries the id of the batch and a mint
    result. *)
Theorem retryBatchMint_guards user b w :
  exists resp w',
    retryBatchMint user b w = (Ok resp, w')
    /\ same_but_mint b (db w) (db w')
    /\ (answers_without_minting resp = true ->
        db w' = db w /\ trace w' = trace w)
    /\ (answers_without_minting resp = false ->
        exists u row,
          user = Some u
          /\ User.role u = recycler
          /\ batches (db w) !! b = Some row
          /\ Batch.recycler_id row = Some (User.id u)
          /\ Batch.mint_status row = Some FAILED_ON_CHAIN
          /\ forall id r,
               resp = Retry200 id r -> id = Batch.id row /\ is_Some r).
Proof.
  assert (Hquiet : forall resp w0,
            answers_without_minting resp = true ->
            db w0 = db w -> trace w0 = trace w ->
            exists resp' w',
              (Ok resp, w0) = (Ok resp', w')
              /\ same_but_mint b (db w) (db w')
              /\ (answers_without_minting resp' = true ->
                  db w' = db w /\ trace w' = trace w)
              /\ (answers_without_minting resp' = false ->
                  exists u row,
                    user = Some u
                    /\ User.role u = recycler
                    /\ batches (db w) !! b = Some row
                    /\ Batch.recycler_id row = Some (User.id u)
                    /\ Batch.mint_status row = Some FAILED_ON_CHAIN
                    /\ forall id r,
                         resp' = Retry200 id r ->
                         id = Batch.id row /\ is_Some r)).
  { intros resp w0 Hq Hdb Htr. exists resp, w0. split; [reflexivity|].
    rewrite Hdb. split; [apply same_but_mint_refl|].
    split; [auto|]. rewrite Hq. discriminate. }
  unfold retryBatchMint, try_catch.
  destruct user as [u|]; [|apply Hquiet; reflexivity].
  destruct (decide (User.role u = recycler)) as [Hrole|Hrole];
    [rewrite bool_decide_eq_true_2 by exact Hrole
    |rewrite bool_decide_eq_false_2 by exact Hrole; apply Hquiet; reflexivity].
  cbn [negb]. unfold mbind at 1, M_bind at 1. rewrite getBatchById_run.
  destruct (db_fault w (db_calls w)); [apply Hquiet; reflexivity|].
  unfold BatchSql.select_batch_by_id.
  destruct (batches (db w) !! b) as [row|] eqn:Hrow;
    [|apply Hquiet; reflexivity].
  destruct (users (db w) !! Batch.collector_id row);
    [|apply Hquiet; reflexivity].
  cbn [head].
  destruct (decide (Batch.recycler_id row = Some (User.id u))) as [Hrec|Hrec];
    [rewrite bool_decide_eq_true_2 by exact Hrec
    |rewrite bool_decide_eq_false_2 by exact Hrec; apply Hquiet; reflexivity].
  destruct (decide (Batch.mint_status row = Some FAILED_ON_CHAIN))
    as [Hst|Hst];
    [rewrite bool_decide_eq_true_2 by exact Hst
    |rewrite bool_decide_eq_false_2 by exact Hst; apply Hquiet; reflexivity].
  cbn [negb]. unfold mbind, M_bind.
  destruct (triggerMint_frame_run default_config b (after_query w (db w)))
    as (Hsame & _).
  pose proof (triggerMint_total default_config b (after_query w (db w)))
    as Htotal.
  destruct (triggerMint default_config b (after_query w (db w)))
    as [[res|e] w'] eqn:Hrun; cbn [fst snd] in *.
  - eexists. eexists. split; [reflexivity|]. split; [exact Hsame|].
    split; [discriminate|]. intros _. exists u, row.
    do 5 (split; [assumption || reflexivity|]).
    intros i r' [= <- <-]. split; [reflexivity|].
    destruct res as [res|]; [eauto|congruence].
  - eexists. eexists. split; [reflexivity|]. split; [exact Hsame|].
    split; [discriminate|]. intros _. exists u, row.
    do 5 (split; [assumption || reflexivity|]). discriminate.
Qed.

(** X26.  A retry by hand starts a fresh run, whatever retry_count the row
    had: for a verified FAILED_ON_CHAIN batch with both wallets on file
    and a working storage, requested by its recycler, if k < 3 attempts
    fail with retryable errors and the next one is confirmed, the answer
    is 200 with a successful result of retryCount k, k+1 submissions
    were made, and the row is MINTED with retry_count k. *)
Theorem retryBatchMint_restarts u b w row ca ra k h bl g :
  (forall n, db_fault w n = false) ->
  User.role u = recycler ->
  batches (db w) !! b = Some row ->
  Batch.verification_status row = verified ->
  Batch.mint_status row = Some FAILED_ON_CHAIN ->
  Batch.recycler_id row = Some (User.id u) ->
  wallets_on_file (db w) row ca ra ->
  (k < 3)%nat ->
  (forall i, (i < k)%nat ->
     exists e, attempt_fails (chain w (chain_calls w + i)%nat) e
               /\ be_retryable e = true) ->
  chain w (chain_calls w + k)%nat = Confirmed h bl g ->
  exists w' final,
    retryBatchMint (Some u) b w
    = (Ok (Retry200 (Batch.id row)
             (Some {| success := true; transactionHash := Some h;
                      blockNumber := Some bl; gasUsed := Some g;
                      error := None; retryCount := Some k |})), w')
    /\ submissions (trace w') =
       submissions (trace w) ++ replicate (S k) (mint_request b row ca ra)
    /\ batches (db w') !! b = Some final
    /\ mint_columns final =
       (Some MINTED, JS.string_or_null (Some h), JS.int_or_null (Some bl),
        Z.of_nat k, None, None).
Proof.
  intros Hf Hrole Hrow Hver Hst Hrec Hwal Hk Hfail Hok.
  assert (Hcol : is_Some (users (db w) !! Batch.collector_id row)).
  { destruct Hwal as (rid & uc & ur & _ & _ & Huc & _). eauto. }
  destruct Hcol as [uc Huc].
  destruct (triggerMint_mints_run default_config b (after_query w (db w))
              row ca ra k h bl g)
    as (w' & final & Hrun & Hsub & _ & _ & Hfinal & Hcols & _);
    try assumption.
  { split; [exact Hrow|]. split; [exact Hver|]. right. exact Hst. }
  exists w', final.
  unfold retryBatchMint, try_catch.
  rewrite bool_decide_eq_true_2 by exact Hrole. cbn [negb].
  unfold mbind at 1, M_bind at 1. rewrite getBatchById_run, Hf.
  unfold BatchSql.select_batch_by_id. rewrite Hrow, Huc. cbn [head].
  rewrite bool_decide_eq_true_2 by exact Hrec.
  rewrite bool_decide_eq_true_2 by exact Hst. cbn [negb].
  unfold mbind, M_bind. rewrite Hrun. unfold mret, M_ret.
  repeat split; assumption.
Qed.

Import BatchController.

Lemma verifyBatch_launches req w u old :
  user req = Some u ->
  User.role u = recycler ->
  validateVerifyBatchRequest (body req) = [] ->
  (verified_weight_total (body req) < 100000000)%Q ->
  (forall n, db_fault w n = false) ->
  batches (db w) !! batch_id (body req) = Some old ->
  Batch.verification_status old = pending ->
  is_Some (users (db w) !! Batch.collector_id old) ->
  exists upd res w',
    verifyBatch req w
    = (Ok (Status200 (Some upd) res
             (bool_decide (wc_status res = APPROVED))), w')
    /\ (VerificationService.verifyBatchWeight (batch_id (body req))
          (verified_weight_total (body req)) (User.id u)
          (after_query w (db w))).1 = Ok res
    /\ batches (db w') !! batch_id (body req) = Some upd
    /\ users (db w') = users (db w)
    /\ db_fault w' = db_fault w
    /\ chain w' = chain w
    /\ chain_calls w' = chain_calls w
    /\ trace w' = trace w
    /\ Batch.recycler_id upd = Some (User.id u)
    /\ (Batch.total_weight_grams upd == verified_weight_total (body req))%Q
    /\ Batch.verification_status upd = stored_status (wc_status res)
    /\ Batch.ipfs_proof_hash upd = Some (ipfs_proof_hash (body req))
    /\ Batch.collector_id upd = Batch.collector_id old
    /\ Batch.mint_status upd = Batch.mint_status old.
Proof.
  intros Hu Hrole Hvalid Hlt Hf Hb Hpending Hc.
  destruct (verifyBatch_success_run req w u old Hu Hrole Hvalid Hlt Hf Hb
              Hpending Hc)
    as (new & res & w1 & w' & stored & Hrun & Hmain & _ & Hstored & Hcols
        & Hkept & Hdb & _ & Hdf & Hch & Hcc & Htr & _).
  destruct (verifyBatchWeight_world (batch_id (body req))
              (verified_weight_total (body req)) (User.id u)
              (after_query w (db w)))
    as (res' & w1' & Hrun' & Husers & _).
  rewrite Hrun in Hrun'. injection Hrun' as <- <-.
  exists new, res, w'. split; [exact Hmain|].
  split; [rewrite Hrun; reflexivity|].
  unfold verification_columns in Hcols.
  injection Hcols as H1 H2 H3 H4 _ _ _ _ _.
  unfold kept_by_verification, mint_columns in Hkept.
  injection Hkept as _ K2 K3 _.
  rewrite Hdb. cbn [Sql.insert_audit set_audit_log set_batches db users
                      batches].
  split; [apply lookup_insert_eq|]. split; [exact Husers|].
  rewrite H2. repeat split; assumption.
Qed.

Lemma within_tolerance_approved b v r w :
  db_fault w (db_calls w) = false ->
  is_Some (batches (db w) !! b) ->
  member_transactions (db w) b <> [] ->
  (0 < member_weight (db w) b)%Q ->
  (percent_difference (member_weight (db w) b) v <= 5)%Q ->
  forall res,
    (VerificationService.verifyBatchWeight b v r w).1 = Ok res ->
    wc_status res = APPROVED.
Proof.
  intros Hf [row Hrow] Hne Hpos Hpct res Hres.
  destruct (verifyBatchWeight_normal b v r w)
    as (res' & Hrun & _ & _ & Hp & _ & Hst & _).
  { intros [H|[H|H]]; congruence. }
  rewrite Hrun in Hres. injection Hres as <-.
  rewrite Hst, Hp.
  apply JS_gt_iff in Hpos. rewrite Hpos.
  apply JS_le_iff in Hpct. unfold percent_difference in Hpct.
  unfold JS.abs. rewrite Hpct. reflexivity.
Qed.

(** X27.  From the verification to the mint.  When a recycler's valid
    request is below 10^8 grams and within 5% of the recomputed
    (positive) member weight, for a pending batch whose mint_status is
    null, with both wallets on file and a working storage, verifyBatch
    answers 200 with the mint initiated, and the detached task then
    submits one request carrying the batch id, the two wallets, the
    recycler's verified weight (the value just stored, not the members'
    total) and the IPFS hash of the request; once the chain confirms it,
    the row is MINTED with retry_count 0. *)
Theorem verifyBatch_then_mint req w u old uc ur ca ra h bl g :
  user req = Some u ->
  User.role u = recycler ->
  validateVerifyBatchRequest (body req) = [] ->
  (forall n, db_fault w n = false) ->
  batches (db w) !! batch_id (body req) = Some old ->
  Batch.verification_status old = pending ->
  Batch.mint_status old = None ->
  member_transactions (db w) (batch_id (body req)) <> [] ->
  (0 < member_weight (db w) (batch_id (body req)))%Q ->
  (percent_difference (member_weight (db w) (batch_id (body req)))
     (verified_weight_total (body req)) <= 5)%Q ->
  (verified_weight_total (body req) < 100000000)%Q ->
  users (db w) !! Batch.collector_id old = Some uc ->
  users (db w) !! User.id u = Some ur ->
  User.id u <> Batch.collector_id old ->
  User.role uc = collector ->
  User.role ur = recycler ->
  User.wallet_address uc = Some ca ->
  User.wallet_address ur = Some ra ->
  ca <> "" ->
  ra <> "" ->
  chain w (chain_calls w) = Confirmed h bl g ->
  exists upd res w' w'' final request,
    verifyBatch req w = (Ok (Status200 (Some upd) res true), w')
    /\ wc_status res = APPROVED
    /\ triggerMintAsync (batch_id (body req)) w' = (Ok tt, w'')
    /\ submissions (trace w'') = submissions (trace w) ++ [request]
    /\ mr_batchId request = batch_id (body req)
    /\ collectorAddress request = ca
    /\ recyclerAddress request = ra
    /\ (weightAmount request == verified_weight_total (body req))%Q
    /\ ipfsHash request = Some (ipfs_proof_hash (body req))
    /\ batches (db w'') !! batch_id (body req) = Some final
    /\ mint_columns final =
       (Some MINTED, JS.string_or_null (Some h),
        JS.int_or_null (Some bl), 0, None, None).
Proof.
  intros Hu Hrole Hvalid Hf Hb Hpending Hmint Hmem Hpos Hpct Hlt Huc Hur Hne
    Hrc Hrr Hwc Hwr Hca Hra Hok.
  destruct (verifyBatch_launches req w u old Hu Hrole Hvalid Hlt Hf Hb
              Hpending ltac:(eauto))
    as (upd & res & w' & Hrun & Hres & Hupd & Husers & Hdf & Hch & Hcc & Htr
        & Hrec & Hweight & Hst & Hipfs & Hcol & Hms).
  assert (Happ : wc_status res = APPROVED).
  { apply (within_tolerance_approved (batch_id (body req))
             (verified_weight_total (body req)) (User.id u)
             (after_query w (db w))); try assumption.
    - apply Hf.
    - cbn [after_query db]. eauto. }
  destruct (triggerMint_mints_run default_config (batch_id (body req))
              (sleep 1000 w').2 upd ca ra 0 h bl g)
    as (w'' & final & Hmints & Hsub & _ & _ & Hfinal & Hcols & _).
  - intros n. cbn [sleep snd db_fault]. rewrite Hdf. apply Hf.
  - cbn [sleep snd db]. split; [exact Hupd|].
    split; [rewrite Hst, Happ; reflexivity|]. left. congruence.
  - cbn [sleep snd db]. exists (User.id u), uc, ur.
    rewrite Husers, Hcol. repeat split; assumption.
  - change (0 < 3)%nat. lia.
  - intros i Hi. lia.
  - cbn [sleep snd chain chain_calls]. rewrite Hch, Hcc, Nat.add_0_r.
    exact Hok.
  - exists upd, res, w', w'', final,
      (mint_request (batch_id (body req)) upd ca ra).
    split.
    { rewrite Hrun, Happ. reflexivity. }
    split; [exact Happ|].
    split; [rewrite triggerMintAsync_run, Hmints; reflexivity|].
    split.
    { rewrite Hsub. cbn [sleep snd trace]. rewrite submissions_app, Htr.
      cbn. rewrite app_nil_r. reflexivity. }
    cbn [mint_request mr_batchId collectorAddress recyclerAddress
           weightAmount ipfsHash].
    repeat split; assumption.
Qed.

(** X28.  If the pending batch carries a mint_status other than null or
    FAILED_ON_CHAIN (PENDING_MINT is the default of the column),
    verifyBatch still answers 200 and keeps that mint_status, but the
    detached task finds the batch not eligible: after its one-second
    wait it submits nothing and changes no table. *)
Theorem verifyBatch_then_mint_blocked req w u old s :
  user req = Some u ->
  User.role u = recycler ->
  validateVerifyBatchRequest (body req) = [] ->
  (verified_weight_total (body req) < 100000000)%Q ->
  (forall n, db_fault w n = false) ->
  batches (db w) !! batch_id (body req) = Some old ->
  Batch.verification_status old = pending ->
  is_Some (users (db w) !! Batch.collector_id old) ->
  Batch.mint_status old = Some s ->
  s <> FAILED_ON_CHAIN ->
  exists upd res w' w'',
    verifyBatch req w
    = (Ok (Status200 (Some upd) res
             (bool_decide (wc_status res = APPROVED))), w')
    /\ triggerMintAsync (batch_id (body req)) w' = (Ok tt, w'')
    /\ db w'' = db w'
    /\ trace w'' = trace w ++ [EvSleep 1000]
    /\ batches (db w'') !! batch_id (body req) = Some upd
    /\ Batch.mint_status upd = Some s.
Proof.
  intros Hu Hrole Hvalid Hlt Hf Hb Hpending Hc Hmint Hs.
  destruct (verifyBatch_launches req w u old Hu Hrole Hvalid Hlt Hf Hb
              Hpending Hc)
    as (upd & res & w' & Hrun & _ & Hupd & _ & _ & _ & _ & Htr & _ & _ & _
        & _ & _ & Hms).
  exists upd, res, w'. eexists. split; [exact Hrun|].
  rewrite triggerMintAsync_run, triggerMint_refuses.
  - split; [reflexivity|]. cbn [snd after_query sleep db trace].
    rewrite Htr, Hms, Hmint. repeat split. exact Hupd.
  - intros row (Hrow & _ & Hel). cbn [sleep snd db] in Hrow.
    rewrite Hupd in Hrow. injection Hrow as <-.
    rewrite Hms, Hmint in Hel. destruct Hel as [Hel|Hel]; congruence.
Qed.

Lemma retryFailedBatches_skips_exhausted_witness :
  let w' := (triggerMint default_config 7 Sample.always_times_out).2 in
  (exists final,
     batches (db w') !! 7 = Some final
     /\ Batch.mint_status final = Some FAILED_ON_CHAIN
     /\ Batch.retry_count final = 3)
  /\ 7 ∉ BlockchainSql.select_failed_batches 3 (clock w' + 7200000) (db w').
Proof.
  destruct (retryFailedBatches_skips_exhausted default_config 7
              Sample.always_times_out Scenario.ready_row "0xC011" "0x4EC1")
    as [Hrow Hskip].
  - intros n. reflexivity.
  - exact ready_eligible.
  - exact ready_wallets.
  - vm_compute. lia.
  - intros i _. exists Scenario.timeout. split; reflexivity.
  - split; [exact Hrow|apply Hskip].
Defined.

Lemma retryBatchMint_restarts_witness :
  exists w' final,
    retryBatchMint (Some EndpointScenario.the_recycler) 7
      EndpointScenario.second_chance
    = (Ok (Retry200 7
             (Some {| success := true; transactionHash := Some "0xabc";
                      blockNumber := Some 4242; gasUsed := Some "21000";
                      error := None; retryCount := Some 1%nat |})), w')
    /\ length (submissions (trace w')) = 2%nat
    /\ batches (db w') !! 7 = Some final
    /\ mint_columns final
       = (Some MINTED, Some "0xabc", Some 4242, 1, None, None).
Proof.
  destruct (retryBatchMint_restarts EndpointScenario.the_recycler 7
              EndpointScenario.second_chance EndpointScenario.failed_row
              "0xC011" "0x4EC1" 1 "0xabc" 4242 "21000")
    as (w' & final & Hrun & Hsub & Hfinal & Hcols).
  - intros n. reflexivity.
  - reflexivity.
  - reflexivity.
  - reflexivity.
  - reflexivity.
  - reflexivity.
  - exists 2, EndpointScenario.the_collector, EndpointScenario.the_recycler.
    repeat split; discriminate.
  - lia.
  - intros i Hi. assert (i = 0%nat) as -> by lia.
    exists Scenario.timeout. split; reflexivity.
  - reflexivity.
  - exists w', final. split; [exact Hrun|].
    split; [rewrite Hsub; reflexivity|]. split; [exact Hfinal|exact Hcols].
Defined.

Lemma verifyBatch_then_mint_witness :
  exists upd res w' w'' final request,
    verifyBatch (Sample.request 980%Q) (EndpointScenario.pending_with None)
    = (Ok (Status200 (Some upd) res true), w')
    /\ triggerMintAsync 7 w' = (Ok tt, w'')
    /\ submissions (trace w'') = [request]
    /\ (weightAmount request == 980)%Q
    /\ batches (db w'') !! 7 = Some final
    /\ Batch.mint_status final = Some MINTED.
Proof.
  destruct (verifyBatch_then_mint (Sample.request 980%Q)
              (EndpointScenario.pending_with None)
              EndpointScenario.the_recycler
              (Sample.batch 7 1000%Q pending None)
              EndpointScenario.the_collector EndpointScenario.the_recycler
              "0xC011" "0x4EC1" "0xabc" 4242 "21000")
    as (upd & res & w' & w'' & final & request & Hrun & _ & Hasync & Hsub & _
        & _ & _ & Hw & _ & Hfinal & Hcols);
    try reflexivity; try discriminate.
  exists upd, res, w', w'', final, request. split; [exact Hrun|].
  split; [exact Hasync|].
  split; [exact Hsub|]. split; [exact Hw|]. split; [exact Hfinal|].
  unfold mint_columns in Hcols. congruence.
Defined.

Lemma verifyBatch_then_mint_blocked_witness :
  exists upd res w' w'',
    verifyBatch (Sample.request 980%Q)
      (EndpointScenario.pending_with (Some PENDING_MINT))
    = (Ok (Status200 (Some upd) res
             (bool_decide (wc_status res = APPROVED))), w')
    /\ triggerMintAsync 7 w' = (Ok tt, w'')
    /\ trace w'' = [EvSleep 1000]
    /\ Batch.mint_status upd = Some PENDING_MINT.
Proof.
  destruct (verifyBatch_then_mint_blocked (Sample.request 980%Q)
              (EndpointScenario.pending_with (Some PENDING_MINT))
              EndpointScenario.the_recycler
              (Sample.batch 7 1000%Q pending (Some PENDING_MINT))
              PENDING_MINT)
    as (upd & res & w' & w'' & Hrun & Hasync & _ & Htr & _ & Hms);
    try reflexivity; try discriminate.
  - eexists. reflexivity.
  - exists upd, res, w', w''. repeat split; assumption.
Defined.

End CronAndEndpoints.
